(** * Compass NPU user-mode driver (zhouyi v3.1): parser, job builder and
      simulator back end, embedded in Rocq.

    The development follows the C++ sources:
    - [parser_base.cpp]      : [sort_io_tensor], [sort_io],
                               [fill_io_tensor_desc_inner], [parse_bss_section],
                               [parse_graph_header_top], [get_graph_bin_version];
    - [kmd/tcb.h]            : the TCB flag encoding;
    - [graph_v3.h]           : [Subgraph], [SegMMUConfig], the BSS table and
                               its setters;
    - [job_v3_1.cpp]         : [set_job_params], [setup_segmmu],
                               [config_tcb_smmu], [config_tcb_deps],
                               [setup_task_tcb], [setup_tcb_group],
                               [setup_tcb_chain], [init], [schedule],
                               [parse_dynamic_out_shape];
    - [simulator_v3_1.cpp]   : [get_start_group_id], [parse_config],
                               [is_cmdpool_full], [schedule],
                               [fill_commit_queue], [poll_status];
    - [cmd_line_parsing.cpp] : the file lists of [init_test_bench].

    Conventions.  A [uintN_t] is a [Z] in [0, 2^N); every truncation the C++
    performs is written out with [Z.modulo] or [Z.land].  A [std::vector] is
    a [list], indexed with stdpp's [!!] and updated with [<[i:=x]>].  An
    access the C++ leaves undefined (a vector indexed out of range) makes
    the embedded function return [None]. *)

From Stdlib Require Import ZArith List Lia Bool.
From stdpp Require Import base tactics option list numbers gmap strings.

Local Open Scope Z_scope.

(* ===================================================================== *)
(** * Part I.  Definitions                                                *)
(* ===================================================================== *)

(** ** Status codes ([aipu_status_t], [aipu_ll_status_t]) *)

Inductive aipu_status_t : Set :=
| AIPU_STATUS_SUCCESS
| AIPU_STATUS_ERROR_NULL_PTR
| AIPU_STATUS_ERROR_INVALID_OP
| AIPU_STATUS_ERROR_INVALID_GBIN
| AIPU_STATUS_ERROR_UNKNOWN_BIN
| AIPU_STATUS_ERROR_GVERSION_UNSUPPORTED
| AIPU_STATUS_ERROR_INVALID_TENSOR_ID
| AIPU_STATUS_ERROR_INVALID_TENSOR_TYPE
| AIPU_STATUS_ERROR_BUF_ALLOC_FAIL
| AIPU_STATUS_ERROR_ALLOC_GRIP_ID
| AIPU_STATUS_ERROR_ALLOC_GROUP_ID
| AIPU_STATUS_ERROR_SET_SHAPE_FAILED
| AIPU_STATUS_ERROR_NOT_CONFIG_SHAPE
| AIPU_STATUS_ERROR_UNMATCH_OUT_SHAPE
| AIPU_STATUS_ERROR_ZERO_TENSOR_SIZE
| AIPU_STATUS_ERROR_JOB_EXCEPTION.

#[global] Instance aipu_status_eq_dec : EqDecision aipu_status_t.
Proof. solve_decision. Defined.

Inductive aipu_ll_status_t : Set :=
| AIPU_LL_STATUS_SUCCESS
| AIPU_LL_STATUS_ERROR_TIMEOUT.

(** ** I/O tensor descriptors (parser_base.cpp) *)

(** [GraphIOTensorDesc], as filled by [fill_io_tensor_desc_inner].  [scale]
    is kept as the 32-bit pattern of the float. *)
Module GraphIOTensorDesc.
Record t : Set := mk {
  id : Z;
  size : Z;
  ref_section_iter : Z;
  offset_in_section : Z;
  scale : Z;
  zero_point : Z;
  data_type : Z
}.
End GraphIOTensorDesc.

#[global] Instance GraphIOTensorDesc_eq_dec : EqDecision GraphIOTensorDesc.t.
Proof. solve_decision. Defined.

Record GraphIOTensors : Set := mkGraphIOTensors {
  inputs : list GraphIOTensorDesc.t;
  outputs : list GraphIOTensorDesc.t;
  inter_dumps : list GraphIOTensorDesc.t;
  profiler : list GraphIOTensorDesc.t;
  printf : list GraphIOTensorDesc.t;
  layer_counter : list GraphIOTensorDesc.t;
  err_code : list GraphIOTensorDesc.t;
  segmmus : list GraphIOTensorDesc.t;
  outputs_shape : list GraphIOTensorDesc.t
}.

(** The loop of [ParserBase::sort_io_tensor].  [tensors_tmp] is the copy
    taken on entry, [pending] the part of the copy from index [i] on, and
    [tensors] the vector being rewritten in place.  The loop breaks at the
    first descriptor whose id is not below the size, leaving the writes
    already done. *)
Fixpoint sort_io_tensor_loop (tensors_tmp : list GraphIOTensorDesc.t) (i : nat)
    (pending tensors : list GraphIOTensorDesc.t)
  : aipu_status_t * list GraphIOTensorDesc.t :=
  match pending with
  | [] => (AIPU_STATUS_SUCCESS, tensors)
  | t :: pending' =>
      if Z.of_nat (length tensors_tmp) <=? GraphIOTensorDesc.id t
      then (AIPU_STATUS_ERROR_INVALID_GBIN, tensors)
      else
        sort_io_tensor_loop tensors_tmp (S i) pending'
          (if GraphIOTensorDesc.id t =? Z.of_nat i then tensors
           else <[Z.to_nat (GraphIOTensorDesc.id t) := t]> tensors)
  end.

Definition sort_io_tensor (tensors : list GraphIOTensorDesc.t)
  : aipu_status_t * list GraphIOTensorDesc.t :=
  sort_io_tensor_loop tensors 0 tensors tensors.

(** [ParserBase::sort_io]: the four lists in turn, stopping at the first
    failure; the lists already rewritten stay rewritten. *)
Definition sort_io (io : GraphIOTensors) : aipu_status_t * GraphIOTensors :=
  let '(ret, ins) := sort_io_tensor (inputs io) in
  let io1 := mkGraphIOTensors ins (outputs io) (inter_dumps io) (profiler io)
               (printf io) (layer_counter io) (err_code io) (segmmus io)
               (outputs_shape io) in
  if decide (ret = AIPU_STATUS_SUCCESS) then
    let '(ret, outs) := sort_io_tensor (outputs io1) in
    let io2 := mkGraphIOTensors (inputs io1) outs (inter_dumps io1) (profiler io1)
                 (printf io1) (layer_counter io1) (err_code io1) (segmmus io1)
                 (outputs_shape io1) in
    if decide (ret = AIPU_STATUS_SUCCESS) then
      let '(ret, dumps) := sort_io_tensor (inter_dumps io2) in
      let io3 := mkGraphIOTensors (inputs io2) (outputs io2) dumps (profiler io2)
                   (printf io2) (layer_counter io2) (err_code io2) (segmmus io2)
                   (outputs_shape io2) in
      if decide (ret = AIPU_STATUS_SUCCESS) then
        let '(ret, shapes) := sort_io_tensor (outputs_shape io3) in
        (ret, mkGraphIOTensors (inputs io3) (outputs io3) (inter_dumps io3)
                (profiler io3) (printf io3) (layer_counter io3) (err_code io3)
                (segmmus io3) shapes)
      else (ret, io3)
    else (ret, io2)
  else (ret, io1).

(** The four lists [sort_io] handles. *)
Definition sorted_lists (io : GraphIOTensors) : list (list GraphIOTensorDesc.t) :=
  [inputs io; outputs io; inter_dumps io; outputs_shape io].

(** Every descriptor sits at the position its id names. *)
Definition ids_are_positions (tensors : list GraphIOTensorDesc.t) : Prop :=
  ∀ (i : nat) t, tensors !! i = Some t → GraphIOTensorDesc.id t = Z.of_nat i.

(** Some descriptor carries an id that is not below the list's size. *)
Definition has_id_out_of_range (tensors : list GraphIOTensorDesc.t) : Prop :=
  ∃ t, t ∈ tensors ∧ Z.of_nat (length tensors) ≤ GraphIOTensorDesc.id t.

(** All ids lie in [0, size). *)
Definition ids_in_range (tensors : list GraphIOTensorDesc.t) : Prop :=
  Forall (λ t, 0 ≤ GraphIOTensorDesc.id t < Z.of_nat (length tensors)) tensors.

(** A descriptor carrying only an id, for the examples. *)
Definition desc_with_id (n : Z) : GraphIOTensorDesc.t :=
  GraphIOTensorDesc.mk n 0 0 0 0 0 0.

Definition io_with_inputs (ins : list GraphIOTensorDesc.t) : GraphIOTensors :=
  mkGraphIOTensors ins [] [] [] [] [] [] [] [].


(** ** Fixed-width integers *)

Definition u16 (x : Z) : Z := x mod 2^16.
Definition u32 (x : Z) : Z := x mod 2^32.
Definition u64 (x : Z) : Z := x mod 2^64.
Definition get_low_32 (x : Z) : Z := Z.land x 0xFFFFFFFF.
Definition get_high_32 (x : Z) : Z := Z.shiftr x 32.

(** ** The TCB record and its flag word (kmd/tcb.h, v3.1 layout) *)

Definition TCB_FLAG_TASK_TYPE (flag : Z) : Z := Z.land flag 0xF.
Definition TCB_FLAG_TASK_TYPE_GRID_INIT : Z := 0.
Definition TCB_FLAG_TASK_TYPE_GROUP_INIT : Z := 1.
Definition TCB_FLAG_TASK_TYPE_TASK : Z := 2.

Definition TCB_FLAG_DEP_TYPE_NONE : Z := 0.
Definition TCB_FLAG_DEP_TYPE_GROUP : Z := Z.shiftl 1 4.
Definition TCB_FLAG_DEP_TYPE_PRE_ALL : Z := Z.shiftl 2 4.

Definition TCB_FLAG_END_TYPE_NOT_END : Z := 0.
Definition TCB_FLAG_END_TYPE_GROUP_END : Z := Z.shiftl 1 6.
Definition TCB_FLAG_END_TYPE_GRID_END : Z := Z.shiftl 1 7.
Definition TCB_FLAG_END_TYPE_POOL_END : Z := Z.shiftl 1 8.

Definition TCB_FLAG_GRID_INIT : Z := Z.shiftl 1 21.
Definition TCB_FLAG_L2D_FLUSH : Z := Z.shiftl 1 22.

Definition EN_INTERRUPT_TEC_DONE : Z := Z.shiftl 1 0.
Definition EN_INTERRUPT_TEC_SIGNAL : Z := Z.shiftl 1 1.
Definition EN_INTERRUPT_TEC_EXCEPTION : Z := Z.shiftl 1 2.
Definition EN_INTERRUPT_TEC_FAULT : Z := Z.shiftl 1 3.
Definition EN_INTERRUPT_TEC_ALL : Z :=
  Z.lor (Z.lor (Z.lor EN_INTERRUPT_TEC_DONE EN_INTERRUPT_TEC_SIGNAL)
           EN_INTERRUPT_TEC_EXCEPTION) EN_INTERRUPT_TEC_FAULT.

Definition EN_INTERRUPT_GRID_DONE : Z := Z.shiftl 1 0.
Definition EN_INTERRUPT_GRID_GM_FALUT : Z := Z.shiftl 1 3.
Definition EN_INTERRUPT_GRID_ALL : Z :=
  Z.lor EN_INTERRUPT_GRID_DONE EN_INTERRUPT_GRID_GM_FALUT.

Definition EN_GROUP_DEPEND : Z := Z.shiftl 1 15.

(** [tcb_t].  The three variants of the union share [flag], the interrupt
    word and the 16-bit group and grid ids (same offsets in each variant),
    and [group_deps] closes the record.  Of the remaining words the record
    keeps those that do not hold an address of the memory manager:
    [group_num] of the grid-init variant and the task id, warm-up length
    and dimensions of the task variant. *)
Module tcb_t.
Record t : Set := mk {
  flag : Z;
  group_num : Z;
  interrupt_en : Z;
  groupid : Z;
  gridid : Z;
  taskid : Z;
  ica_warmup_len : Z;
  grid_dim_x : Z;
  group_dim_x : Z;
  group_id_x : Z;
  task_id_x : Z;
  group_deps : list Z
}.

(** [memset(&tcb, 0, sizeof(tcb_t))] *)
Definition zero : t := mk 0 0 0 0 0 0 0 0 0 0 0 [0; 0; 0; 0].

Definition set_flag (v : Z) (c : t) : t :=
  mk v (group_num c) (interrupt_en c) (groupid c) (gridid c) (taskid c)
     (ica_warmup_len c) (grid_dim_x c) (group_dim_x c) (group_id_x c) (task_id_x c)
     (group_deps c).

Definition set_interrupt_en (v : Z) (c : t) : t :=
  mk (flag c) (group_num c) v (groupid c) (gridid c) (taskid c)
     (ica_warmup_len c) (grid_dim_x c) (group_dim_x c) (group_id_x c) (task_id_x c)
     (group_deps c).

Definition set_group_deps (v : list Z) (c : t) : t :=
  mk (flag c) (group_num c) (interrupt_en c) (groupid c) (gridid c) (taskid c)
     (ica_warmup_len c) (grid_dim_x c) (group_dim_x c) (group_id_x c) (task_id_x c) v.
End tcb_t.

#[global] Instance tcb_eq_dec : EqDecision tcb_t.t.
Proof. solve_decision. Defined.

(** ** The graph (graph_v3.h) *)

Definition SUBG_DEPEND_NONE : Z := 0.
Definition SUBG_DEPEND_PREALL : Z := -1.

(** [struct Subgraph]; the text/rodata/dcr views and the private buffers
    only feed address fields and are left out. *)
Module Subgraph.
Record t : Set := mk {
  id : Z;
  bss_idx : Z;
  printfifo_size : Z;
  profiler_buf_size : Z;
  private_data_size : Z;
  warmup_len : Z;
  precursors : list Z;
  precursor_cnt : Z
}.
End Subgraph.

(** [struct SegMMUConfig]: [seg[4]], each with [control[2]], then the two
    control words. *)
Module SegMMUConfig.
Record t : Set := mk {
  seg : list (list Z);
  SegMMU_ctl : Z;
  SegMMU_remap : Z
}.
End SegMMUConfig.

(** [class GraphV3X], the members the job builder reads.  [m_bsegmmu] is the
    array of configs that follows the count in the [.note.aipu.segmmu]
    section; [m_text_size] is [m_text->size]. *)
Module GraphV3X.
Record t : Set := mk {
  m_subgraphs : list Subgraph.t;
  m_fake_subgraph : bool;
  m_segmmu_num : Z;
  m_bsegmmu : list SegMMUConfig.t;
  m_text_size : Z;
  m_remap_flag : Z;
  m_dynamic_shape : bool
}.

Definition get_subgraph_cnt (g : t) : Z :=
  if m_fake_subgraph g then 0 else Z.of_nat (length (m_subgraphs g)).

(** [m_subgraphs[sg_id]]; out of range is undefined in the source. *)
Definition get_subgraph (g : t) (sg_id : Z) : option Subgraph.t :=
  if sg_id <? 0 then None else m_subgraphs g !! Z.to_nat sg_id.

Definition is_dynamic_shape (g : t) : bool := m_dynamic_shape g.
End GraphV3X.

(** ** Job status and a sequencing notation *)

Inductive aipu_job_status_t : Set :=
| AIPU_JOB_STATUS_NO_STATUS
| AIPU_JOB_STATUS_INIT
| AIPU_JOB_STATUS_SCHED
| AIPU_JOB_STATUS_BIND
| AIPU_JOB_STATUS_DONE
| AIPU_JOB_STATUS_EXCEPTION.

#[global] Instance aipu_job_status_eq_dec : EqDecision aipu_job_status_t.
Proof. solve_decision. Defined.

(** A call yields a status and the state it leaves, or [None] when the
    source would index a vector out of range.  [and_then] is the
    [if (ret != AIPU_STATUS_SUCCESS) return ret;] that follows a call. *)
Definition and_then {S : Type} (r : option (aipu_status_t * S))
    (k : S → option (aipu_status_t * S)) : option (aipu_status_t * S) :=
  match r with
  | None => None
  | Some (ret, s) => if decide (ret = AIPU_STATUS_SUCCESS) then k s else Some (ret, s)
  end.

(** ** The simulator back end: grid and group ids (simulator_v3_1.cpp) *)

(** A job descriptor as handed to the device ([JobDesc]).  The device
    reaches the job through [jobbase]; the descriptor therefore carries,
    next to the chain's head, tail and length, the members of the job the
    back end reads through that pointer: its id, grid id, partition, QoS
    level and bound command pool. *)
Module JobDesc.
Record t : Set := mk {
  job_id : Z;
  grid_id : Z;
  part_id : Z;
  qos : Z;
  bind_cmdpool_id : Z;
  tcb_number : Z;
  tcb_head : Z;
  tcb_tail : Z
}.
End JobDesc.

#[global] Instance JobDesc_eq_dec : EqDecision JobDesc.t.
Proof. solve_decision. Defined.

(** The registers of the command scheduler the back end accesses. *)
Inductive tsm_reg : Set :=
| TSM_STATUS
| TSM_BUILD_INFO
| TSM_CMD_SCHED_ADDR_HI
| TSM_CMD_SCHED_ADDR_LO
| TSM_CMD_TCB_NUMBER
| TSM_CMD_SCHED_CTRL.

(** Something the driver does to the simulator engine or while waiting for
    it. *)
Inductive sim_event : Set :=
| read_register (reg : tsm_reg)
| write_register (reg : tsm_reg) (value : Z)
| cv_wait.

(** Constants and the pool chooser that simulator_v3_1.cpp takes from
    headers outside the sources at hand. *)
Record sim_consts : Type := mk_sim_consts {
  CREATE_CMD_POOL : Z;
  DISPATCH_CMD_POOL : Z;
  POOL_PCP : Z;
  POOL_SCP : Z;
  AIPU_JOB_QOS_SLOW : Z;
  get_cmdpool_id : Z → Z → Z
}.

Module SimulatorV3_1.

(** The members of [class SimulatorV3_1] the modelled methods touch, with
    the file-scope variables of simulator_v3_1.cpp.  [m_aipu] tells whether
    the engine exists ([m_aipu != nullptr]); [core_cnt] is what
    [get_core_count] reports; [tsm_status] is what the engine answers when
    [TSM_STATUS] is read; [completions] lists the grid ids the engine will
    report through [sim_cb_handler], in order; [trace] lists the register
    accesses and waits performed so far, latest first.  Jobs are named by
    their job id in [m_commit_map] and [m_done_set]. *)
Record t : Type := mk {
  m_aipu : bool;
  core_cnt : Z;
  m_grid_id : Z;
  m_group_id_bitmap : list bool;
  m_partition_mode : Z;
  m_cant_add_job_flag : bool;
  m_buffer_queue : list JobDesc.t;
  m_commit_map : gmap Z Z;
  m_done_set : gset Z;
  m_sim_done_grid_set : gset Z;
  simv3_1_has_grid_done : bool;
  completions : list Z;
  tsm_status : Z;
  trace : list sim_event
}.

Definition set_m_grid_id (v : Z) (d : t) : t :=
  mk (m_aipu d) (core_cnt d) v (m_group_id_bitmap d) (m_partition_mode d)
     (m_cant_add_job_flag d) (m_buffer_queue d) (m_commit_map d) (m_done_set d)
     (m_sim_done_grid_set d) (simv3_1_has_grid_done d) (completions d) (tsm_status d)
     (trace d).

Definition set_m_group_id_bitmap (v : list bool) (d : t) : t :=
  mk (m_aipu d) (core_cnt d) (m_grid_id d) v (m_partition_mode d) (m_cant_add_job_flag
     d) (m_buffer_queue d) (m_commit_map d) (m_done_set d) (m_sim_done_grid_set d)
     (simv3_1_has_grid_done d) (completions d) (tsm_status d) (trace d).

Definition set_m_cant_add_job_flag (v : bool) (d : t) : t :=
  mk (m_aipu d) (core_cnt d) (m_grid_id d) (m_group_id_bitmap d) (m_partition_mode d)
     v (m_buffer_queue d) (m_commit_map d) (m_done_set d) (m_sim_done_grid_set d)
     (simv3_1_has_grid_done d) (completions d) (tsm_status d) (trace d).

Definition set_m_buffer_queue (v : list JobDesc.t) (d : t) : t :=
  mk (m_aipu d) (core_cnt d) (m_grid_id d) (m_group_id_bitmap d) (m_partition_mode d)
     (m_cant_add_job_flag d) v (m_commit_map d) (m_done_set d) (m_sim_done_grid_set d)
     (simv3_1_has_grid_done d) (completions d) (tsm_status d) (trace d).

Definition set_m_commit_map (v : gmap Z Z) (d : t) : t :=
  mk (m_aipu d) (core_cnt d) (m_grid_id d) (m_group_id_bitmap d) (m_partition_mode d)
     (m_cant_add_job_flag d) (m_buffer_queue d) v (m_done_set d) (m_sim_done_grid_set
     d) (simv3_1_has_grid_done d) (completions d) (tsm_status d) (trace d).

Definition set_m_done_set (v : gset Z) (d : t) : t :=
  mk (m_aipu d) (core_cnt d) (m_grid_id d) (m_group_id_bitmap d) (m_partition_mode d)
     (m_cant_add_job_flag d) (m_buffer_queue d) (m_commit_map d) v
     (m_sim_done_grid_set d) (simv3_1_has_grid_done d) (completions d) (tsm_status d)
     (trace d).

Definition set_m_sim_done_grid_set (v : gset Z) (d : t) : t :=
  mk (m_aipu d) (core_cnt d) (m_grid_id d) (m_group_id_bitmap d) (m_partition_mode d)
     (m_cant_add_job_flag d) (m_buffer_queue d) (m_commit_map d) (m_done_set d) v
     (simv3_1_has_grid_done d) (completions d) (tsm_status d) (trace d).

Definition set_simv3_1_has_grid_done (v : bool) (d : t) : t :=
  mk (m_aipu d) (core_cnt d) (m_grid_id d) (m_group_id_bitmap d) (m_partition_mode d)
     (m_cant_add_job_flag d) (m_buffer_queue d) (m_commit_map d) (m_done_set d)
     (m_sim_done_grid_set d) v (completions d) (tsm_status d) (trace d).

Definition set_completions (v : list Z) (d : t) : t :=
  mk (m_aipu d) (core_cnt d) (m_grid_id d) (m_group_id_bitmap d) (m_partition_mode d)
     (m_cant_add_job_flag d) (m_buffer_queue d) (m_commit_map d) (m_done_set d)
     (m_sim_done_grid_set d) (simv3_1_has_grid_done d) v (tsm_status d) (trace d).

Definition set_trace (v : list sim_event) (d : t) : t :=
  mk (m_aipu d) (core_cnt d) (m_grid_id d) (m_group_id_bitmap d) (m_partition_mode d)
     (m_cant_add_job_flag d) (m_buffer_queue d) (m_commit_map d) (m_done_set d)
     (m_sim_done_grid_set d) (simv3_1_has_grid_done d) (completions d) (tsm_status d)
     v.

Definition log (e : sim_event) (d : t) : t := set_trace (e :: trace d) d.

(** [get_grid_id]: [grid_id = m_grid_id++; return 0;] with a 16-bit out
    parameter. *)
Definition get_grid_id (d : t) : Z * Z * t :=
  (0, u16 (m_grid_id d), set_m_grid_id (m_grid_id d + 1) d).

Section GroupIds.

(** The capacity of the group-id bitmap; its definition is in a header
    outside the sources at hand. *)
Variable MAX_GROUP_ID : Z.

(** [for (j = i; j < i + group_cnt; j++) if (bitmap[j] == true) ...]:
    whether the scan meets a set bit. *)
Fixpoint run_meets_set_bit (bitmap : list bool) (j cnt : nat) : option bool :=
  match cnt with
  | O => Some false
  | S cnt' =>
      match bitmap !! j with
      | None => None
      | Some true => Some true
      | Some false => run_meets_set_bit bitmap (S j) cnt'
      end
  end.

(** [for (j = i; j < i + group_cnt; j++) bitmap[j] = true;] *)
Fixpoint mark_run (bitmap : list bool) (j cnt : nat) : list bool :=
  match cnt with
  | O => bitmap
  | S cnt' => mark_run (<[j := true]> bitmap) (S j) cnt'
  end.

(** The search loop of [get_start_group_id], entered at [i] with [n]
    iterations left.  At the first clear bit [i]: overflow check, then the
    scan of the run, whose verdict [ret = -1] is overwritten by the
    [ret = 0] that follows it; the run is marked and the search ends.
    The result is [(ret, start_group_id, bitmap)]. *)
Fixpoint get_start_group_id_loop (n : nat) (i : Z) (group_cnt : Z)
    (start_group_id : Z) (bitmap : list bool) : option (Z * Z * list bool) :=
  match n with
  | O => Some (0, start_group_id, bitmap)
  | S n' =>
      match bitmap !! Z.to_nat i with
      | None => None
      | Some true =>
          get_start_group_id_loop n' (i + 1) group_cnt start_group_id bitmap
      | Some false =>
          if MAX_GROUP_ID <=? u32 (i + group_cnt)
          then Some (-1, start_group_id, bitmap)
          else
            match run_meets_set_bit bitmap (Z.to_nat i) (Z.to_nat group_cnt) with
            | None => None
            | Some taken =>
                let ret := if taken then -1 else 0 in
                let start_group_id := u16 i in
                let ret := 0 in
                Some (ret, start_group_id,
                      mark_run bitmap (Z.to_nat i) (Z.to_nat group_cnt))
            end
      end
  end.

(** [get_start_group_id(group_cnt, start_group_id)]; [start_group_id] is
    the value the caller's variable holds on entry. *)
Definition get_start_group_id (group_cnt : Z) (start_group_id : Z) (d : t)
  : option (Z * Z * t) :=
  if group_cnt =? 0 then Some (0, start_group_id, d)
  else
    match get_start_group_id_loop (Z.to_nat MAX_GROUP_ID) 0 group_cnt
            start_group_id (m_group_id_bitmap d) with
    | None => None
    | Some (ret, start, bitmap) => Some (ret, start, set_m_group_id_bitmap bitmap d)
    end.

(** [for (j = start; j < start + count; j++) bitmap[j] = false;] *)
Fixpoint clear_run (bitmap : list bool) (j cnt : nat) : list bool :=
  match cnt with
  | O => bitmap
  | S cnt' => clear_run (<[j := false]> bitmap) (S j) cnt'
  end.

(** Modelled from the spec: [put_start_group_id(start, count)] is defined
    outside the sources at hand; the spec describes it as the release of
    the run, so it clears the [count] bits from [start]. *)
Definition put_start_group_id (start_group_id group_cnt : Z) (d : t) : t :=
  set_m_group_id_bitmap
    (clear_run (m_group_id_bitmap d) (Z.to_nat start_group_id) (Z.to_nat group_cnt)) d.

End GroupIds.

(** [is_cmdpool_full] *)
Definition is_cmdpool_full (c : sim_consts) (qos part_id partition_mode cluster_idx
    reg_val : Z) : bool :=
  let cmdpool_full_flag :=
    if qos =? AIPU_JOB_QOS_SLOW c then
      if (partition_mode =? POOL_SCP c) && (part_id =? 1)
      then Z.land (Z.shiftl 1 (cluster_idx + 4)) reg_val
      else Z.land (Z.shiftl 1 cluster_idx) reg_val
    else
      if (partition_mode =? POOL_SCP c) && (part_id =? 1)
      then Z.land (Z.shiftl 1 (cluster_idx + 12)) reg_val
      else Z.land (Z.shiftl 1 (cluster_idx + 8)) reg_val in
  negb (cmdpool_full_flag =? 0).

(** [schedule(jobdesc)].  The result carries the command pool the job is
    bound to afterwards ([job->m_bind_cmdpool_id]); the queued descriptor
    sees the job with that binding. *)
Definition schedule (c : sim_consts) (jobdesc : JobDesc.t) (d : t)
  : aipu_status_t * Z * t :=
  let grid_id := u16 (JobDesc.grid_id jobdesc) in
  let part_id := JobDesc.part_id jobdesc in
  let qos := JobDesc.qos jobdesc in
  let cluster_idx := 0 in
  let part_id := if POOL_SCP c <? part_id then POOL_PCP c else part_id in
  if negb (m_aipu d) then
    (AIPU_STATUS_ERROR_NULL_PTR, JobDesc.bind_cmdpool_id jobdesc, d)
  else
    let cmd_pool_id :=
      if JobDesc.bind_cmdpool_id jobdesc =? 0xffffffff
      then get_cmdpool_id c cluster_idx part_id
      else JobDesc.bind_cmdpool_id jobdesc in
    let jobdesc :=
      JobDesc.mk (JobDesc.job_id jobdesc) (JobDesc.grid_id jobdesc)
        (JobDesc.part_id jobdesc) (JobDesc.qos jobdesc) cmd_pool_id
        (JobDesc.tcb_number jobdesc) (JobDesc.tcb_head jobdesc)
        (JobDesc.tcb_tail jobdesc) in
    let d := set_m_buffer_queue (m_buffer_queue d ++ [jobdesc]) d in
    if m_cant_add_job_flag d then (AIPU_STATUS_SUCCESS, cmd_pool_id, d)
    else
      let d := log (read_register TSM_STATUS) d in
      let reg_val := tsm_status d in
      if is_cmdpool_full c qos part_id (m_partition_mode d) cluster_idx reg_val
      then (AIPU_STATUS_SUCCESS, cmd_pool_id, d)
      else
        let d := set_m_cant_add_job_flag true d in
        match m_buffer_queue d with
        | [] => (AIPU_STATUS_SUCCESS, cmd_pool_id, d)
        | job_desc :: queue =>
            let d := set_m_buffer_queue queue d in
            let d := set_m_commit_map (<[grid_id := JobDesc.job_id job_desc]> (m_commit_map d)) d in
            let d := log (write_register TSM_CMD_SCHED_ADDR_HI
                            (get_high_32 (JobDesc.tcb_head job_desc))) d in
            let d := log (write_register TSM_CMD_SCHED_ADDR_LO
                            (get_low_32 (JobDesc.tcb_head job_desc))) d in
            let d := log (write_register TSM_CMD_TCB_NUMBER
                            (JobDesc.tcb_number job_desc)) d in
            let value :=
              u32 (Z.lor (Z.lor (Z.shiftl part_id 19) (Z.shiftl cmd_pool_id 16))
                     (Z.shiftl qos 8)) in
            let d := log (write_register TSM_CMD_SCHED_CTRL
                            (Z.lor value (CREATE_CMD_POOL c))) d in
            let d := log (write_register TSM_CMD_SCHED_CTRL (DISPATCH_CMD_POOL c)) d in
            (AIPU_STATUS_SUCCESS, cmd_pool_id, d)
        end.

(** [fill_commit_queue]; [max_limit] is 1, so the loop runs at most once,
    on the head of the queue. *)
Definition fill_commit_queue (c : sim_consts) (d : t) : aipu_status_t * t :=
  if 16 <=? Z.of_nat (size (m_commit_map d)) then (AIPU_STATUS_SUCCESS, d)
  else
    match m_buffer_queue d with
    | [] => (AIPU_STATUS_SUCCESS, d)
    | jobdesc :: queue =>
        let grid_id := u16 (JobDesc.grid_id jobdesc) in
        let part_id := JobDesc.part_id jobdesc in
        let qos := JobDesc.qos jobdesc in
        let cluster_idx := 0 in
        let part_id := if POOL_SCP c <? part_id then POOL_PCP c else part_id in
        if negb (m_aipu d) then (AIPU_STATUS_ERROR_NULL_PTR, d)
        else
          let cmd_pool_id :=
            if JobDesc.bind_cmdpool_id jobdesc =? 0xffffffff
            then get_cmdpool_id c 0 part_id
            else JobDesc.bind_cmdpool_id jobdesc in
          let d := log (read_register TSM_STATUS) d in
          let reg_val := tsm_status d in
          if is_cmdpool_full c qos part_id (m_partition_mode d) cluster_idx reg_val
          then (AIPU_STATUS_SUCCESS, d)
          else
            let d := log (write_register TSM_CMD_SCHED_ADDR_HI
                            (get_high_32 (JobDesc.tcb_head jobdesc))) d in
            let d := log (write_register TSM_CMD_SCHED_ADDR_LO
                            (get_low_32 (JobDesc.tcb_head jobdesc))) d in
            let d := log (write_register TSM_CMD_TCB_NUMBER
                            (get_low_32 (JobDesc.tcb_number jobdesc))) d in
            let value :=
              u32 (Z.lor (Z.lor (Z.shiftl part_id 19) (Z.shiftl cmd_pool_id 16))
                     (Z.shiftl qos 8)) in
            let d := log (write_register TSM_CMD_SCHED_CTRL
                            (Z.lor value (DISPATCH_CMD_POOL c))) d in
            let d := set_m_buffer_queue queue d in
            let d := set_m_commit_map (<[grid_id := JobDesc.job_id jobdesc]> (m_commit_map d)) d in
            (AIPU_STATUS_SUCCESS, set_m_cant_add_job_flag true d)
    end.

(** [sim_cb_handler] for an [AIPU_EV_GRID_END] event carrying [value]. *)
Definition sim_cb_handler (value : Z) (d : t) : t :=
  set_simv3_1_has_grid_done true
    (set_m_sim_done_grid_set ({[u16 value]} ∪ m_sim_done_grid_set d) d).

(** [simv3_1_cv.wait(lck, has_some_grid_done)]: the poller sleeps until the
    flag is raised.  While it sleeps the engine delivers its next
    completion; with no completion left the wait never ends ([None]). *)
Definition wait_some_grid_done (d : t) : option t :=
  let d := log cv_wait d in
  if simv3_1_has_grid_done d then Some d
  else
    match completions d with
    | [] => None
    | value :: rest => Some (sim_cb_handler value (set_completions rest d))
    end.

(** The drain of [poll_status]: every reported grid that is in the commit
    map moves its job to the done set and leaves both the commit map and
    the report set. *)
Definition drain_done_grids (d : t) : t :=
  foldr
    (λ done_gridid d,
       match m_commit_map d !! done_gridid with
       | None => d
       | Some job =>
           set_m_sim_done_grid_set (m_sim_done_grid_set d ∖ {[done_gridid]})
             (set_m_cant_add_job_flag false
                (set_m_commit_map (delete done_gridid (m_commit_map d))
                   (set_m_done_set ({[job]} ∪ m_done_set d) d)))
       end)
    d (elements (m_sim_done_grid_set d)).

(** One round of the [while (1)] of [poll_status] for a job that is not
    yet in the done set. *)
Definition poll_status_round (c : sim_consts) (grid_id : Z) (d : t) : option t :=
  match m_commit_map d !! grid_id with
  | None => Some d
  | Some _ =>
      match (if decide (grid_id ∈ m_sim_done_grid_set d) then Some d
             else option_map (set_simv3_1_has_grid_done false) (wait_some_grid_done d)) with
      | None => None
      | Some d =>
          let d := drain_done_grids d in
          Some (if decide (m_buffer_queue d = []) then d else (fill_commit_queue c d).2)
      end
  end.

Fixpoint poll_status_loop (c : sim_consts) (fuel : nat) (job_id grid_id : Z) (d : t)
  : option t :=
  match fuel with
  | O => None
  | S fuel' =>
      if decide (job_id ∈ m_done_set d)
      then Some (set_m_done_set (m_done_set d ∖ {[job_id]}) d)
      else
        match poll_status_round c grid_id d with
        | None => None
        | Some d => poll_status_loop c fuel' job_id grid_id d
        end
  end.

(** Modelled from the spec: [update_job_status] belongs to the job's base
    class, outside the sources at hand; by the life cycle of the spec
    ("A job in done_set transitions to DONE") the call with
    [AIPU_JOB_STATE_DONE] makes the job's status DONE. *)
Definition update_job_status_done (status : aipu_job_status_t) : aipu_job_status_t :=
  AIPU_JOB_STATUS_DONE.

(** [poll_status(max_cnt, time_out, of_this_thread, jobbase)], for the job
    with [subgraph_cnt] subgraphs, id [job_id], grid id [grid_id] and
    status [status].  [fuel] bounds the rounds of the polling loop; the
    result is [None] when they do not suffice or a wait never ends. *)
Definition poll_status (c : sim_consts) (fuel : nat) (subgraph_cnt job_id grid_id : Z)
    (status : aipu_job_status_t) (d : t)
  : option (aipu_ll_status_t * aipu_job_status_t * t) :=
  let grid_id := u16 grid_id in
  if subgraph_cnt =? 0
  then Some (AIPU_LL_STATUS_SUCCESS, update_job_status_done status, d)
  else
    match poll_status_loop c fuel job_id grid_id d with
    | None => None
    | Some d => Some (AIPU_LL_STATUS_SUCCESS, update_job_status_done status, d)
    end.

End SimulatorV3_1.

(** ** The job (job_v3_1.cpp) *)

(** [sizeof(tcb_t)] *)
Definition sizeof_tcb_t : Z := 128.

(** [aipu_data_type_t]: the data types the job builder tells apart; every
    other value of the enumeration is [AIPU_DATA_TYPE_OTHER]. *)
Inductive aipu_data_type_t : Set :=
| AIPU_DATA_TYPE_U8
| AIPU_DATA_TYPE_S8
| AIPU_DATA_TYPE_U16
| AIPU_DATA_TYPE_S16
| AIPU_DATA_TYPE_F16
| AIPU_DATA_TYPE_BF16
| AIPU_DATA_TYPE_U32
| AIPU_DATA_TYPE_S32
| AIPU_DATA_TYPE_F32
| AIPU_DATA_TYPE_OTHER (code : Z).

#[global] Instance aipu_data_type_eq_dec : EqDecision aipu_data_type_t.
Proof. solve_decision. Defined.

(** [struct JobIOBuffer]: an I/O buffer of the job, with the tensor id and
    data type it was created from and its place in device memory. *)
Module JobIOBuffer.
Record t : Set := mk {
  id : Z;
  size : Z;
  type : aipu_data_type_t;
  pa : Z
}.

End JobIOBuffer.

(** Modelled from the spec: [class DynamicShape] is defined outside the
    sources at hand.  The model keeps what [parse_dynamic_out_shape] and
    [init] ask of it: whether the input shapes were set, for how many
    inputs a shape is configured, the once-flag of the output-shape update
    and the resolved output sizes by output index. *)
Module DynamicShape.
Record t : Type := mk {
  m_is_set_dyn_shape_true : bool;
  m_config_shape_sz : Z;
  m_dynamic_out_shape_updated : bool;
  m_config_out_tensor_size : gmap nat Z
}.

Definition is_set_dyn_shape_true (ds : t) : bool := m_is_set_dyn_shape_true ds.


(** Modelled from the spec: [clear_config_out_tensor_size] drops the sizes
    recorded so far ("clears any partial config_out_tensor_size on
    failure"). *)
Definition clear_config_out_tensor_size (ds : t) : t :=
  mk (m_is_set_dyn_shape_true ds) (m_config_shape_sz ds)
     (m_dynamic_out_shape_updated ds) ∅.

(** Modelled from the spec: [set_config_out_tensor_size(i, size)] records
    the resolved size of output [i]. *)
Definition set_config_out_tensor_size (i : nat) (size : Z) (ds : t) : t :=
  mk (m_is_set_dyn_shape_true ds) (m_config_shape_sz ds)
     (m_dynamic_out_shape_updated ds) (<[i := size]> (m_config_out_tensor_size ds)).
End DynamicShape.

(** [struct Task]: of a task the model keeps [tcb.pa], the device address
    of its TCB. *)
Module Task.
Record t : Set := mk { tcb_pa : Z }.
End Task.

Module SubGraphTask.
Record t : Set := mk {
  id : Z;
  bss_idx : Z;
  tasks : list Task.t
}.
End SubGraphTask.

Module JobV3_1.

(** The members of [class JobV3_1] (and of its base) that [init] and
    [schedule] touch.  Device memory is seen through two members:
    [m_tcbs], the TCB buffer as an array of [tcb_t] starting at the device
    address [m_init_tcb], and [m_mem], the bytes of the other buffers by
    device address. *)
Record t : Type := mk {
  m_id : Z;
  m_status : aipu_job_status_t;
  m_sg_cnt : Z;
  m_task_per_sg : Z;
  m_remap_flag : Z;
  m_segmmu_tcb_num : Z;
  m_tot_tcb_cnt : Z;
  m_core_cnt : Z;
  m_partition_id : Z;
  m_qos : Z;
  m_grid_id : Z;
  m_start_group_id : Z;
  m_group_id_idx : Z;
  m_sg_job : list SubGraphTask.t;
  m_backup_tcb : list tcb_t.t;
  m_backup_tcb_used : bool;
  m_inputs : list JobIOBuffer.t;
  m_outputs : list JobIOBuffer.t;
  m_outputs_shape : list JobIOBuffer.t;
  m_err_code : list JobIOBuffer.t;
  m_segmmus : list JobIOBuffer.t;
  m_segmmu_num : Z;
  m_segmmu_sec : list SegMMUConfig.t;
  m_dyn_shape : DynamicShape.t;
  m_is_defer_run : bool;
  m_do_trigger : bool;
  m_bind_cmdpool_id : Z;
  m_init_tcb : Z;
  m_tcbs : list tcb_t.t;
  m_mem : gmap Z Z
}.

Definition set_m_id (v : Z) (j : t) : t :=
  mk v (m_status j) (m_sg_cnt j) (m_task_per_sg j) (m_remap_flag j) (m_segmmu_tcb_num
     j) (m_tot_tcb_cnt j) (m_core_cnt j) (m_partition_id j) (m_qos j) (m_grid_id j)
     (m_start_group_id j) (m_group_id_idx j) (m_sg_job j) (m_backup_tcb j)
     (m_backup_tcb_used j) (m_inputs j) (m_outputs j) (m_outputs_shape j) (m_err_code
     j) (m_segmmus j) (m_segmmu_num j) (m_segmmu_sec j) (m_dyn_shape j)
     (m_is_defer_run j) (m_do_trigger j) (m_bind_cmdpool_id j) (m_init_tcb j) (m_tcbs
     j) (m_mem j).

Definition set_m_status (v : aipu_job_status_t) (j : t) : t :=
  mk (m_id j) v (m_sg_cnt j) (m_task_per_sg j) (m_remap_flag j) (m_segmmu_tcb_num j)
     (m_tot_tcb_cnt j) (m_core_cnt j) (m_partition_id j) (m_qos j) (m_grid_id j)
     (m_start_group_id j) (m_group_id_idx j) (m_sg_job j) (m_backup_tcb j)
     (m_backup_tcb_used j) (m_inputs j) (m_outputs j) (m_outputs_shape j) (m_err_code
     j) (m_segmmus j) (m_segmmu_num j) (m_segmmu_sec j) (m_dyn_shape j)
     (m_is_defer_run j) (m_do_trigger j) (m_bind_cmdpool_id j) (m_init_tcb j) (m_tcbs
     j) (m_mem j).

Definition set_m_sg_cnt (v : Z) (j : t) : t :=
  mk (m_id j) (m_status j) v (m_task_per_sg j) (m_remap_flag j) (m_segmmu_tcb_num j)
     (m_tot_tcb_cnt j) (m_core_cnt j) (m_partition_id j) (m_qos j) (m_grid_id j)
     (m_start_group_id j) (m_group_id_idx j) (m_sg_job j) (m_backup_tcb j)
     (m_backup_tcb_used j) (m_inputs j) (m_outputs j) (m_outputs_shape j) (m_err_code
     j) (m_segmmus j) (m_segmmu_num j) (m_segmmu_sec j) (m_dyn_shape j)
     (m_is_defer_run j) (m_do_trigger j) (m_bind_cmdpool_id j) (m_init_tcb j) (m_tcbs
     j) (m_mem j).

Definition set_m_task_per_sg (v : Z) (j : t) : t :=
  mk (m_id j) (m_status j) (m_sg_cnt j) v (m_remap_flag j) (m_segmmu_tcb_num j)
     (m_tot_tcb_cnt j) (m_core_cnt j) (m_partition_id j) (m_qos j) (m_grid_id j)
     (m_start_group_id j) (m_group_id_idx j) (m_sg_job j) (m_backup_tcb j)
     (m_backup_tcb_used j) (m_inputs j) (m_outputs j) (m_outputs_shape j) (m_err_code
     j) (m_segmmus j) (m_segmmu_num j) (m_segmmu_sec j) (m_dyn_shape j)
     (m_is_defer_run j) (m_do_trigger j) (m_bind_cmdpool_id j) (m_init_tcb j) (m_tcbs
     j) (m_mem j).

Definition set_m_remap_flag (v : Z) (j : t) : t :=
  mk (m_id j) (m_status j) (m_sg_cnt j) (m_task_per_sg j) v (m_segmmu_tcb_num j)
     (m_tot_tcb_cnt j) (m_core_cnt j) (m_partition_id j) (m_qos j) (m_grid_id j)
     (m_start_group_id j) (m_group_id_idx j) (m_sg_job j) (m_backup_tcb j)
     (m_backup_tcb_used j) (m_inputs j) (m_outputs j) (m_outputs_shape j) (m_err_code
     j) (m_segmmus j) (m_segmmu_num j) (m_segmmu_sec j) (m_dyn_shape j)
     (m_is_defer_run j) (m_do_trigger j) (m_bind_cmdpool_id j) (m_init_tcb j) (m_tcbs
     j) (m_mem j).

Definition set_m_segmmu_tcb_num (v : Z) (j : t) : t :=
  mk (m_id j) (m_status j) (m_sg_cnt j) (m_task_per_sg j) (m_remap_flag j) v
     (m_tot_tcb_cnt j) (m_core_cnt j) (m_partition_id j) (m_qos j) (m_grid_id j)
     (m_start_group_id j) (m_group_id_idx j) (m_sg_job j) (m_backup_tcb j)
     (m_backup_tcb_used j) (m_inputs j) (m_outputs j) (m_outputs_shape j) (m_err_code
     j) (m_segmmus j) (m_segmmu_num j) (m_segmmu_sec j) (m_dyn_shape j)
     (m_is_defer_run j) (m_do_trigger j) (m_bind_cmdpool_id j) (m_init_tcb j) (m_tcbs
     j) (m_mem j).

Definition set_m_tot_tcb_cnt (v : Z) (j : t) : t :=
  mk (m_id j) (m_status j) (m_sg_cnt j) (m_task_per_sg j) (m_remap_flag j)
     (m_segmmu_tcb_num j) v (m_core_cnt j) (m_partition_id j) (m_qos j) (m_grid_id j)
     (m_start_group_id j) (m_group_id_idx j) (m_sg_job j) (m_backup_tcb j)
     (m_backup_tcb_used j) (m_inputs j) (m_outputs j) (m_outputs_shape j) (m_err_code
     j) (m_segmmus j) (m_segmmu_num j) (m_segmmu_sec j) (m_dyn_shape j)
     (m_is_defer_run j) (m_do_trigger j) (m_bind_cmdpool_id j) (m_init_tcb j) (m_tcbs
     j) (m_mem j).

Definition set_m_core_cnt (v : Z) (j : t) : t :=
  mk (m_id j) (m_status j) (m_sg_cnt j) (m_task_per_sg j) (m_remap_flag j)
     (m_segmmu_tcb_num j) (m_tot_tcb_cnt j) v (m_partition_id j) (m_qos j) (m_grid_id
     j) (m_start_group_id j) (m_group_id_idx j) (m_sg_job j) (m_backup_tcb j)
     (m_backup_tcb_used j) (m_inputs j) (m_outputs j) (m_outputs_shape j) (m_err_code
     j) (m_segmmus j) (m_segmmu_num j) (m_segmmu_sec j) (m_dyn_shape j)
     (m_is_defer_run j) (m_do_trigger j) (m_bind_cmdpool_id j) (m_init_tcb j) (m_tcbs
     j) (m_mem j).

Definition set_m_partition_id (v : Z) (j : t) : t :=
  mk (m_id j) (m_status j) (m_sg_cnt j) (m_task_per_sg j) (m_remap_flag j)
     (m_segmmu_tcb_num j) (m_tot_tcb_cnt j) (m_core_cnt j) v (m_qos j) (m_grid_id j)
     (m_start_group_id j) (m_group_id_idx j) (m_sg_job j) (m_backup_tcb j)
     (m_backup_tcb_used j) (m_inputs j) (m_outputs j) (m_outputs_shape j) (m_err_code
     j) (m_segmmus j) (m_segmmu_num j) (m_segmmu_sec j) (m_dyn_shape j)
     (m_is_defer_run j) (m_do_trigger j) (m_bind_cmdpool_id j) (m_init_tcb j) (m_tcbs
     j) (m_mem j).

Definition set_m_qos (v : Z) (j : t) : t :=
  mk (m_id j) (m_status j) (m_sg_cnt j) (m_task_per_sg j) (m_remap_flag j)
     (m_segmmu_tcb_num j) (m_tot_tcb_cnt j) (m_core_cnt j) (m_partition_id j) v
     (m_grid_id j) (m_start_group_id j) (m_group_id_idx j) (m_sg_job j) (m_backup_tcb
     j) (m_backup_tcb_used j) (m_inputs j) (m_outputs j) (m_outputs_shape j)
     (m_err_code j) (m_segmmus j) (m_segmmu_num j) (m_segmmu_sec j) (m_dyn_shape j)
     (m_is_defer_run j) (m_do_trigger j) (m_bind_cmdpool_id j) (m_init_tcb j) (m_tcbs
     j) (m_mem j).

Definition set_m_grid_id (v : Z) (j : t) : t :=
  mk (m_id j) (m_status j) (m_sg_cnt j) (m_task_per_sg j) (m_remap_flag j)
     (m_segmmu_tcb_num j) (m_tot_tcb_cnt j) (m_core_cnt j) (m_partition_id j) (m_qos
     j) v (m_start_group_id j) (m_group_id_idx j) (m_sg_job j) (m_backup_tcb j)
     (m_backup_tcb_used j) (m_inputs j) (m_outputs j) (m_outputs_shape j) (m_err_code
     j) (m_segmmus j) (m_segmmu_num j) (m_segmmu_sec j) (m_dyn_shape j)
     (m_is_defer_run j) (m_do_trigger j) (m_bind_cmdpool_id j) (m_init_tcb j) (m_tcbs
     j) (m_mem j).

Definition set_m_start_group_id (v : Z) (j : t) : t :=
  mk (m_id j) (m_status j) (m_sg_cnt j) (m_task_per_sg j) (m_remap_flag j)
     (m_segmmu_tcb_num j) (m_tot_tcb_cnt j) (m_core_cnt j) (m_partition_id j) (m_qos
     j) (m_grid_id j) v (m_group_id_idx j) (m_sg_job j) (m_backup_tcb j)
     (m_backup_tcb_used j) (m_inputs j) (m_outputs j) (m_outputs_shape j) (m_err_code
     j) (m_segmmus j) (m_segmmu_num j) (m_segmmu_sec j) (m_dyn_shape j)
     (m_is_defer_run j) (m_do_trigger j) (m_bind_cmdpool_id j) (m_init_tcb j) (m_tcbs
     j) (m_mem j).

Definition set_m_group_id_idx (v : Z) (j : t) : t :=
  mk (m_id j) (m_status j) (m_sg_cnt j) (m_task_per_sg j) (m_remap_flag j)
     (m_segmmu_tcb_num j) (m_tot_tcb_cnt j) (m_core_cnt j) (m_partition_id j) (m_qos
     j) (m_grid_id j) (m_start_group_id j) v (m_sg_job j) (m_backup_tcb j)
     (m_backup_tcb_used j) (m_inputs j) (m_outputs j) (m_outputs_shape j) (m_err_code
     j) (m_segmmus j) (m_segmmu_num j) (m_segmmu_sec j) (m_dyn_shape j)
     (m_is_defer_run j) (m_do_trigger j) (m_bind_cmdpool_id j) (m_init_tcb j) (m_tcbs
     j) (m_mem j).

Definition set_m_sg_job (v : list SubGraphTask.t) (j : t) : t :=
  mk (m_id j) (m_status j) (m_sg_cnt j) (m_task_per_sg j) (m_remap_flag j)
     (m_segmmu_tcb_num j) (m_tot_tcb_cnt j) (m_core_cnt j) (m_partition_id j) (m_qos
     j) (m_grid_id j) (m_start_group_id j) (m_group_id_idx j) v (m_backup_tcb j)
     (m_backup_tcb_used j) (m_inputs j) (m_outputs j) (m_outputs_shape j) (m_err_code
     j) (m_segmmus j) (m_segmmu_num j) (m_segmmu_sec j) (m_dyn_shape j)
     (m_is_defer_run j) (m_do_trigger j) (m_bind_cmdpool_id j) (m_init_tcb j) (m_tcbs
     j) (m_mem j).

Definition set_m_backup_tcb (v : list tcb_t.t) (j : t) : t :=
  mk (m_id j) (m_status j) (m_sg_cnt j) (m_task_per_sg j) (m_remap_flag j)
     (m_segmmu_tcb_num j) (m_tot_tcb_cnt j) (m_core_cnt j) (m_partition_id j) (m_qos
     j) (m_grid_id j) (m_start_group_id j) (m_group_id_idx j) (m_sg_job j) v
     (m_backup_tcb_used j) (m_inputs j) (m_outputs j) (m_outputs_shape j) (m_err_code
     j) (m_segmmus j) (m_segmmu_num j) (m_segmmu_sec j) (m_dyn_shape j)
     (m_is_defer_run j) (m_do_trigger j) (m_bind_cmdpool_id j) (m_init_tcb j) (m_tcbs
     j) (m_mem j).

Definition set_m_backup_tcb_used (v : bool) (j : t) : t :=
  mk (m_id j) (m_status j) (m_sg_cnt j) (m_task_per_sg j) (m_remap_flag j)
     (m_segmmu_tcb_num j) (m_tot_tcb_cnt j) (m_core_cnt j) (m_partition_id j) (m_qos
     j) (m_grid_id j) (m_start_group_id j) (m_group_id_idx j) (m_sg_job j)
     (m_backup_tcb j) v (m_inputs j) (m_outputs j) (m_outputs_shape j) (m_err_code j)
     (m_segmmus j) (m_segmmu_num j) (m_segmmu_sec j) (m_dyn_shape j) (m_is_defer_run
     j) (m_do_trigger j) (m_bind_cmdpool_id j) (m_init_tcb j) (m_tcbs j) (m_mem j).

Definition set_m_inputs (v : list JobIOBuffer.t) (j : t) : t :=
  mk (m_id j) (m_status j) (m_sg_cnt j) (m_task_per_sg j) (m_remap_flag j)
     (m_segmmu_tcb_num j) (m_tot_tcb_cnt j) (m_core_cnt j) (m_partition_id j) (m_qos
     j) (m_grid_id j) (m_start_group_id j) (m_group_id_idx j) (m_sg_job j)
     (m_backup_tcb j) (m_backup_tcb_used j) v (m_outputs j) (m_outputs_shape j)
     (m_err_code j) (m_segmmus j) (m_segmmu_num j) (m_segmmu_sec j) (m_dyn_shape j)
     (m_is_defer_run j) (m_do_trigger j) (m_bind_cmdpool_id j) (m_init_tcb j) (m_tcbs
     j) (m_mem j).


Definition set_m_outputs_shape (v : list JobIOBuffer.t) (j : t) : t :=
  mk (m_id j) (m_status j) (m_sg_cnt j) (m_task_per_sg j) (m_remap_flag j)
     (m_segmmu_tcb_num j) (m_tot_tcb_cnt j) (m_core_cnt j) (m_partition_id j) (m_qos
     j) (m_grid_id j) (m_start_group_id j) (m_group_id_idx j) (m_sg_job j)
     (m_backup_tcb j) (m_backup_tcb_used j) (m_inputs j) (m_outputs j) v (m_err_code
     j) (m_segmmus j) (m_segmmu_num j) (m_segmmu_sec j) (m_dyn_shape j)
     (m_is_defer_run j) (m_do_trigger j) (m_bind_cmdpool_id j) (m_init_tcb j) (m_tcbs
     j) (m_mem j).

Definition set_m_err_code (v : list JobIOBuffer.t) (j : t) : t :=
  mk (m_id j) (m_status j) (m_sg_cnt j) (m_task_per_sg j) (m_remap_flag j)
     (m_segmmu_tcb_num j) (m_tot_tcb_cnt j) (m_core_cnt j) (m_partition_id j) (m_qos
     j) (m_grid_id j) (m_start_group_id j) (m_group_id_idx j) (m_sg_job j)
     (m_backup_tcb j) (m_backup_tcb_used j) (m_inputs j) (m_outputs j)
     (m_outputs_shape j) v (m_segmmus j) (m_segmmu_num j) (m_segmmu_sec j)
     (m_dyn_shape j) (m_is_defer_run j) (m_do_trigger j) (m_bind_cmdpool_id j)
     (m_init_tcb j) (m_tcbs j) (m_mem j).

Definition set_m_segmmus (v : list JobIOBuffer.t) (j : t) : t :=
  mk (m_id j) (m_status j) (m_sg_cnt j) (m_task_per_sg j) (m_remap_flag j)
     (m_segmmu_tcb_num j) (m_tot_tcb_cnt j) (m_core_cnt j) (m_partition_id j) (m_qos
     j) (m_grid_id j) (m_start_group_id j) (m_group_id_idx j) (m_sg_job j)
     (m_backup_tcb j) (m_backup_tcb_used j) (m_inputs j) (m_outputs j)
     (m_outputs_shape j) (m_err_code j) v (m_segmmu_num j) (m_segmmu_sec j)
     (m_dyn_shape j) (m_is_defer_run j) (m_do_trigger j) (m_bind_cmdpool_id j)
     (m_init_tcb j) (m_tcbs j) (m_mem j).

Definition set_m_segmmu_num (v : Z) (j : t) : t :=
  mk (m_id j) (m_status j) (m_sg_cnt j) (m_task_per_sg j) (m_remap_flag j)
     (m_segmmu_tcb_num j) (m_tot_tcb_cnt j) (m_core_cnt j) (m_partition_id j) (m_qos
     j) (m_grid_id j) (m_start_group_id j) (m_group_id_idx j) (m_sg_job j)
     (m_backup_tcb j) (m_backup_tcb_used j) (m_inputs j) (m_outputs j)
     (m_outputs_shape j) (m_err_code j) (m_segmmus j) v (m_segmmu_sec j) (m_dyn_shape
     j) (m_is_defer_run j) (m_do_trigger j) (m_bind_cmdpool_id j) (m_init_tcb j)
     (m_tcbs j) (m_mem j).

Definition set_m_segmmu_sec (v : list SegMMUConfig.t) (j : t) : t :=
  mk (m_id j) (m_status j) (m_sg_cnt j) (m_task_per_sg j) (m_remap_flag j)
     (m_segmmu_tcb_num j) (m_tot_tcb_cnt j) (m_core_cnt j) (m_partition_id j) (m_qos
     j) (m_grid_id j) (m_start_group_id j) (m_group_id_idx j) (m_sg_job j)
     (m_backup_tcb j) (m_backup_tcb_used j) (m_inputs j) (m_outputs j)
     (m_outputs_shape j) (m_err_code j) (m_segmmus j) (m_segmmu_num j) v (m_dyn_shape
     j) (m_is_defer_run j) (m_do_trigger j) (m_bind_cmdpool_id j) (m_init_tcb j)
     (m_tcbs j) (m_mem j).


Definition set_m_is_defer_run (v : bool) (j : t) : t :=
  mk (m_id j) (m_status j) (m_sg_cnt j) (m_task_per_sg j) (m_remap_flag j)
     (m_segmmu_tcb_num j) (m_tot_tcb_cnt j) (m_core_cnt j) (m_partition_id j) (m_qos
     j) (m_grid_id j) (m_start_group_id j) (m_group_id_idx j) (m_sg_job j)
     (m_backup_tcb j) (m_backup_tcb_used j) (m_inputs j) (m_outputs j)
     (m_outputs_shape j) (m_err_code j) (m_segmmus j) (m_segmmu_num j) (m_segmmu_sec
     j) (m_dyn_shape j) v (m_do_trigger j) (m_bind_cmdpool_id j) (m_init_tcb j)
     (m_tcbs j) (m_mem j).

Definition set_m_do_trigger (v : bool) (j : t) : t :=
  mk (m_id j) (m_status j) (m_sg_cnt j) (m_task_per_sg j) (m_remap_flag j)
     (m_segmmu_tcb_num j) (m_tot_tcb_cnt j) (m_core_cnt j) (m_partition_id j) (m_qos
     j) (m_grid_id j) (m_start_group_id j) (m_group_id_idx j) (m_sg_job j)
     (m_backup_tcb j) (m_backup_tcb_used j) (m_inputs j) (m_outputs j)
     (m_outputs_shape j) (m_err_code j) (m_segmmus j) (m_segmmu_num j) (m_segmmu_sec
     j) (m_dyn_shape j) (m_is_defer_run j) v (m_bind_cmdpool_id j) (m_init_tcb j)
     (m_tcbs j) (m_mem j).

Definition set_m_bind_cmdpool_id (v : Z) (j : t) : t :=
  mk (m_id j) (m_status j) (m_sg_cnt j) (m_task_per_sg j) (m_remap_flag j)
     (m_segmmu_tcb_num j) (m_tot_tcb_cnt j) (m_core_cnt j) (m_partition_id j) (m_qos
     j) (m_grid_id j) (m_start_group_id j) (m_group_id_idx j) (m_sg_job j)
     (m_backup_tcb j) (m_backup_tcb_used j) (m_inputs j) (m_outputs j)
     (m_outputs_shape j) (m_err_code j) (m_segmmus j) (m_segmmu_num j) (m_segmmu_sec
     j) (m_dyn_shape j) (m_is_defer_run j) (m_do_trigger j) v (m_init_tcb j) (m_tcbs
     j) (m_mem j).

Definition set_m_init_tcb (v : Z) (j : t) : t :=
  mk (m_id j) (m_status j) (m_sg_cnt j) (m_task_per_sg j) (m_remap_flag j)
     (m_segmmu_tcb_num j) (m_tot_tcb_cnt j) (m_core_cnt j) (m_partition_id j) (m_qos
     j) (m_grid_id j) (m_start_group_id j) (m_group_id_idx j) (m_sg_job j)
     (m_backup_tcb j) (m_backup_tcb_used j) (m_inputs j) (m_outputs j)
     (m_outputs_shape j) (m_err_code j) (m_segmmus j) (m_segmmu_num j) (m_segmmu_sec
     j) (m_dyn_shape j) (m_is_defer_run j) (m_do_trigger j) (m_bind_cmdpool_id j) v
     (m_tcbs j) (m_mem j).

Definition set_m_tcbs (v : list tcb_t.t) (j : t) : t :=
  mk (m_id j) (m_status j) (m_sg_cnt j) (m_task_per_sg j) (m_remap_flag j)
     (m_segmmu_tcb_num j) (m_tot_tcb_cnt j) (m_core_cnt j) (m_partition_id j) (m_qos
     j) (m_grid_id j) (m_start_group_id j) (m_group_id_idx j) (m_sg_job j)
     (m_backup_tcb j) (m_backup_tcb_used j) (m_inputs j) (m_outputs j)
     (m_outputs_shape j) (m_err_code j) (m_segmmus j) (m_segmmu_num j) (m_segmmu_sec
     j) (m_dyn_shape j) (m_is_defer_run j) (m_do_trigger j) (m_bind_cmdpool_id j)
     (m_init_tcb j) v (m_mem j).

Definition set_m_mem (v : gmap Z Z) (j : t) : t :=
  mk (m_id j) (m_status j) (m_sg_cnt j) (m_task_per_sg j) (m_remap_flag j)
     (m_segmmu_tcb_num j) (m_tot_tcb_cnt j) (m_core_cnt j) (m_partition_id j) (m_qos
     j) (m_grid_id j) (m_start_group_id j) (m_group_id_idx j) (m_sg_job j)
     (m_backup_tcb j) (m_backup_tcb_used j) (m_inputs j) (m_outputs j)
     (m_outputs_shape j) (m_err_code j) (m_segmmus j) (m_segmmu_num j) (m_segmmu_sec
     j) (m_dyn_shape j) (m_is_defer_run j) (m_do_trigger j) (m_bind_cmdpool_id j)
     (m_init_tcb j) (m_tcbs j) v.
(** [m_mem->write(pa, &tcb, sizeof(tcb_t))] for an address inside the TCB
    buffer. *)
Definition write_tcb (pa : Z) (tcb : tcb_t.t) (j : t) : t :=
  set_m_tcbs (<[Z.to_nat ((pa - m_init_tcb j) / sizeof_tcb_t) := tcb]> (m_tcbs j)) j.

(** [m_mem->zeroize(pa, size)] on the byte view. *)
Fixpoint zeroize_bytes (mem : gmap Z Z) (pa : Z) (n : nat) : gmap Z Z :=
  match n with
  | O => mem
  | S n' => zeroize_bytes (<[pa := 0]> mem) (pa + 1) n'
  end.

Definition zeroize (pa size : Z) (j : t) : t :=
  set_m_mem (zeroize_bytes (m_mem j) pa (Z.to_nat size)) j.

(** [set_job_params]: the chain holds one grid-init TCB and, per
    subgraph, one group-init TCB and [task_per_sg] task TCBs.  The backup
    buffer is allocated here; its bytes are not initialised by the source
    and are taken as zero. *)
Definition set_job_params (sg_cnt task_per_sg remap core_cnt : Z) (j : t) : t :=
  let tot := u32 (1 + sg_cnt * (task_per_sg + 1)) in
  mk (m_id j) (m_status j) sg_cnt task_per_sg remap core_cnt tot (m_core_cnt j)
     (m_partition_id j) (m_qos j) (m_grid_id j) (m_start_group_id j) (m_group_id_idx
     j) (m_sg_job j) (replicate (Z.to_nat tot) tcb_t.zero) (m_backup_tcb_used j)
     (m_inputs j) (m_outputs j) (m_outputs_shape j) (m_err_code j) (m_segmmus j)
     (m_segmmu_num j) (m_segmmu_sec j) (m_dyn_shape j) (m_is_defer_run j)
     (m_do_trigger j) (m_bind_cmdpool_id j) (m_init_tcb j) (m_tcbs j) (m_mem j).

(** The dependency loop of [config_tcb_deps]: [n] precursors left, the
    next one at index [i]. *)
Fixpoint config_tcb_deps_loop (precursors : list Z) (start_group_id : Z)
    (n i : nat) (tcb : tcb_t.t) : option (aipu_status_t * tcb_t.t) :=
  match n with
  | O => Some (AIPU_STATUS_SUCCESS, tcb)
  | S n' =>
      match precursors !! i with
      | None => None
      | Some p =>
          if 0x7fff <? p then Some (AIPU_STATUS_ERROR_INVALID_GBIN, tcb)
          else
            let dep_group_id := u16 (p + start_group_id) in
            let dep_group_id := Z.land dep_group_id 0x7FFF in
            config_tcb_deps_loop precursors start_group_id n' (S i)
              (tcb_t.set_group_deps
                 (<[i := Z.lor EN_GROUP_DEPEND dep_group_id]> (tcb_t.group_deps tcb)) tcb)
      end
  end.

(** [config_tcb_deps(tcb, sg_id)] *)
Definition config_tcb_deps (g : GraphV3X.t) (j : t) (tcb : tcb_t.t) (sg_id : Z)
  : option (aipu_status_t * tcb_t.t) :=
  match GraphV3X.get_subgraph g sg_id with
  | None => None
  | Some sg =>
      let cnt := Subgraph.precursor_cnt sg in
      if cnt =? SUBG_DEPEND_NONE then
        Some (AIPU_STATUS_SUCCESS,
              tcb_t.set_flag (Z.lor (tcb_t.flag tcb) TCB_FLAG_DEP_TYPE_NONE) tcb)
      else if (1 <=? cnt) && (cnt <=? 4) then
        config_tcb_deps_loop (Subgraph.precursors sg) (m_start_group_id j)
          (Z.to_nat cnt) 0
          (tcb_t.set_flag (Z.lor (tcb_t.flag tcb) TCB_FLAG_DEP_TYPE_GROUP) tcb)
      else if cnt =? SUBG_DEPEND_PREALL then
        Some (AIPU_STATUS_SUCCESS,
              tcb_t.set_flag (Z.lor (tcb_t.flag tcb) TCB_FLAG_DEP_TYPE_PRE_ALL) tcb)
      else Some (AIPU_STATUS_ERROR_INVALID_GBIN, tcb)
  end.

(** [m_sg_job[sg_id].tasks[task_id]] *)
Definition get_task (j : t) (sg_id task_id : Z) : option Task.t :=
  if (sg_id <? 0) || (task_id <? 0) then None
  else
    match m_sg_job j !! Z.to_nat sg_id with
    | None => None
    | Some sg_task => SubGraphTask.tasks sg_task !! Z.to_nat task_id
    end.

(** [setup_task_tcb(sg_id, grid_id, core_id, task_id)] *)
Definition setup_task_tcb (g : GraphV3X.t) (sg_id grid_id core_id task_id : Z) (j : t)
  : option (aipu_status_t * t) :=
  match get_task j sg_id task_id, GraphV3X.get_subgraph g sg_id with
  | Some task, Some sg =>
      let flag := TCB_FLAG_TASK_TYPE_TASK in
      let flag :=
        if task_id =? u32 (m_task_per_sg j - 1)
        then Z.lor flag TCB_FLAG_END_TYPE_GROUP_END else flag in
      let flag :=
        if (sg_id =? u32 (m_sg_cnt j - 1)) && (task_id =? u32 (m_task_per_sg j - 1))
        then Z.lor flag TCB_FLAG_END_TYPE_GRID_END else flag in
      let tcb := tcb_t.set_flag flag (tcb_t.set_interrupt_en EN_INTERRUPT_TEC_ALL tcb_t.zero) in
      match (if task_id =? 0 then config_tcb_deps g j tcb sg_id
             else Some (AIPU_STATUS_SUCCESS, tcb)) with
      | None => None
      | Some (ret, tcb) =>
          if decide (ret = AIPU_STATUS_SUCCESS) then
            let tcb :=
              tcb_t.mk (tcb_t.flag tcb) 0
                (if 0 <? Subgraph.printfifo_size sg
                 then Z.lor (tcb_t.interrupt_en tcb) EN_INTERRUPT_TEC_SIGNAL
                 else tcb_t.interrupt_en tcb)
                (u16 (m_group_id_idx j)) (u16 grid_id) (u16 task_id)
                (u16 (Subgraph.warmup_len sg))
                1 (u16 (m_task_per_sg j)) 1 (u16 task_id)
                (tcb_t.group_deps tcb) in
            Some (AIPU_STATUS_SUCCESS, write_tcb (Task.tcb_pa task) tcb j)
          else Some (ret, j)
      end
  | _, _ => None
  end.

(** The task loop of [setup_tcb_group]: [n] tasks left, the next one [t]. *)
Fixpoint setup_tcb_group_loop (g : GraphV3X.t) (sg_id grid_id core_id : Z)
    (n : nat) (t : Z) (j : JobV3_1.t) : option (aipu_status_t * JobV3_1.t) :=
  match n with
  | O => Some (AIPU_STATUS_SUCCESS, j)
  | S n' =>
      and_then (setup_task_tcb g sg_id grid_id core_id t j)
        (setup_tcb_group_loop g sg_id grid_id core_id n' (t + 1))
  end.

(** [setup_tcb_group(sg_id, grid_id, core_id)] *)
Definition setup_tcb_group (g : GraphV3X.t) (sg_id grid_id core_id : Z) (j : t)
  : option (aipu_status_t * t) :=
  and_then
    (setup_tcb_group_loop g sg_id grid_id core_id (Z.to_nat (m_task_per_sg j)) 0 j)
    (λ j, Some (AIPU_STATUS_SUCCESS, set_m_group_id_idx (m_group_id_idx j + 1) j)).

(** One round of the subgraph loop of [setup_tcb_chain]: the group-init TCB
    of position [i], then the task TCBs of the subgraph whose id that
    position carries. *)
Definition setup_tcb_chain_step (g : GraphV3X.t) (i core_id : Z) (j : t)
  : option (aipu_status_t * t) :=
  match GraphV3X.get_subgraph g i with
  | None => None
  | Some sg =>
      let tcb :=
        tcb_t.mk (Z.lor TCB_FLAG_TASK_TYPE_GROUP_INIT TCB_FLAG_GRID_INIT) 0 0
          (u16 (m_group_id_idx j)) (u16 (m_grid_id j)) 0 0 0 0 0 0 [0; 0; 0; 0] in
      match config_tcb_deps g j tcb (Subgraph.id sg) with
      | None => None
      | Some (ret, tcb) =>
          if decide (ret = AIPU_STATUS_SUCCESS) then
            let j :=
              write_tcb
                (m_init_tcb j + sizeof_tcb_t + (m_task_per_sg j + 1) * i * sizeof_tcb_t)
                tcb j in
            setup_tcb_group g (Subgraph.id sg) (m_grid_id j) core_id j
          else Some (ret, j)
      end
  end.

Fixpoint setup_tcb_chain_loop (g : GraphV3X.t) (n : nat) (i core_id : Z) (j : t)
  : option (aipu_status_t * t) :=
  match n with
  | O => Some (AIPU_STATUS_SUCCESS, j)
  | S n' =>
      and_then (setup_tcb_chain_step g i core_id j)
        (λ j, setup_tcb_chain_loop g n' (i + 1)
                (if m_core_cnt j <=? core_id + 1 then 0 else core_id + 1) j)
  end.

(** [setup_tcb_chain] *)
Definition setup_tcb_chain (g : GraphV3X.t) (j : t) : option (aipu_status_t * t) :=
  let tcb :=
    tcb_t.mk (Z.lor TCB_FLAG_TASK_TYPE_GRID_INIT TCB_FLAG_L2D_FLUSH) (m_sg_cnt j)
      EN_INTERRUPT_GRID_ALL (u16 (m_group_id_idx j)) (u16 (m_grid_id j))
      0 0 0 0 0 0 [0; 0; 0; 0] in
  let j := write_tcb (m_init_tcb j) tcb j in
  and_then
    (setup_tcb_chain_loop g (Z.to_nat (GraphV3X.get_subgraph_cnt g)) 0 0 j)
    (λ j, Some (AIPU_STATUS_SUCCESS, set_m_status AIPU_JOB_STATUS_INIT j)).

(** [init_per_task_data], as far as the TCBs go: task [t] of the subgraph at
    position [i] gets the TCB at [m_tcbs->pa + (2 + i * (1 + m_task_per_sg) + t)
    * sizeof(tcb_t)].  Both branches of the source (stack and private data
    shared with an earlier subgraph after a PRE_ALL barrier, or freshly
    allocated) initialise [task.tcb] with this same address. *)
Definition init_per_task_data (g : GraphV3X.t) (j : t) : t :=
  set_m_sg_job
    ((λ i : nat,
        SubGraphTask.mk (Z.of_nat i)
          (default 0 (Subgraph.bss_idx <$> GraphV3X.get_subgraph g (Z.of_nat i)))
          ((λ t : nat,
              Task.mk (m_init_tcb j
                       + (2 + Z.of_nat i * (1 + m_task_per_sg j) + Z.of_nat t) * sizeof_tcb_t))
             <$> seq 0 (Z.to_nat (m_task_per_sg j))))
       <$> seq 0 (Z.to_nat (m_sg_cnt j))) j.

(** [free_job_buffers], as far as the modelled members go: the TCB buffer is
    returned, the per-subgraph data dropped and the run of group ids
    released. *)
Definition free_job_buffers (MAX_GROUP_ID : Z) (s : t * SimulatorV3_1.t)
  : t * SimulatorV3_1.t :=
  let '(j, d) := s in
  (set_m_sg_job [] (set_m_tcbs [] (set_m_init_tcb 0 j)),
   SimulatorV3_1.put_start_group_id (m_start_group_id j) (m_sg_cnt j) d).

(** [alloc_load_job_buffers].  The memory manager is outside the sources at
    hand: [alloc_ret] is the status of the allocations and loads of the
    function (rodata, descriptor, TCBs, subgraph buffers, stacks) and
    [tcbs_pa] the device address it hands out for the TCB buffer.  On
    success the TCB buffer is zeroed and every task knows the address of
    its TCB; on failure everything is released. *)
Definition alloc_load_job_buffers (MAX_GROUP_ID : Z) (alloc_ret : aipu_status_t)
    (tcbs_pa : Z) (g : GraphV3X.t) (s : t * SimulatorV3_1.t)
  : option (aipu_status_t * (t * SimulatorV3_1.t)) :=
  let '(j, d) := s in
  if decide (alloc_ret = AIPU_STATUS_SUCCESS) then
    let j := set_m_init_tcb tcbs_pa j in
    let j := set_m_tcbs (replicate (Z.to_nat (m_tot_tcb_cnt j)) tcb_t.zero) j in
    Some (AIPU_STATUS_SUCCESS, (init_per_task_data g j, d))
  else Some (alloc_ret, free_job_buffers MAX_GROUP_ID (j, d)).

(** The job's own [get_subgraph_cnt()] is declared in a header outside the
    sources at hand; it is taken to forward to the graph, as [init] does
    when it fills [m_sg_cnt]. *)
Definition get_subgraph_cnt (g : GraphV3X.t) (j : t) : Z := GraphV3X.get_subgraph_cnt g.

(** [init] *)
Definition init (MAX_GROUP_ID : Z) (alloc_ret : aipu_status_t) (tcbs_pa : Z)
    (g : GraphV3X.t) (s : t * SimulatorV3_1.t)
  : option (aipu_status_t * (t * SimulatorV3_1.t)) :=
  let '(j, d) := s in
  if GraphV3X.is_dynamic_shape g
     && negb (DynamicShape.is_set_dyn_shape_true (m_dyn_shape j))
  then Some (AIPU_STATUS_ERROR_SET_SHAPE_FAILED, (j, d))
  else
    let j := set_m_core_cnt (SimulatorV3_1.core_cnt d) j in
    let j := set_job_params (GraphV3X.get_subgraph_cnt g) 4 (GraphV3X.m_remap_flag g)
               (m_core_cnt j) j in
    let '(r, grid_id, d) := SimulatorV3_1.get_grid_id d in
    let j := set_m_grid_id grid_id j in
    if r <? 0 then Some (AIPU_STATUS_ERROR_ALLOC_GRIP_ID, (j, d))
    else
      match SimulatorV3_1.get_start_group_id MAX_GROUP_ID (m_sg_cnt j)
              (m_start_group_id j) d with
      | None => None
      | Some (r, start_group_id, d) =>
          let j := set_m_start_group_id start_group_id j in
          if r <? 0 then Some (AIPU_STATUS_ERROR_ALLOC_GROUP_ID, (j, d))
          else
            let j := set_m_group_id_idx (m_start_group_id j) j in
            and_then (alloc_load_job_buffers MAX_GROUP_ID alloc_ret tcbs_pa g (j, d))
              (λ '(j, d),
                 if get_subgraph_cnt g j =? 0
                 then Some (AIPU_STATUS_SUCCESS, (set_m_status AIPU_JOB_STATUS_INIT j, d))
                 else
                   match setup_tcb_chain g j with
                   | None => None
                   | Some (ret, j) =>
                       if decide (ret = AIPU_STATUS_SUCCESS)
                       then Some (AIPU_STATUS_SUCCESS,
                                  (set_m_backup_tcb
                                     (take (Z.to_nat (m_tot_tcb_cnt j)) (m_tcbs j)) j, d))
                       else Some (ret, (j, d))
                   end)
      end.

(** Modelled from the spec: [validate_schedule_status] belongs to the job's
    base class, outside the sources at hand.  By the life cycle of the spec
    (INIT to SCHED, INIT to BIND to SCHED through [debugger_run], and a
    finished job run again from its backup chain) a job may be scheduled
    from INIT, BIND and DONE. *)
Definition validate_schedule_status_spec (status : aipu_job_status_t) : aipu_status_t :=
  match status with
  | AIPU_JOB_STATUS_INIT | AIPU_JOB_STATUS_BIND | AIPU_JOB_STATUS_DONE =>
      AIPU_STATUS_SUCCESS
  | _ => AIPU_STATUS_ERROR_INVALID_OP
  end.

(** [schedule].  [validate_schedule_status] is the check of the base class,
    a parameter here.  The dumps ([dump_job_shared_buffers],
    [dump_job_private_buffers], [dump_specific_buffers],
    [dump_for_emulation]) write host files only and are left out. *)
Definition schedule (validate_schedule_status : aipu_job_status_t → aipu_status_t)
    (c : sim_consts) (g : GraphV3X.t) (s : t * SimulatorV3_1.t)
  : option (aipu_status_t * (t * SimulatorV3_1.t)) :=
  let '(j, d) := s in
  let ret := validate_schedule_status (m_status j) in
  if decide (ret ≠ AIPU_STATUS_SUCCESS) then Some (ret, (j, d))
  else if get_subgraph_cnt g j =? 0 then Some (ret, (j, d))
  else
    let j :=
      match m_err_code j with
      | [err] => zeroize (JobIOBuffer.pa err) (JobIOBuffer.size err) j
      | _ => j
      end in
    let j :=
      if m_backup_tcb_used j
      then set_m_tcbs (take (Z.to_nat (m_tot_tcb_cnt j)) (m_backup_tcb j)
                       ++ drop (Z.to_nat (m_tot_tcb_cnt j)) (m_tcbs j)) j
      else j in
    let j := set_m_backup_tcb_used true j in
    match get_task j (u32 (m_sg_cnt j - 1)) (u32 (m_task_per_sg j - 1)) with
    | None => None
    | Some tail =>
        let desc :=
          JobDesc.mk (m_id j) (m_grid_id j) (m_partition_id j) (m_qos j)
            (m_bind_cmdpool_id j) (m_tot_tcb_cnt j) (m_init_tcb j) (Task.tcb_pa tail) in
        let '(ret, bind, d) :=
          if GraphV3X.m_text_size g =? 0
          then (ret, m_bind_cmdpool_id j, d)
          else SimulatorV3_1.schedule c desc d in
        let j := set_m_bind_cmdpool_id bind j in
        if decide (ret ≠ AIPU_STATUS_SUCCESS) then Some (ret, (j, d))
        else if m_is_defer_run j && negb (m_do_trigger j)
        then Some (ret, (set_m_status AIPU_JOB_STATUS_BIND j, d))
        else Some (ret, (set_m_status AIPU_JOB_STATUS_SCHED j, d))
    end.

(** *** SegMMU *)

Definition SEGMMU_MEM_CTRL_EN : Z := Z.shiftl 1 0.
Definition SEGMMU_REMAP_EN : Z := Z.shiftl 1 4.
Definition SEGMMU_REMAP_SHARE_EN : Z := Z.shiftl 1 5.

(** The bit fields of [union segmmu_id]: control index in bits 0..7,
    segment index in bits 8..15, core mask in bits 16..31. *)
Definition segmmu_ctrl_idx (id : Z) : Z := Z.land id 0xFF.
Definition segmmu_idx (id : Z) : Z := Z.land (Z.shiftr id 8) 0xFF.
Definition core_id_mask (id : Z) : Z := Z.land (Z.shiftr id 16) 0xFFFF.

(** The first loop of [setup_segmmu]: [n] cores left; [segmmu] is the
    pointer into the config array of the graph, as an index.  The pointer
    is advanced before use unless there is a single config; the config it
    then points to is switched on in place and copied to [m_segmmu_sec].
    Pointing past the array is undefined. *)
Fixpoint setup_segmmu_configs (segmmu_num : Z) (n segmmu : nat)
    (bsegmmu sec : list SegMMUConfig.t)
  : option (list SegMMUConfig.t * list SegMMUConfig.t) :=
  match n with
  | O => Some (bsegmmu, sec)
  | S n' =>
      let segmmu := if segmmu_num =? 1 then segmmu else S segmmu in
      match bsegmmu !! segmmu with
      | None => None
      | Some cfg =>
          let cfg :=
            SegMMUConfig.mk (SegMMUConfig.seg cfg)
              (Z.lor SEGMMU_REMAP_SHARE_EN SEGMMU_MEM_CTRL_EN) 0 in
          setup_segmmu_configs segmmu_num n' segmmu (<[segmmu := cfg]> bsegmmu)
            (sec ++ [cfg])
      end
  end.

(** [seg[segmmu_idx].control[ctrl_idx] = ctrl] in the config of one core. *)
Definition set_control (seg_idx ctrl_idx : nat) (ctrl : Z) (cfg : SegMMUConfig.t)
  : SegMMUConfig.t :=
  SegMMUConfig.mk
    (<[seg_idx := <[ctrl_idx := ctrl]> (default [] (SegMMUConfig.seg cfg !! seg_idx))]>
       (SegMMUConfig.seg cfg))
    (SegMMUConfig.SegMMU_ctl cfg) (SegMMUConfig.SegMMU_remap cfg).

(** The core loop for one tagged buffer: [n] cores left from [core_idx].
    The boolean tells whether the function goes on ([true]) or leaves
    through [goto out] ([false]). *)
Fixpoint segmmu_bind_cores (s_id pa : Z) (n : nat) (core_idx : Z)
    (sec : list SegMMUConfig.t) : option (bool * list SegMMUConfig.t) :=
  match n with
  | O => Some (true, sec)
  | S n' =>
      if Z.land (core_id_mask s_id) (Z.shiftl 1 core_idx) =? 0
      then segmmu_bind_cores s_id pa n' (core_idx + 1) sec
      else if (0 <=? segmmu_idx s_id) && (segmmu_idx s_id <? 4) then
        if (0 <=? segmmu_ctrl_idx s_id) && (segmmu_ctrl_idx s_id <=? 1) then
          match sec !! Z.to_nat core_idx with
          | None => None
          | Some cfg =>
              match SegMMUConfig.seg cfg !! Z.to_nat (segmmu_idx s_id) with
              | None => None
              | Some control =>
                  match control !! Z.to_nat (segmmu_ctrl_idx s_id) with
                  | None => None
                  | Some ctrl =>
                      let ctrl := Z.land ctrl 0x3fff in
                      let ctrl := u32 (Z.lor ctrl (Z.land pa (Z.lnot 0x3fff))) in
                      segmmu_bind_cores s_id pa n' (core_idx + 1)
                        (<[Z.to_nat core_idx :=
                             set_control (Z.to_nat (segmmu_idx s_id))
                               (Z.to_nat (segmmu_ctrl_idx s_id)) ctrl cfg]> sec)
                  end
              end
          end
        else Some (false, sec)
      else Some (false, sec)
  end.

(** The loop over the buffers that carry a SegMMU tag. *)
Fixpoint segmmu_bind_buffers (core_cnt : Z) (segmmus : list JobIOBuffer.t)
    (sec : list SegMMUConfig.t) : option (list SegMMUConfig.t) :=
  match segmmus with
  | [] => Some sec
  | iobuf :: rest =>
      let s_id := JobIOBuffer.id iobuf in
      if Z.land (core_id_mask s_id) (Z.shiftl 1 core_cnt - 1) =? 0 then Some sec
      else
        match segmmu_bind_cores s_id (JobIOBuffer.pa iobuf) (Z.to_nat core_cnt) 0 sec with
        | None => None
        | Some (false, sec) => Some sec
        | Some (true, sec) => segmmu_bind_buffers core_cnt rest sec
        end
  end.

(** [setup_segmmu].  The result carries, next to the job, the config array
    of the graph, which the function rewrites through its pointer. *)
Definition setup_segmmu (g : GraphV3X.t) (j : t)
  : option (aipu_status_t * (t * list SegMMUConfig.t)) :=
  if m_segmmu_num j =? 0 then Some (AIPU_STATUS_SUCCESS, (j, GraphV3X.m_bsegmmu g))
  else
    match setup_segmmu_configs (m_segmmu_num j) (Z.to_nat (m_core_cnt j)) 0
            (GraphV3X.m_bsegmmu g) (m_segmmu_sec j) with
    | None => None
    | Some (bsegmmu, sec) =>
        match segmmu_bind_buffers (m_core_cnt j) (m_segmmus j) sec with
        | None => None
        | Some sec => Some (AIPU_STATUS_SUCCESS, (set_m_segmmu_sec sec j, bsegmmu))
        end
    end.

(** *** Dynamic output shapes *)

(** The little-endian [uint32_t] at a device address; bytes the model does
    not hold read as zero. *)
Definition read_u32_mem (mem : gmap Z Z) (addr : Z) : Z :=
  default 0 (mem !! addr)
  + default 0 (mem !! (addr + 1)) * 2^8
  + default 0 (mem !! (addr + 2)) * 2^16
  + default 0 (mem !! (addr + 3)) * 2^24.

(** [data[0 .. n)] after [m_mem->read(pa, data, size)]. *)
Definition read_words (mem : gmap Z Z) (pa : Z) (n : nat) : list Z :=
  (λ k : nat, read_u32_mem mem (pa + 4 * Z.of_nat k)) <$> seq 0 n.

(** [size = 1; for (j ...) size *= data[j];] in 64 bits. *)
Definition dims_product (data : list Z) : Z :=
  foldl (λ size d, u64 (size * d)) 1 data.

(** The shift that accounts for the element width. *)
Definition scale_by_type (type : aipu_data_type_t) (size : Z) : Z :=
  match type with
  | AIPU_DATA_TYPE_U16 | AIPU_DATA_TYPE_S16 | AIPU_DATA_TYPE_F16 | AIPU_DATA_TYPE_BF16 =>
      u64 (Z.shiftl size 1)
  | AIPU_DATA_TYPE_U32 | AIPU_DATA_TYPE_S32 | AIPU_DATA_TYPE_F32 =>
      u64 (Z.shiftl size 2)
  | _ => size
  end.

(** The loop over the output-shape tensors, at index [i] with [pending]
    still to do.  [data] has room for 96 words; a larger tensor would be
    read past it. *)
Fixpoint parse_out_shape_loop (mem : gmap Z Z) (outputs : list JobIOBuffer.t) (i : nat)
    (pending : list JobIOBuffer.t) (ds : DynamicShape.t)
  : option (aipu_status_t * DynamicShape.t) :=
  match pending with
  | [] => Some (AIPU_STATUS_SUCCESS, ds)
  | shape :: pending' =>
      if 96 * 4 <? JobIOBuffer.size shape then None
      else
        let size :=
          dims_product
            (read_words mem (JobIOBuffer.pa shape) (Z.to_nat (JobIOBuffer.size shape / 4))) in
        if size =? 0
        then Some (AIPU_STATUS_ERROR_ZERO_TENSOR_SIZE,
                   DynamicShape.clear_config_out_tensor_size ds)
        else
          match outputs !! i with
          | None => None
          | Some out =>
              parse_out_shape_loop mem outputs (S i) pending'
                (DynamicShape.set_config_out_tensor_size i
                   (scale_by_type (JobIOBuffer.type out) size) ds)
          end
  end.




End JobV3_1.

(** ** Reading the TCB chain *)

(** The end-of-group, end-of-grid and end-of-pool bits of a flag word. *)
Definition TCB_FLAG_END_TYPE (flag : Z) : Z :=
  Z.land flag
    (Z.lor (Z.lor TCB_FLAG_END_TYPE_GROUP_END TCB_FLAG_END_TYPE_GRID_END)
       TCB_FLAG_END_TYPE_POOL_END).

(** The end flags task [t] of the subgraph in block [k] is expected to
    carry in a chain of [S] subgraphs with 4 tasks each. *)
Definition expected_end_flags (S k t : Z) : Z :=
  if t =? 3 then
    if k =? S - 1
    then Z.lor TCB_FLAG_END_TYPE_GROUP_END TCB_FLAG_END_TYPE_GRID_END
    else TCB_FLAG_END_TYPE_GROUP_END
  else TCB_FLAG_END_TYPE_NOT_END.

Definition is_task_tcb (S k t : Z) (tcb : tcb_t.t) : Prop :=
  TCB_FLAG_TASK_TYPE (tcb_t.flag tcb) = TCB_FLAG_TASK_TYPE_TASK ∧
  TCB_FLAG_END_TYPE (tcb_t.flag tcb) = expected_end_flags S k t.

(** The TCB at index [idx] of the job's TCB buffer. *)
Definition tcb_at (j : JobV3_1.t) (idx : Z) : option tcb_t.t :=
  if idx <? 0 then None else JobV3_1.m_tcbs j !! Z.to_nat idx.

(** What [set_job_params], the allocation of the TCB buffer and
    [init_per_task_data] establish for a job over [S] subgraphs whose TCB
    buffer starts at [base]. *)
Definition chain_params (S base : Z) (j : JobV3_1.t) : Prop :=
  JobV3_1.m_sg_cnt j = S ∧
  JobV3_1.m_task_per_sg j = 4 ∧
  JobV3_1.m_tot_tcb_cnt j = 1 + S * 5 ∧
  JobV3_1.m_init_tcb j = base ∧
  length (JobV3_1.m_tcbs j) = Z.to_nat (1 + S * 5) ∧
  ∀ sg_id t task,
    JobV3_1.get_task j sg_id t = Some task ↔
    0 ≤ sg_id < S ∧ 0 ≤ t < 4 ∧
    task = Task.mk (base + (2 + sg_id * 5 + t) * sizeof_tcb_t).

Definition grid_ok (j : JobV3_1.t) : Prop :=
  ∃ tcb, tcb_at j 0 = Some tcb ∧
    TCB_FLAG_TASK_TYPE (tcb_t.flag tcb) = TCB_FLAG_TASK_TYPE_GRID_INIT.

Definition group_ok (j : JobV3_1.t) (i : Z) : Prop :=
  ∃ tcb, tcb_at j (1 + i * 5) = Some tcb ∧
    TCB_FLAG_TASK_TYPE (tcb_t.flag tcb) = TCB_FLAG_TASK_TYPE_GROUP_INIT.

Definition block_ok (S : Z) (j : JobV3_1.t) (k : Z) : Prop :=
  ∀ t, 0 ≤ t < 4 →
    ∃ tcb, tcb_at j (2 + k * 5 + t) = Some tcb ∧ is_task_tcb S k t tcb.


(** ** Example data: a graph of three chained subgraphs *)

(** Subgraph 0 has no precursor, subgraph 1 waits for 0, subgraph 2 waits
    for 1. *)
Definition example_graph : GraphV3X.t :=
  GraphV3X.mk
    [Subgraph.mk 0 0 0 0 0 0 [] 0;
     Subgraph.mk 1 0 0 0 0 0 [0] 1;
     Subgraph.mk 2 0 0 0 0 0 [1] 1]
    false 0 [] 4096 0 false.

(** A capacity for the group-id bitmap, for the examples. *)
Definition example_MAX_GROUP_ID : Z := 64.

(** A simulator with an engine, one core, nothing allocated or queued. *)
Definition example_sim : SimulatorV3_1.t :=
  SimulatorV3_1.mk true 1 0 (replicate (Z.to_nat example_MAX_GROUP_ID) false) 0 false []
    ∅ ∅ ∅ false [] 0 [].

(** A job as its constructor leaves it. *)
Definition example_job : JobV3_1.t :=
  JobV3_1.mk 1 AIPU_JOB_STATUS_NO_STATUS 0 0 0 0 0 0 0 0 0 0 0 [] [] false
    [] [] [] [] [] 0 [] (DynamicShape.mk false 0 false ∅)
    false false 0xffffffff 0 [] ∅.

Definition example_tcbs_pa : Z := 0x10000.

(** The job and the simulator after [init] on the example graph. *)
Definition example_init_job : JobV3_1.t :=
  match JobV3_1.init example_MAX_GROUP_ID AIPU_STATUS_SUCCESS example_tcbs_pa
          example_graph (example_job, example_sim) with
  | Some (_, (j, _)) => j
  | None => example_job
  end.

Definition example_init_sim : SimulatorV3_1.t :=
  match JobV3_1.init example_MAX_GROUP_ID AIPU_STATUS_SUCCESS example_tcbs_pa
          example_graph (example_job, example_sim) with
  | Some (_, (_, d)) => d
  | None => example_sim
  end.

(** The group-init TCB as [setup_tcb_chain] prepares it before the
    dependency flags are added. *)
Definition example_group_init_tcb : tcb_t.t :=
  tcb_t.set_flag (Z.lor TCB_FLAG_TASK_TYPE_GROUP_INIT TCB_FLAG_GRID_INIT) tcb_t.zero.

(** ** Runs of group ids *)

(** The runs [[s1, s1 + c1)] and [[s2, s2 + c2)] share an id. *)
Definition runs_overlap (s1 c1 s2 c2 : Z) : Prop :=
  ∃ x, s1 ≤ x < s1 + c1 ∧ s2 ≤ x < s2 + c2.

(** ** The binary reader (parser_base.cpp) *)

(** A stream or a buffer is the list of its bytes, each in [0, 256). *)

(** [strncmp(s1, s2, n)] on the bytes found at the two pointers:
    comparison stops at the first difference, at a NUL, or after [n]
    bytes.  Only whether the result is zero matters to the callers.  A
    buffer that ends before the comparison does counts as different; this
    does not arise for a 16-byte identifier compared over at most 8 bytes
    with a NUL-terminated literal. *)
Fixpoint strncmp (s1 s2 : list Z) (n : nat) {struct n} : Z :=
  match n with
  | O => 0
  | S n' =>
      match s1, s2 with
      | c1 :: r1, c2 :: r2 =>
          if c1 =? c2 then (if c1 =? 0 then 0 else strncmp r1 r2 n') else c1 - c2
      | _, _ => 1
      end
  end.

(** [strcmp(s1, s2)] *)
Fixpoint strcmp (s1 s2 : list Z) : Z :=
  match s1, s2 with
  | c1 :: r1, c2 :: r2 =>
      if c1 =? c2 then (if c1 =? 0 then 0 else strcmp r1 r2) else c1 - c2
  | _, _ => 1
  end.

(** A string literal as the bytes in memory: its characters and the
    terminating NUL. *)
Definition c_str (chars : list Z) : list Z := chars ++ [0].

(** ["\177ELF"] *)
Definition ELF_IDENT : list Z := [127; 69; 76; 70].

(** The little-endian [uint32_t] at offset [off] of a buffer. *)
Definition read_u32 (bytes : list Z) (off : nat) : Z :=
  default 0 (bytes !! off)
  + default 0 (bytes !! (off + 1)%nat) * 2^8
  + default 0 (bytes !! (off + 2)%nat) * 2^16
  + default 0 (bytes !! (off + 3)%nat) * 2^24.

(** What parser_base.cpp takes from headers outside the sources at hand:
    the text magic, the two accepted graph versions and the macros that
    unpack the header words. *)
Record bin_consts : Type := mk_bin_consts {
  MAGIC : list Z;
  AIPU_LOADABLE_GRAPH_V0005 : Z;
  AIPU_LOADABLE_GRAPH_ELF_V0 : Z;
  GRAPH_VERSION : Z → Z;
  AIPU_ARCH : Z → Z;
  AIPU_VERSION : Z → Z;
  AIPU_CONFIG : Z → Z;
  AIPU_REVISION : Z → Z;
  GET_ASID_FLAG : Z → Z;
  GET_SRAM_FLAG : Z → Z;
  GET_REMAP_FLAG : Z → Z
}.

(** [get_graph_bin_version(gbin)]: 16 bytes are read from the stream, which
    is then rewound; a short read leaves [g_version] at 0. *)
Definition get_graph_bin_version (c : bin_consts) (gbin : list Z) : Z :=
  let EI_NIDENT := 16%nat in
  let e_ident := take EI_NIDENT gbin in
  if decide (length e_ident ≠ EI_NIDENT) then 0
  else if strncmp e_ident (c_str (MAGIC c)) 8 =? 0 then AIPU_LOADABLE_GRAPH_V0005 c
  else if strncmp e_ident (c_str ELF_IDENT) 4 =? 0 then AIPU_LOADABLE_GRAPH_ELF_V0 c
  else 0.

(** Modelled from the spec: the loader that calls [get_graph_bin_version]
    is outside the sources at hand; by the spec ("Unknown: fail
    INVALID_BIN") it refuses a stream for which no version was found. *)
Definition check_graph_bin_version (c : bin_consts) (gbin : list Z) : aipu_status_t :=
  let g_version := get_graph_bin_version c gbin in
  if (g_version =? AIPU_LOADABLE_GRAPH_V0005 c) || (g_version =? AIPU_LOADABLE_GRAPH_ELF_V0 c)
  then AIPU_STATUS_SUCCESS
  else AIPU_STATUS_ERROR_INVALID_GBIN.

(** Modelled from the spec: [struct BinHeaderTop] is declared outside the
    sources at hand; the spec gives its layout as [magic[8]] followed by
    the 32-bit words [device], [version], [build_version], [header_size],
    [file_size], [type] and [flag], little-endian. *)
Module BinHeaderTop.
Record t : Set := mk {
  magic : list Z;
  device : Z;
  version : Z;
  build_version : Z;
  header_size : Z;
  file_size : Z;
  type : Z;
  flag : Z
}.

Definition decode (bytes : list Z) : t :=
  mk (take 8 bytes) (read_u32 bytes 8) (read_u32 bytes 12) (read_u32 bytes 16)
     (read_u32 bytes 20) (read_u32 bytes 24) (read_u32 bytes 28) (read_u32 bytes 32).
End BinHeaderTop.

Definition BIN_HDR_TOP_SIZE : nat := 36.

(** What [parse_graph_header_top] stores in the graph object. *)
Module GraphHeader.
Record t : Set := mk {
  buildversion : Z;
  gversion : Z;
  arch : Z;
  hw_version : Z;
  hw_config : Z;
  hw_revision : Z;
  asid_flag : Z;
  sram_flag : Z;
  remap_flag : Z
}.
End GraphHeader.

(** [parse_graph_header_top(gbin, size, gobj)].  [strcmp] runs on the
    bytes found at [header.magic], that is on the header from its first
    byte on. *)
Definition parse_graph_header_top (c : bin_consts) (gbin : list Z) (gobj : GraphHeader.t)
  : aipu_status_t * GraphHeader.t :=
  let bytes := take BIN_HDR_TOP_SIZE gbin in
  if decide (length bytes ≠ BIN_HDR_TOP_SIZE) then (AIPU_STATUS_ERROR_INVALID_GBIN, gobj)
  else
    let header := BinHeaderTop.decode bytes in
    if negb (strcmp bytes (c_str (MAGIC c)) =? 0)
    then (AIPU_STATUS_ERROR_UNKNOWN_BIN, gobj)
    else if negb (AIPU_LOADABLE_GRAPH_V0005 c =? GRAPH_VERSION c (BinHeaderTop.version header))
            && negb (AIPU_LOADABLE_GRAPH_ELF_V0 c
                     =? GRAPH_VERSION c (BinHeaderTop.version header))
    then (AIPU_STATUS_ERROR_GVERSION_UNSUPPORTED, gobj)
    else
      (AIPU_STATUS_SUCCESS,
       GraphHeader.mk
         (BinHeaderTop.build_version header)
         (GRAPH_VERSION c (BinHeaderTop.version header))
         (AIPU_ARCH c (BinHeaderTop.device header))
         (AIPU_VERSION c (BinHeaderTop.device header))
         (AIPU_CONFIG c (BinHeaderTop.device header))
         (AIPU_REVISION c (BinHeaderTop.device header))
         (GET_ASID_FLAG c (BinHeaderTop.flag header))
         (GET_SRAM_FLAG c (BinHeaderTop.flag header))
         (GET_REMAP_FLAG c (BinHeaderTop.flag header))).

(** A buffer begins with a string literal, as [strncmp] over [n] bytes
    sees it: the first [n] bytes agree with the literal, whose NUL takes
    part when the literal is shorter than [n]. *)
Definition begins_with (buf chars : list Z) (n : nat) : Prop :=
  take (n `min` length (c_str chars)) buf = take n (c_str chars).

(** Example constants: the magic "AIPUBIN", versions 5 and 0x0204 taken
    from the high half of the version word. *)
Definition example_bin_consts : bin_consts :=
  mk_bin_consts [65; 73; 80; 85; 66; 73; 78] 5 516 (λ v, Z.shiftr v 16)
    (λ d, Z.shiftr d 20) (λ d, Z.land (Z.shiftr d 16) 0xF)
    (λ d, Z.land (Z.shiftr d 4) 0xFFF) (λ d, Z.land d 0xF)
    (λ f, Z.land f 0xF) (λ f, Z.land (Z.shiftr f 12) 1) (λ f, Z.land (Z.shiftr f 8) 1).

(** A 36-byte header with the example magic and graph version 7. *)
Definition example_header_v7 : list Z :=
  [65; 73; 80; 85; 66; 73; 78; 0] ++ [0; 0; 0; 0] ++ [0; 0; 7; 0] ++ replicate 20 0.

(** ** Example data for [schedule] *)

Definition example_sim_consts : sim_consts :=
  mk_sim_consts 1 4 0 1 0 (λ cluster_idx part_id, 0).

(** The example job after [init], with one error-code buffer of four bytes
    at 0x2000 that holds a non-zero byte. *)
Definition example_job_with_err_code : JobV3_1.t :=
  JobV3_1.set_m_mem {[ 0x2000 := 7 ]}
    (JobV3_1.set_m_err_code [JobIOBuffer.mk 0 4 AIPU_DATA_TYPE_U32 0x2000]
       example_init_job).

(** The simulator after [init] of the example job, but without an engine
    ([m_aipu == nullptr]). *)
Definition example_sim_no_engine : SimulatorV3_1.t :=
  let d := example_init_sim in
  SimulatorV3_1.mk false (SimulatorV3_1.core_cnt d) (SimulatorV3_1.m_grid_id d)
    (SimulatorV3_1.m_group_id_bitmap d) (SimulatorV3_1.m_partition_mode d)
    (SimulatorV3_1.m_cant_add_job_flag d) (SimulatorV3_1.m_buffer_queue d)
    (SimulatorV3_1.m_commit_map d) (SimulatorV3_1.m_done_set d)
    (SimulatorV3_1.m_sim_done_grid_set d) (SimulatorV3_1.simv3_1_has_grid_done d)
    (SimulatorV3_1.completions d) (SimulatorV3_1.tsm_status d) (SimulatorV3_1.trace d).

(** A graph without subgraphs, one whose text is empty, and a job
    initialised on the former. *)
Definition example_empty_graph : GraphV3X.t :=
  GraphV3X.mk [] false 0 [] 4096 0 false.

Definition example_textless_graph : GraphV3X.t :=
  GraphV3X.mk (GraphV3X.m_subgraphs example_graph) false 0 [] 0 0 false.

Definition example_empty_job : JobV3_1.t :=
  match JobV3_1.init example_MAX_GROUP_ID AIPU_STATUS_SUCCESS example_tcbs_pa
          example_empty_graph (example_job, example_sim) with
  | Some (_, (j, _)) => j
  | None => example_job
  end.

(** The example job after a [schedule] that found no engine, and the
    example job and simulator after a [schedule] that found one. *)
Definition example_schedule_failed_job : JobV3_1.t :=
  match JobV3_1.schedule JobV3_1.validate_schedule_status_spec example_sim_consts
          example_graph (example_job_with_err_code, example_sim_no_engine) with
  | Some (_, (j, _)) => j
  | None => example_job
  end.

Definition example_schedule_ok_job : JobV3_1.t :=
  match JobV3_1.schedule JobV3_1.validate_schedule_status_spec example_sim_consts
          example_graph (example_init_job, example_init_sim) with
  | Some (_, (j, _)) => j
  | None => example_job
  end.

Definition example_schedule_ok_sim : SimulatorV3_1.t :=
  match JobV3_1.schedule JobV3_1.validate_schedule_status_spec example_sim_consts
          example_graph (example_init_job, example_init_sim) with
  | Some (_, (_, d)) => d
  | None => example_sim
  end.

(** ** Dynamic output shapes: the claimed accounting *)

(** The product of the dims, as a number. *)
Definition product (dims : list Z) : Z := foldr Z.mul 1 dims.


(** The dims the job reads for an output-shape tensor. *)
Definition shape_dims (j : JobV3_1.t) (shape : JobIOBuffer.t) : list Z :=
  JobV3_1.read_words (JobV3_1.m_mem j) (JobIOBuffer.pa shape)
    (Z.to_nat (JobIOBuffer.size shape / 4)).



Definition example_dyn_job : JobV3_1.t :=
  JobV3_1.mk 1 AIPU_JOB_STATUS_DONE 3 4 0 1 16 1 0 0 0 0 0 [] [] true
    [JobIOBuffer.mk 0 602112 AIPU_DATA_TYPE_F32 0x100000]
    [JobIOBuffer.mk 0 4 AIPU_DATA_TYPE_F32 0x200000]
    [JobIOBuffer.mk 0 8 AIPU_DATA_TYPE_U32 0x3000]
    [] [] 0 [] (DynamicShape.mk true 1 false ∅)
    false false 0 0x10000 []
    (<[0x3000 := 1]> (<[0x3004 := 232]> (<[0x3005 := 3]> ∅))).


(** ** SegMMU: reading the result *)

(** A config as [setup_segmmu] switches it on. *)
Definition segmmu_enabled (cfg : SegMMUConfig.t) : SegMMUConfig.t :=
  SegMMUConfig.mk (SegMMUConfig.seg cfg)
    (Z.lor JobV3_1.SEGMMU_REMAP_SHARE_EN JobV3_1.SEGMMU_MEM_CTRL_EN) 0.

(** Example: a job on two cores and a SegMMU section that announces two
    configs, told apart by their first control word. *)
Definition example_segmmu_config (tag : Z) : SegMMUConfig.t :=
  SegMMUConfig.mk [[tag; 0]; [0; 0]; [0; 0]; [0; 0]] 0 0.

Definition example_segmmu_graph : GraphV3X.t :=
  GraphV3X.mk (GraphV3X.m_subgraphs example_graph) false 2
    [example_segmmu_config 0x100; example_segmmu_config 0x200] 4096 0 false.

Definition example_segmmu_job : JobV3_1.t :=
  JobV3_1.set_m_segmmu_num 2 (JobV3_1.set_m_core_cnt 2 example_job).

(** * The BSS walk: [ParserBase::parse_bss_section] *)

Definition UINT64_MAX : Z := 2^64 - 1.

(** Modelled from the spec: the test behind "out-of-range pointer while
    walking".  The [size] bytes at [ptr] lie between the two bounds. *)
Definition umd_is_valid_ptr (lower_bound upper_bound ptr size : Z) : bool :=
  (lower_bound <=? ptr) && (ptr + size <=? upper_bound).

(** The structs that the walk copies out of the binary, with the fields it
    uses.  Their declarations are outside the sources at hand, so sizes
    and field layout come as a parameter: [bss_layout] gives [sizeof] of
    each struct and the struct held by that many bytes. *)
Module BSSHeader.
Record t : Type := mk {
  stack_size : Z;
  stack_align_bytes : Z;
  static_section_desc_cnt : Z;
  reuse_section_desc_cnt : Z;
}.
End BSSHeader.

Module BSSStaticSectionDesc.
Record t : Type := mk { sub_section_cnt : Z }.
End BSSStaticSectionDesc.

Module BSSReuseSectionDesc.
Record t : Type := mk { sub_section_cnt : Z }.
End BSSReuseSectionDesc.

Module SubSectionDesc.
Record t : Type := mk {
  type : Z;
  offset_in_section_exec : Z;
  addr_mask : Z;
  offset_in_ro_cnt : Z;
}.
End SubSectionDesc.

Record bss_layout : Type := mk_bss_layout {
  sizeof_BSSHeader : Z;
  sizeof_BSSStaticSectionDesc : Z;
  sizeof_BSSReuseSectionDesc : Z;
  sizeof_SubSectionDesc : Z;
  as_BSSHeader : list Z → BSSHeader.t;
  as_BSSStaticSectionDesc : list Z → BSSStaticSectionDesc.t;
  as_BSSReuseSectionDesc : list Z → BSSReuseSectionDesc.t;
  as_SubSectionDesc : list Z → SubSectionDesc.t;
}.

Definition sizeof_uint32_t : Z := 4.

(** The relocation entries that the walk hands to [Graph::add_param], by
    the arguments of [param.init]. *)
Inductive param_map_load_type : Set :=
| PARAM_MAP_LOAD_TYPE_REUSE
| PARAM_MAP_LOAD_TYPE_STATIC.

Module GraphParamMapLoadDesc.
Record t : Type := mk {
  offset_in_ro : Z;
  load_type : param_map_load_type;
  sub_type : Z;
  buf_idx : Z;
  sub_sec_iter : Z;
  offset_in_section_exec : Z;
  addr_mask : Z;
}.
End GraphParamMapLoadDesc.

(** What the walk reads from the binary: which struct, where, how many
    bytes. *)
Inductive bss_load_kind : Set :=
| LOAD_BSS_HEADER
| LOAD_STATIC_SECTION_DESC
| LOAD_REUSE_SECTION_DESC
| LOAD_SUB_SECTION_DESC
| LOAD_OFFSET_IN_RO.

Module BssLoad.
Record t : Type := mk { kind : bss_load_kind; addr : Z; size : Z }.
End BssLoad.

(** The state the walk threads: the cursor [desc_load_addr], the two
    running buffer indices of the parser, the relocation entries of the
    graph object and the reads done so far (latest first).  The section
    tables and the I/O tensor lists of the graph object are written by the
    walk and never read back by it; they are left out. *)
Module BssWalk.
Record t : Type := mk {
  desc_load_addr : Z;
  m_static_buf_idx : Z;
  m_reuse_buf_idx : Z;
  param_map : list GraphParamMapLoadDesc.t;
  loads : list BssLoad.t;
}.

Definition set_desc_load_addr (a : Z) (s : t) : t :=
  mk a (m_static_buf_idx s) (m_reuse_buf_idx s) (param_map s) (loads s).
Definition set_m_static_buf_idx (i : Z) (s : t) : t :=
  mk (desc_load_addr s) i (m_reuse_buf_idx s) (param_map s) (loads s).
Definition set_m_reuse_buf_idx (i : Z) (s : t) : t :=
  mk (desc_load_addr s) (m_static_buf_idx s) i (param_map s) (loads s).
Definition set_param_map (p : list GraphParamMapLoadDesc.t) (s : t) : t :=
  mk (desc_load_addr s) (m_static_buf_idx s) (m_reuse_buf_idx s) p (loads s).
Definition set_loads (l : list BssLoad.t) (s : t) : t :=
  mk (desc_load_addr s) (m_static_buf_idx s) (m_reuse_buf_idx s) (param_map s) l.
End BssWalk.

(** A step of the walk: it goes on with a value, or leaves through
    [goto overflow] ([None]); the state is kept either way. *)
Definition walker (A : Type) : Type := BssWalk.t → option A * BssWalk.t.

#[global] Instance walker_ret : MRet walker := λ A a s, (Some a, s).

#[global] Instance walker_bind : MBind walker := λ A B f m s,
  match m s with
  | (Some a, s') => f a s'
  | (None, s') => (None, s')
  end.

(** The [size] bytes at [addr] of the address space. *)
Definition read_bytes (mem : Z → Z) (addr size : Z) : list Z :=
  (λ i, mem (addr + i)) <$> seqZ 0 size.

Section BssWalk.
Variable L : bss_layout.
Variable mem : Z → Z.
Variables load_lb load_ub : Z.

(** [if (umd_is_valid_ptr(load_lb, load_ub, desc_load_addr, size))
    memcpy(.., desc_load_addr, size); else goto overflow;] *)
Definition load (kind : bss_load_kind) (size : Z) : walker (list Z) := λ s,
  let ptr := BssWalk.desc_load_addr s in
  if umd_is_valid_ptr load_lb load_ub ptr size
  then (Some (read_bytes mem ptr size),
        BssWalk.set_loads (BssLoad.mk kind ptr size :: BssWalk.loads s) s)
  else (None, s).

(** [desc_load_addr = desc_load_addr + size] *)
Definition skip (size : Z) : walker unit := λ s,
  (Some tt, BssWalk.set_desc_load_addr (BssWalk.desc_load_addr s + size) s).

(** [gobj.add_param(0, param)] *)
Definition add_param (param : GraphParamMapLoadDesc.t) : walker unit := λ s,
  (Some tt, BssWalk.set_param_map (BssWalk.param_map s ++ [param]) s).

Definition get_m_static_buf_idx : walker Z := λ s, (Some (BssWalk.m_static_buf_idx s), s).
Definition get_m_reuse_buf_idx : walker Z := λ s, (Some (BssWalk.m_reuse_buf_idx s), s).
Definition incr_m_static_buf_idx : walker unit := λ s,
  (Some tt, BssWalk.set_m_static_buf_idx (u32 (BssWalk.m_static_buf_idx s + 1)) s).
Definition incr_m_reuse_buf_idx : walker unit := λ s,
  (Some tt, BssWalk.set_m_reuse_buf_idx (u32 (BssWalk.m_reuse_buf_idx s + 1)) s).

(** The relocation offsets of a sub-section of a static section:
    [n] entries left. *)
Fixpoint static_ro_entries (sub_sec_iter : Z) (sub_desc_load : SubSectionDesc.t)
    (n : nat) : walker unit :=
  match n with
  | O => mret tt
  | S n' =>
      bytes ← load LOAD_OFFSET_IN_RO sizeof_uint32_t;
      idx ← get_m_static_buf_idx;
      add_param (GraphParamMapLoadDesc.mk (read_u32 bytes 0) PARAM_MAP_LOAD_TYPE_STATIC 0
                   idx sub_sec_iter
                   (SubSectionDesc.offset_in_section_exec sub_desc_load)
                   (SubSectionDesc.addr_mask sub_desc_load));;
      skip sizeof_uint32_t;;
      static_ro_entries sub_sec_iter sub_desc_load n'
  end.

(** The sub-sections of a static section: [n] left from [sub_sec_iter]. *)
Fixpoint static_sub_sections (n : nat) (sub_sec_iter : Z) : walker unit :=
  match n with
  | O => mret tt
  | S n' =>
      bytes ← load LOAD_SUB_SECTION_DESC (sizeof_SubSectionDesc L);
      let sub_desc_load := as_SubSectionDesc L bytes in
      skip (sizeof_SubSectionDesc L);;
      static_ro_entries sub_sec_iter sub_desc_load
        (Z.to_nat (SubSectionDesc.offset_in_ro_cnt sub_desc_load));;
      static_sub_sections n' (sub_sec_iter + 1)
  end.

(** The static sections: [n] left. *)
Fixpoint static_sections (n : nat) : walker unit :=
  match n with
  | O => mret tt
  | S n' =>
      bytes ← load LOAD_STATIC_SECTION_DESC (sizeof_BSSStaticSectionDesc L);
      let static_desc_load := as_BSSStaticSectionDesc L bytes in
      skip (sizeof_BSSStaticSectionDesc L);;
      static_sub_sections
        (Z.to_nat (BSSStaticSectionDesc.sub_section_cnt static_desc_load)) 0;;
      incr_m_static_buf_idx;;
      static_sections n'
  end.

(** The same three loops for the reuse sections. *)
Fixpoint reuse_ro_entries (sub_sec_iter : Z) (sub_desc_load : SubSectionDesc.t)
    (n : nat) : walker unit :=
  match n with
  | O => mret tt
  | S n' =>
      bytes ← load LOAD_OFFSET_IN_RO sizeof_uint32_t;
      idx ← get_m_reuse_buf_idx;
      add_param (GraphParamMapLoadDesc.mk (read_u32 bytes 0) PARAM_MAP_LOAD_TYPE_REUSE
                   (SubSectionDesc.type sub_desc_load) idx sub_sec_iter
                   (SubSectionDesc.offset_in_section_exec sub_desc_load)
                   (SubSectionDesc.addr_mask sub_desc_load));;
      skip sizeof_uint32_t;;
      reuse_ro_entries sub_sec_iter sub_desc_load n'
  end.

Fixpoint reuse_sub_sections (n : nat) (sub_sec_iter : Z) : walker unit :=
  match n with
  | O => mret tt
  | S n' =>
      bytes ← load LOAD_SUB_SECTION_DESC (sizeof_SubSectionDesc L);
      let sub_desc_load := as_SubSectionDesc L bytes in
      skip (sizeof_SubSectionDesc L);;
      reuse_ro_entries sub_sec_iter sub_desc_load
        (Z.to_nat (SubSectionDesc.offset_in_ro_cnt sub_desc_load));;
      reuse_sub_sections n' (sub_sec_iter + 1)
  end.

Fixpoint reuse_sections (n : nat) : walker unit :=
  match n with
  | O => mret tt
  | S n' =>
      bytes ← load LOAD_REUSE_SECTION_DESC (sizeof_BSSReuseSectionDesc L);
      let reuse_desc_load := as_BSSReuseSectionDesc L bytes in
      skip (sizeof_BSSReuseSectionDesc L);;
      reuse_sub_sections
        (Z.to_nat (BSSReuseSectionDesc.sub_section_cnt reuse_desc_load)) 0;;
      incr_m_reuse_buf_idx;;
      reuse_sections n'
  end.
End BssWalk.

(** [parse_bss_section(bss, size, ..)].  The header is copied without a
    test; every later read goes through [load].  On success the cursor of
    the final state is what the function stores to [*next]. *)
Definition parse_bss_section (L : bss_layout) (mem : Z → Z) (bss size : Z)
    (s : BssWalk.t) : aipu_status_t * BssWalk.t :=
  let load_lb := bss in
  let load_ub := u64 (bss + sizeof_BSSHeader L + size) in
  let load_ub := if 0 =? size then UINT64_MAX else load_ub in
  let bss_header := as_BSSHeader L (read_bytes mem bss (sizeof_BSSHeader L)) in
  let s :=
    BssWalk.set_loads
      (BssLoad.mk LOAD_BSS_HEADER bss (sizeof_BSSHeader L) :: BssWalk.loads s) s in
  if (BSSHeader.stack_size bss_header =? 0)
     || (BSSHeader.stack_align_bytes bss_header =? 0)
     || (BSSHeader.reuse_section_desc_cnt bss_header =? 0)
  then (AIPU_STATUS_ERROR_INVALID_GBIN, s)
  else
    let s := BssWalk.set_desc_load_addr (bss + sizeof_BSSHeader L) s in
    let walk : walker unit :=
      static_sections L mem load_lb load_ub
        (Z.to_nat (BSSHeader.static_section_desc_cnt bss_header));;
      reuse_sections L mem load_lb load_ub
        (Z.to_nat (BSSHeader.reuse_section_desc_cnt bss_header)) in
    match walk s with
    | (Some _, s') => (AIPU_STATUS_SUCCESS, s')
    | (None, s') => (AIPU_STATUS_ERROR_INVALID_GBIN, s')
    end.

(** ** The BSS walk: reading the result *)

(** The sizes of a layout are sizes. *)
Definition bss_layout_ok (L : bss_layout) : Prop :=
  0 ≤ sizeof_BSSHeader L ∧ 0 ≤ sizeof_BSSStaticSectionDesc L ∧
  0 ≤ sizeof_BSSReuseSectionDesc L ∧ 0 ≤ sizeof_SubSectionDesc L.

(** The sizes of the reads that go through [load]. *)
Definition checked_load_sizes (L : bss_layout) : list Z :=
  [sizeof_BSSStaticSectionDesc L; sizeof_BSSReuseSectionDesc L;
   sizeof_SubSectionDesc L; sizeof_uint32_t].

(** A read other than that of the header lies between the bounds. *)
Definition load_within (lb ub : Z) (a : BssLoad.t) : Prop :=
  BssLoad.kind a ≠ LOAD_BSS_HEADER → lb ≤ BssLoad.addr a ∧ BssLoad.addr a + BssLoad.size a ≤ ub.

(** The invariant of the walk: the reads done lie between the bounds, and
    so do the next [n] bytes at the cursor. *)
Definition walk_inv (lb ub n : Z) (s : BssWalk.t) : Prop :=
  Forall (load_within lb ub) (BssWalk.loads s) ∧
  lb ≤ BssWalk.desc_load_addr s ∧ BssWalk.desc_load_addr s + n ≤ ub.

(** How the walk leaves through [overflow]: with its cursor at a place
    where the struct to read next goes beyond the upper bound. *)
Definition walk_stopped (L : bss_layout) (lb ub : Z) (s : BssWalk.t) : Prop :=
  walk_inv lb ub 0 s ∧
  ∃ n, n ∈ checked_load_sizes L ∧ ub < BssWalk.desc_load_addr s + n.

(** A step started in [P] goes on in [Q] or leaves through overflow in [E]. *)
Definition triple {A : Type} (P : BssWalk.t → Prop) (m : walker A)
    (Q : A → BssWalk.t → Prop) (E : BssWalk.t → Prop) : Prop :=
  ∀ s, P s →
    match m s with
    | (Some a, s') => Q a s'
    | (None, s') => E s'
    end.

(** The header test of [parse_bss_section]. *)
Definition bss_header_invalid (h : BSSHeader.t) : Prop :=
  BSSHeader.stack_size h = 0 ∨ BSSHeader.stack_align_bytes h = 0 ∨
  BSSHeader.reuse_section_desc_cnt h = 0.

(** ** The BSS walk: an example *)

(** Modelled from the spec: the BSS layout as the spec lists it, every
    field a little-endian [u32] in the order given: the header is
    [stack_size, stack_align_bytes, static_section_desc_cnt,
    reuse_section_desc_cnt]; a section descriptor is [size, align_bytes,
    offset_in_file, sub_section_cnt]; a sub-section descriptor is [type,
    size, id, offset_in_section_exec, addr_mask, offset_in_ro_cnt, scale,
    zero_point, data_type]. *)
Definition example_bss_layout : bss_layout :=
  mk_bss_layout 16 16 16 36
    (λ b, BSSHeader.mk (read_u32 b 0) (read_u32 b 4) (read_u32 b 8) (read_u32 b 12))
    (λ b, BSSStaticSectionDesc.mk (read_u32 b 12))
    (λ b, BSSReuseSectionDesc.mk (read_u32 b 12))
    (λ b, SubSectionDesc.mk (read_u32 b 0) (read_u32 b 12) (read_u32 b 16) (read_u32 b 20)).

Definition u32_bytes (x : Z) : list Z :=
  [Z.land x 0xFF; Z.land (Z.shiftr x 8) 0xFF; Z.land (Z.shiftr x 16) 0xFF;
   Z.land (Z.shiftr x 24) 0xFF].

Definition u32s_bytes (xs : list Z) : list Z := xs ≫= u32_bytes.

(** An address space that holds [bytes] at [base] and zero elsewhere. *)
Definition mem_of_bytes (base : Z) (bytes : list Z) : Z → Z := λ a,
  if a <? base then 0 else default 0 (bytes !! Z.to_nat (a - base)).

(** A BSS at [0x1000]: one static section with one sub-section and two
    relocation offsets, one reuse section with one sub-section and one
    relocation offset; 116 bytes after the 16 bytes of the header. *)
Definition example_bss_addr : Z := 0x1000.

Definition example_bss_bytes : list Z :=
  u32s_bytes
    ([4096; 4096; 1; 1] ++
     [256; 64; 0; 1] ++
       [0; 256; 0; 0; 0xFFFFFFFF; 2; 0; 0; 0] ++ [0x10; 0x14] ++
     [512; 64; 0; 1] ++
       [1; 512; 0; 0; 0xFFFFFFFF; 1; 0; 0; 0] ++ [0x18]).

Definition example_bss_mem : Z → Z := mem_of_bytes example_bss_addr example_bss_bytes.

Definition example_walk_start : BssWalk.t := BssWalk.mk 0 0 0 [] [].

(* ===================================================================== *)
(** * Part I, continued.  Further functions of the same files            *)
(* ===================================================================== *)

(** ** I/O tensor lists: the nine lists and their section types *)

(** The nine lists of [GraphIOTensors], in the order of the cases of
    [fill_io_tensor_desc_inner]. *)
Definition io_lists (io : GraphIOTensors) : list (list GraphIOTensorDesc.t) :=
  [inputs io; outputs io; inter_dumps io; profiler io; printf io;
   layer_counter io; err_code io; segmmus io; outputs_shape io].

(** Example lists: inputs out of order, outputs with an id out of range. *)
Definition example_unsorted_inputs : list GraphIOTensorDesc.t :=
  [desc_with_id 2; desc_with_id 0; desc_with_id 1].

Definition example_sorted_inputs : list GraphIOTensorDesc.t :=
  [desc_with_id 0; desc_with_id 1; desc_with_id 2].

Definition example_half_sortable_io : GraphIOTensors :=
  mkGraphIOTensors example_unsorted_inputs [desc_with_id 5] [desc_with_id 1; desc_with_id 0]
    [] [] [] [] [] [desc_with_id 0].

(** ** [fill_io_tensor_desc_inner] (parser_base.cpp) *)

(** The [SECTION_TYPE_*] values the function switches on; the enumeration
    is in a header outside the sources at hand. *)
Record section_types : Type := mk_section_types {
  SECTION_TYPE_INPUT : Z;
  SECTION_TYPE_OUTPUT : Z;
  SECTION_TYPE_INTER_DUMP : Z;
  SECTION_TYPE_PROF_DATA : Z;
  SECTION_TYPE_PLOG_DATA : Z;
  SECTION_TYPE_LAYER_COUNTER : Z;
  SECTION_TYPE_ERROR_CODE : Z;
  SECTION_TYPE_SEGMMU : Z;
  SECTION_TYPE_OUT_TENSOR_SHAPE : Z;
}.

(** The case labels, in the order of the [switch]. *)
Definition io_section_types (c : section_types) : list Z :=
  [SECTION_TYPE_INPUT c; SECTION_TYPE_OUTPUT c; SECTION_TYPE_INTER_DUMP c;
   SECTION_TYPE_PROF_DATA c; SECTION_TYPE_PLOG_DATA c; SECTION_TYPE_LAYER_COUNTER c;
   SECTION_TYPE_ERROR_CODE c; SECTION_TYPE_SEGMMU c; SECTION_TYPE_OUT_TENSOR_SHAPE c].

(** The template parameter [sub_section_desc_v3_t]: any struct with the
    fields the function reads. *)
Module sub_section_desc_v3_t.
Record t : Set := mk {
  type : Z;
  size : Z;
  id : Z;
  offset_in_section_exec : Z;
  scale : Z;
  zero_point : Z;
  data_type : Z;
}.
End sub_section_desc_v3_t.

(** [fill_io_tensor_desc_inner(reuse_sec_iter, sub_sec_iter,
    sub_section_load, desc)] *)
Definition fill_io_tensor_desc_inner (c : section_types) (reuse_sec_iter sub_sec_iter : Z)
    (sub_section_load : sub_section_desc_v3_t.t) (desc : GraphIOTensors)
  : aipu_status_t * GraphIOTensors :=
  let io_desc :=
    GraphIOTensorDesc.mk
      (sub_section_desc_v3_t.id sub_section_load)
      (sub_section_desc_v3_t.size sub_section_load)
      reuse_sec_iter
      (sub_section_desc_v3_t.offset_in_section_exec sub_section_load)
      (sub_section_desc_v3_t.scale sub_section_load)
      (sub_section_desc_v3_t.zero_point sub_section_load)
      (sub_section_desc_v3_t.data_type sub_section_load) in
  let type := sub_section_desc_v3_t.type sub_section_load in
  if type =? SECTION_TYPE_INPUT c then
    (AIPU_STATUS_SUCCESS,
     mkGraphIOTensors (inputs desc ++ [io_desc]) (outputs desc) (inter_dumps desc)
       (profiler desc) (printf desc) (layer_counter desc) (err_code desc) (segmmus desc)
       (outputs_shape desc))
  else if type =? SECTION_TYPE_OUTPUT c then
    (AIPU_STATUS_SUCCESS,
     mkGraphIOTensors (inputs desc) (outputs desc ++ [io_desc]) (inter_dumps desc)
       (profiler desc) (printf desc) (layer_counter desc) (err_code desc) (segmmus desc)
       (outputs_shape desc))
  else if type =? SECTION_TYPE_INTER_DUMP c then
    (AIPU_STATUS_SUCCESS,
     mkGraphIOTensors (inputs desc) (outputs desc) (inter_dumps desc ++ [io_desc])
       (profiler desc) (printf desc) (layer_counter desc) (err_code desc) (segmmus desc)
       (outputs_shape desc))
  else if type =? SECTION_TYPE_PROF_DATA c then
    (AIPU_STATUS_SUCCESS,
     mkGraphIOTensors (inputs desc) (outputs desc) (inter_dumps desc)
       (profiler desc ++ [io_desc]) (printf desc) (layer_counter desc) (err_code desc)
       (segmmus desc) (outputs_shape desc))
  else if type =? SECTION_TYPE_PLOG_DATA c then
    (AIPU_STATUS_SUCCESS,
     mkGraphIOTensors (inputs desc) (outputs desc) (inter_dumps desc)
       (profiler desc) (printf desc ++ [io_desc]) (layer_counter desc) (err_code desc)
       (segmmus desc) (outputs_shape desc))
  else if type =? SECTION_TYPE_LAYER_COUNTER c then
    (AIPU_STATUS_SUCCESS,
     mkGraphIOTensors (inputs desc) (outputs desc) (inter_dumps desc)
       (profiler desc) (printf desc) (layer_counter desc ++ [io_desc]) (err_code desc)
       (segmmus desc) (outputs_shape desc))
  else if type =? SECTION_TYPE_ERROR_CODE c then
    (AIPU_STATUS_SUCCESS,
     mkGraphIOTensors (inputs desc) (outputs desc) (inter_dumps desc)
       (profiler desc) (printf desc) (layer_counter desc) (err_code desc ++ [io_desc])
       (segmmus desc) (outputs_shape desc))
  else if type =? SECTION_TYPE_SEGMMU c then
    (AIPU_STATUS_SUCCESS,
     mkGraphIOTensors (inputs desc) (outputs desc) (inter_dumps desc)
       (profiler desc) (printf desc) (layer_counter desc) (err_code desc)
       (segmmus desc ++ [io_desc]) (outputs_shape desc))
  else if type =? SECTION_TYPE_OUT_TENSOR_SHAPE c then
    (AIPU_STATUS_SUCCESS,
     mkGraphIOTensors (inputs desc) (outputs desc) (inter_dumps desc)
       (profiler desc) (printf desc) (layer_counter desc) (err_code desc)
       (segmmus desc) (outputs_shape desc ++ [io_desc]))
  else (AIPU_STATUS_ERROR_INVALID_TENSOR_TYPE, desc).

(** The descriptor the function builds from a sub-section. *)
Definition io_desc_of (reuse_sec_iter : Z) (sub : sub_section_desc_v3_t.t)
  : GraphIOTensorDesc.t :=
  GraphIOTensorDesc.mk
    (sub_section_desc_v3_t.id sub) (sub_section_desc_v3_t.size sub) reuse_sec_iter
    (sub_section_desc_v3_t.offset_in_section_exec sub) (sub_section_desc_v3_t.scale sub)
    (sub_section_desc_v3_t.zero_point sub) (sub_section_desc_v3_t.data_type sub).

(** Example section types: nine distinct values. *)
Definition example_section_types : section_types :=
  mk_section_types 2 3 4 5 6 7 8 9 10.

Definition example_output_sub_section : sub_section_desc_v3_t.t :=
  sub_section_desc_v3_t.mk 3 4000 0 256 0 0 1.

(** ** The BSS walk: what it has read and queued *)

#[global] Instance bss_load_kind_eq_dec : EqDecision bss_load_kind.
Proof. solve_decision. Defined.

(** The bytes read through [load]: the sizes of the reads other than that
    of the header. *)
Definition loaded_bytes (loads : list BssLoad.t) : Z :=
  foldr (λ a acc, if decide (BssLoad.kind a = LOAD_BSS_HEADER) then acc
                  else BssLoad.size a + acc) 0 loads.

(** The number of relocation offsets read. *)
Definition relocation_loads (loads : list BssLoad.t) : nat :=
  length (filter (λ a, BssLoad.kind a = LOAD_OFFSET_IN_RO) loads).

(** The account the walk keeps: the cursor is the start plus the bytes
    read, [n] bytes of the latest read not yet skipped; the relocation
    entries are the given ones followed by one per offset read, [m] of them
    not yet queued. *)
Definition walk_account (start : Z) (params : list GraphParamMapLoadDesc.t)
    (n : Z) (m : nat) (s : BssWalk.t) : Prop :=
  BssWalk.desc_load_addr s + n = start + loaded_bytes (BssWalk.loads s) ∧
  ∃ added,
    BssWalk.param_map s = params ++ added ∧
    (length added + m = relocation_loads (BssWalk.loads s))%nat.

(** ** The binary reader: more example headers *)

(** A 36-byte header with the example magic and graph version 5. *)
Definition example_header_v5 : list Z :=
  [65; 73; 80; 85; 66; 73; 78; 0] ++ [0; 0; 0; 0] ++ [0; 0; 5; 0] ++ replicate 20 0.

(** The same header with the magic run on by one character ("AIPUBINX"). *)
Definition example_header_long_magic : list Z :=
  [65; 73; 80; 85; 66; 73; 78; 88] ++ [0; 0; 0; 0] ++ [0; 0; 5; 0] ++ replicate 20 0.

(** ** The BSS table of the graph (graph_v3.h) *)

(** [struct GraphSectionDesc] is declared outside the sources at hand; the
    record has the fields [parse_bss_section] fills. *)
Module GraphSectionDesc.
Record t : Set := mk {
  size : Z;
  align_in_page : Z;
  offset_in_file : Z;
  type : Z;
  slot_index : Z;
  relative_addr : Z;
  sub_sections : list Z;
}.
End GraphSectionDesc.

(** [struct BSS] *)
Module BSS.
Record t : Type := mk {
  bss_id : Z;
  stack_size : Z;
  stack_align_in_page : Z;
  param_map : list GraphParamMapLoadDesc.t;
  const_sections : gmap Z GraphSectionDesc.t;
  zerocpy_const_sections : gmap Z GraphSectionDesc.t;
  const_info : list Z;
  static_sections : list GraphSectionDesc.t;
  reuse_sections : list GraphSectionDesc.t;
  io : GraphIOTensors;
}.

Definition set_stack (size align : Z) (b : t) : t :=
  mk (bss_id b) size align (param_map b) (const_sections b) (zerocpy_const_sections b)
     (const_info b) (static_sections b) (reuse_sections b) (io b).
Definition set_param_map (v : list GraphParamMapLoadDesc.t) (b : t) : t :=
  mk (bss_id b) (stack_size b) (stack_align_in_page b) v (const_sections b)
     (zerocpy_const_sections b) (const_info b) (static_sections b) (reuse_sections b) (io b).
Definition set_const_sections (v : gmap Z GraphSectionDesc.t) (b : t) : t :=
  mk (bss_id b) (stack_size b) (stack_align_in_page b) (param_map b) v
     (zerocpy_const_sections b) (const_info b) (static_sections b) (reuse_sections b) (io b).
Definition set_zerocpy_const_sections (v : gmap Z GraphSectionDesc.t) (b : t) : t :=
  mk (bss_id b) (stack_size b) (stack_align_in_page b) (param_map b) (const_sections b)
     v (const_info b) (static_sections b) (reuse_sections b) (io b).
Definition set_const_info (v : list Z) (b : t) : t :=
  mk (bss_id b) (stack_size b) (stack_align_in_page b) (param_map b) (const_sections b)
     (zerocpy_const_sections b) v (static_sections b) (reuse_sections b) (io b).
Definition set_static_sections (v : list GraphSectionDesc.t) (b : t) : t :=
  mk (bss_id b) (stack_size b) (stack_align_in_page b) (param_map b) (const_sections b)
     (zerocpy_const_sections b) (const_info b) v (reuse_sections b) (io b).
Definition set_reuse_sections (v : list GraphSectionDesc.t) (b : t) : t :=
  mk (bss_id b) (stack_size b) (stack_align_in_page b) (param_map b) (const_sections b)
     (zerocpy_const_sections b) (const_info b) (static_sections b) v (io b).
Definition set_io (v : GraphIOTensors) (b : t) : t :=
  mk (bss_id b) (stack_size b) (stack_align_in_page b) (param_map b) (const_sections b)
     (zerocpy_const_sections b) (const_info b) (static_sections b) (reuse_sections b) v.
End BSS.

(** The methods of [GraphV3X] on [m_bss_vec].  Each takes the vector and
    gives the vector it leaves; [bss_id] is a [uint32_t]. *)
Module BssVec.

(** [bss_id < (uint32_t)m_bss_vec.size()] *)
Definition in_range (bss_id : Z) (m_bss_vec : list BSS.t) : bool :=
  bss_id <? u32 (Z.of_nat (length m_bss_vec)).

(** [if (bss_id < (uint32_t)m_bss_vec.size()) m_bss_vec[bss_id].. = ..] *)
Definition guarded (bss_id : Z) (f : BSS.t → BSS.t) (m_bss_vec : list BSS.t) : list BSS.t :=
  if in_range bss_id m_bss_vec then alter f (Z.to_nat bss_id) m_bss_vec else m_bss_vec.

Definition set_bss (bss : BSS.t) (m_bss_vec : list BSS.t) : list BSS.t :=
  m_bss_vec ++ [bss].

Definition get_bss_cnt (m_bss_vec : list BSS.t) : Z := u32 (Z.of_nat (length m_bss_vec)).

Definition set_stack (bss_id size align : Z) : list BSS.t → list BSS.t :=
  guarded bss_id (BSS.set_stack size align).

Definition add_param (bss_id : Z) (param : GraphParamMapLoadDesc.t)
  : list BSS.t → list BSS.t :=
  guarded bss_id (λ b, BSS.set_param_map (BSS.param_map b ++ [param]) b).

Definition add_const_section (bss_id : Z) (section : GraphSectionDesc.t)
  : list BSS.t → list BSS.t :=
  guarded bss_id
    (λ b, BSS.set_const_sections
            (<[GraphSectionDesc.slot_index section := section]> (BSS.const_sections b)) b).

Definition add_zerocpy_const_section (bss_id : Z) (section : GraphSectionDesc.t)
  : list BSS.t → list BSS.t :=
  guarded bss_id
    (λ b, BSS.set_zerocpy_const_sections
            (<[GraphSectionDesc.slot_index section := section]>
               (BSS.zerocpy_const_sections b)) b).

Definition add_static_section (bss_id : Z) (section : GraphSectionDesc.t)
  : list BSS.t → list BSS.t :=
  guarded bss_id (λ b, BSS.set_static_sections (BSS.static_sections b ++ [section]) b).

(** [add_reuse_section]: the section goes to the BSS named, when there is
    one, and, for [bss_id != 0], to BSS 0 as well, whose presence is not
    tested. *)
Definition add_reuse_section (bss_id : Z) (section : GraphSectionDesc.t)
    (m_bss_vec : list BSS.t) : option (list BSS.t) :=
  let push := λ b, BSS.set_reuse_sections (BSS.reuse_sections b ++ [section]) b in
  let m_bss_vec := guarded bss_id push m_bss_vec in
  if bss_id =? 0 then Some m_bss_vec
  else
    match m_bss_vec with
    | [] => None
    | _ => Some (alter push 0%nat m_bss_vec)
    end.

Definition set_io_tensors (bss_id : Z) (io : GraphIOTensors) : list BSS.t → list BSS.t :=
  guarded bss_id (BSS.set_io io).

(** [set_const_size]: a graph without weights reserves 4 KB. *)
Definition set_const_size (bss_id _const_size _zerocpy_const_size : Z)
  : list BSS.t → list BSS.t :=
  let _const_size := if _const_size =? 0 then 4096 else _const_size in
  guarded bss_id
    (λ b, BSS.set_const_info (BSS.const_info b ++ [_const_size; _zerocpy_const_size]) b).

(** [get_zerocpy_const_size]: [const_info[1]] of the BSS, 0 when there is
    no such BSS. *)
Definition get_zerocpy_const_size (bss_id : Z) (m_bss_vec : list BSS.t) : option Z :=
  if in_range bss_id m_bss_vec
  then b ← m_bss_vec !! Z.to_nat bss_id; BSS.const_info b !! 1%nat
  else Some 0.

(** [get_const_size]: [const_info[0]] of the BSS, 0 when there is no such
    BSS. *)
Definition get_const_size (bss_id : Z) (m_bss_vec : list BSS.t) : option Z :=
  if in_range bss_id m_bss_vec
  then b ← m_bss_vec !! Z.to_nat bss_id; BSS.const_info b !! 0%nat
  else Some 0.

End BssVec.

(** A fresh BSS, and a section that only carries its size. *)
Definition empty_bss (bss_id : Z) : BSS.t :=
  BSS.mk bss_id 0 0 [] ∅ ∅ [] [] [] (io_with_inputs []).

Definition section_of_size (size : Z) : GraphSectionDesc.t :=
  GraphSectionDesc.mk size 0 0 0 0 0 [].

(** A run of [add_reuse_section] calls, stopping where a call is
    undefined. *)
Definition add_reuse_sections (calls : list (Z * GraphSectionDesc.t))
    (m_bss_vec : list BSS.t) : option (list BSS.t) :=
  foldl (λ acc call, v ← acc; BssVec.add_reuse_section call.1 call.2 v)
    (Some m_bss_vec) calls.

(** ** Group ids: example bitmaps *)

(** Ids 0 and 1 held, id 2 free, id 3 held, the rest free. *)
Definition example_bitmap_gap : list bool :=
  [true; true; false; true] ++ replicate 60 false.

Definition example_sim_with_bitmap (bitmap : list bool) : SimulatorV3_1.t :=
  SimulatorV3_1.set_m_group_id_bitmap bitmap example_sim.

(** ** The simulator target ([SimulatorV3_1::parse_config]) *)

(** Values of [aipu_status_t] that only the functions of this part
    return, next to those listed before. *)
Inductive aipu_status : Set :=
| status_of (ret : aipu_status_t)
| AIPU_STATUS_ERROR_TARGET_NOT_FOUND
| AIPU_STATUS_ERROR_INVALID_PARTITION_ID.

(** The codes [sim_aipu::config_t::X3_1304*] of the simulator library. *)
Record sim_codes : Type := mk_sim_codes {
  X3_1304 : Z;
  X3_1304MP2 : Z;
  X3_1304MP4 : Z;
}.

Module arch_item_t.
Record t : Set := mk { config : Z; core : Z; cluster : Z; sim_code : Z }.
End arch_item_t.

Definition npu_arch_map (c : sim_codes) : gmap string arch_item_t.t :=
  <["X3_1304" := arch_item_t.mk 1304 1 1 (X3_1304 c)]>
    (<["X3_1304MP2" := arch_item_t.mk 1304 2 1 (X3_1304MP2 c)]>
       (<["X3_1304MP4" := arch_item_t.mk 1304 4 1 (X3_1304MP4 c)]> ∅)).

(** [std::map::operator[]]: the value under the key, a value-initialized
    one being inserted when there is none. *)
Definition map_index (m : gmap string arch_item_t.t) (key : string)
  : arch_item_t.t * gmap string arch_item_t.t :=
  match m !! key with
  | Some item => (item, m)
  | None => (arch_item_t.mk 0 0 0 0, <[key := arch_item_t.mk 0 0 0 0]> m)
  end.

(** [parse_config(config, sim_code)] of a simulator whose [m_arch_desc] is
    the given string; the result carries the value left in [sim_code]. *)
Definition parse_config (c : sim_codes) (m_arch_desc : string) (config sim_code : Z)
  : aipu_status * Z :=
  let key := "null" in
  let npu_arch_map := npu_arch_map c in
  let chosen : aipu_status + (Z * string * gmap string arch_item_t.t) :=
    if negb (String.eqb m_arch_desc "") && bool_decide (is_Some (npu_arch_map !! m_arch_desc))
    then
      let '(item, npu_arch_map) := map_index npu_arch_map m_arch_desc in
      inr (arch_item_t.sim_code item, m_arch_desc, npu_arch_map)
    else if config =? 1304 then
      let key := "X3_1304" in
      if bool_decide (is_Some (npu_arch_map !! key)) then
        let '(item, npu_arch_map) := map_index npu_arch_map key in
        inr (arch_item_t.sim_code item, key, npu_arch_map)
      else inl AIPU_STATUS_ERROR_TARGET_NOT_FOUND
    else inl AIPU_STATUS_ERROR_TARGET_NOT_FOUND in
  match chosen with
  | inl ret => (ret, sim_code)
  | inr (sim_code, key, npu_arch_map) =>
      let '(item, npu_arch_map) := map_index npu_arch_map key in
      if negb (arch_item_t.config item =? 1304)
      then (AIPU_STATUS_ERROR_TARGET_NOT_FOUND, sim_code)
      else (status_of AIPU_STATUS_SUCCESS, sim_code)
  end.

(** The three target names. *)
Definition npu_arch_names : list string := ["X3_1304"; "X3_1304MP2"; "X3_1304MP4"].

(** ** The command pools of the simulator: reading the status word *)

(** The bit of [TSM_STATUS] that [is_cmdpool_full] tests: slow pools from
    bit 0, fast pools from bit 8, the pools of the second partition in
    SCP mode four bits higher. *)
Definition cmdpool_full_bit (c : sim_consts) (qos part_id partition_mode cluster_idx : Z)
  : Z :=
  cluster_idx
  + (if qos =? AIPU_JOB_QOS_SLOW c then 0 else 8)
  + (if (partition_mode =? POOL_SCP c) && (part_id =? 1) then 4 else 0).

(** ** [poll_status]: the drain, step by step *)

(** What the drain does for one reported grid. *)
Definition drain_grid (done_gridid : Z) (d : SimulatorV3_1.t) : SimulatorV3_1.t :=
  match SimulatorV3_1.m_commit_map d !! done_gridid with
  | None => d
  | Some job =>
      SimulatorV3_1.set_m_sim_done_grid_set
        (SimulatorV3_1.m_sim_done_grid_set d ∖ {[done_gridid]})
        (SimulatorV3_1.set_m_cant_add_job_flag false
           (SimulatorV3_1.set_m_commit_map (delete done_gridid (SimulatorV3_1.m_commit_map d))
              (SimulatorV3_1.set_m_done_set ({[job]} ∪ SimulatorV3_1.m_done_set d) d)))
  end.

(** ** Scheduling and polling on the simulator: states and examples *)

(** The partition a job is scheduled on: [if (part_id > POOL_SCP) part_id
    = POOL_PCP]. *)
Definition cmdpool_part_id (c : sim_consts) (part_id : Z) : Z :=
  if POOL_SCP c <? part_id then POOL_PCP c else part_id.

(** An idle back end: an engine, nothing queued, committed, done or
    reported, and the commit flag down. *)
Definition sim_idle (d : SimulatorV3_1.t) : Prop :=
  SimulatorV3_1.m_aipu d = true ∧
  SimulatorV3_1.m_cant_add_job_flag d = false ∧
  SimulatorV3_1.m_buffer_queue d = [] ∧
  SimulatorV3_1.m_commit_map d = ∅ ∧
  SimulatorV3_1.m_done_set d = ∅ ∧
  SimulatorV3_1.m_sim_done_grid_set d = ∅ ∧
  SimulatorV3_1.simv3_1_has_grid_done d = false.

(** Two jobs: job 1 on grid 0 and job 2 on grid 1. *)
Definition example_desc_a : JobDesc.t := JobDesc.mk 1 0 0 0 0xffffffff 16 0x10000 0x10780.
Definition example_desc_b : JobDesc.t := JobDesc.mk 2 1 0 0 0xffffffff 16 0x20000 0x20780.

(** The idle example simulator whose engine will report grid 0. *)
Definition example_sim_running : SimulatorV3_1.t :=
  SimulatorV3_1.set_completions [0] example_sim.

(** The example simulator after job 1 and then job 2 were scheduled. *)
Definition example_sim_two_jobs : SimulatorV3_1.t :=
  (SimulatorV3_1.schedule example_sim_consts example_desc_b
     (SimulatorV3_1.schedule example_sim_consts example_desc_a example_sim_running).2).2.

(** ** Running a job again: an example *)

(** The example job after a first run that overwrote its TCB buffer. *)
Definition example_job_after_run : JobV3_1.t :=
  JobV3_1.set_m_tcbs (replicate 16 tcb_t.zero)
    (JobV3_1.set_m_backup_tcb_used true example_init_job).

(** ** SegMMU: the control words and the group-init TCB *)

(** The control word that [setup_segmmu] stores for a tagged buffer at
    [pa]: the low 14 bits of the old word, the rest from the address. *)
Definition segmmu_control_word (ctrl pa : Z) : Z :=
  u32 (Z.lor (Z.land ctrl 0x3fff) (Z.land pa (Z.lnot 0x3fff))).

(** A config with its four segments of two control words each. *)
Definition segmmu_wf (cfg : SegMMUConfig.t) : Prop :=
  length (SegMMUConfig.seg cfg) = 4%nat ∧
  Forall (λ control, length control = 2%nat) (SegMMUConfig.seg cfg).

(** [core_idx] is selected by the tag: [s_id.core_id_mask & (1 << core_idx)]. *)
Definition segmmu_selects (s_id : Z) (core_idx : Z) : Prop :=
  Z.land (JobV3_1.core_id_mask s_id) (Z.shiftl 1 core_idx) ≠ 0.

#[global] Instance segmmu_selects_dec s_id core_idx : Decision (segmmu_selects s_id core_idx).
Proof. unfold segmmu_selects. apply _. Defined.

(** The SegMMU words of the group-init view of [tcb_t] (tcb.h): control,
    the two remap controls and the sixteen segment control words. *)
Module group_init.
Record t : Set := mk {
  segmmu_ctrl : Z;
  segmmu_remap_ctrl0 : Z;
  segmmu_remap_ctrl1 : Z;
  segmmu_seg_ctrl : list Z;
}.
End group_init.

(** [for (int j = 0; j < 4; j++) { tcb.segmmu_seg_ctrl[2 * j] =
    segmmu.seg[j].control[0]; tcb.segmmu_seg_ctrl[2 * j + 1] =
    segmmu.seg[j].control[1]; }], [n] rounds left from [j]. *)
Fixpoint copy_seg_ctrl (seg : list (list Z)) (n j : nat) (segmmu_seg_ctrl : list Z)
  : option (list Z) :=
  match n with
  | O => Some segmmu_seg_ctrl
  | S n' =>
      control ← seg !! j;
      c0 ← control !! 0%nat;
      c1 ← control !! 1%nat;
      if decide (2 * j + 1 < length segmmu_seg_ctrl)%nat
      then copy_seg_ctrl seg n' (S j)
             (<[(2 * j + 1)%nat := c1]> (<[(2 * j)%nat := c0]> segmmu_seg_ctrl))
      else None
  end.

(** [JobV3_1::config_tcb_smmu(tcb)] *)
Definition config_tcb_smmu (j : JobV3_1.t) (tcb : group_init.t)
  : option (aipu_status_t * group_init.t) :=
  if (0 <? JobV3_1.m_segmmu_num j) && (JobV3_1.m_segmmu_num j =? 1) then
    segmmu ← JobV3_1.m_segmmu_sec j !! 0%nat;
    segmmu_seg_ctrl ← copy_seg_ctrl (SegMMUConfig.seg segmmu) 4 0 (group_init.segmmu_seg_ctrl tcb);
    Some (AIPU_STATUS_SUCCESS,
          group_init.mk (SegMMUConfig.SegMMU_ctl segmmu) (SegMMUConfig.SegMMU_remap segmmu)
            (SegMMUConfig.SegMMU_remap segmmu) segmmu_seg_ctrl)
  else Some (AIPU_STATUS_SUCCESS, tcb).

(** A job on one core whose graph has a single SegMMU config, and a
    cleared group-init TCB. *)
Definition example_single_segmmu_config : SegMMUConfig.t :=
  SegMMUConfig.mk [[0x100; 0x104]; [0x200; 0x204]; [0x300; 0x304]; [0x400; 0x404]] 0 7.

Definition example_single_segmmu_graph : GraphV3X.t :=
  GraphV3X.mk (GraphV3X.m_subgraphs example_graph) false 1
    [example_single_segmmu_config] 4096 0 false.

Definition example_single_segmmu_job : JobV3_1.t :=
  JobV3_1.set_m_segmmu_num 1 (JobV3_1.set_m_core_cnt 1 example_job).

Definition example_group_init_smmu : group_init.t :=
  group_init.mk 0 0 0 (replicate 16 0).

(** The control word of a config that a tag names. *)
Definition segmmu_tagged_word (s_id : Z) (cfg : SegMMUConfig.t) : Z :=
  default 0
    (control ← SegMMUConfig.seg cfg !! Z.to_nat (JobV3_1.segmmu_idx s_id);
     control !! Z.to_nat (JobV3_1.segmmu_ctrl_idx s_id)).

(** A tag for segment 2, control word 1, cores 0 and 2. *)
Definition example_segmmu_tag : Z := Z.lor (Z.shiftl 0x5 16) (Z.lor (Z.shiftl 2 8) 1).

(** ** Dynamic output shapes: a product that wraps *)

(** A shape tensor of four dims at [0x4000], each [0x10000]: no dim is
    zero and the product is [2^64]. *)
Definition example_wrapping_shape : JobIOBuffer.t :=
  JobIOBuffer.mk 0 16 AIPU_DATA_TYPE_U32 0x4000.

Definition example_wrapping_mem : gmap Z Z :=
  {[ 0x4002 := 1; 0x4006 := 1; 0x400a := 1; 0x400e := 1 ]}.

(** ** The test bench: comma-separated file lists (cmd_line_parsing.cpp) *)

(** A C string is the list of its characters, without the NUL. *)
Definition COMMA : Z := 44.

(** [strtok] with a one-character delimiter, on the characters left: it
    skips delimiters, then takes characters up to the next delimiter,
    which it consumes.  [None] is the null pointer it returns when only
    delimiters are left. *)
Fixpoint skip_delims (delim : Z) (s : list Z) : list Z :=
  match s with
  | [] => []
  | c :: s' => if c =? delim then skip_delims delim s' else s
  end.

Fixpoint take_token (delim : Z) (s : list Z) : list Z * list Z :=
  match s with
  | [] => ([], [])
  | c :: s' =>
      if c =? delim then ([], s')
      else let '(token, rest) := take_token delim s' in (c :: token, rest)
  end.

Definition strtok (delim : Z) (s : list Z) : option (list Z * list Z) :=
  match skip_delims delim s with
  | [] => None
  | s' => Some (take_token delim s')
  end.

(** [while (temp) { temp = strtok(nullptr, ","); if (temp != nullptr)
    files.push_back(temp); }]: [fuel] bounds the rounds; every round but
    the last consumes a character. *)
Fixpoint push_more_tokens (fuel : nat) (rest : list Z) (files : list (list Z))
  : list (list Z) :=
  match fuel with
  | O => files
  | S fuel' =>
      match strtok COMMA rest with
      | None => files
      | Some (temp, rest') => push_more_tokens fuel' rest' (files ++ [temp])
      end
  end.

(** The handling of [-b], [-i] and [-c] in [init_test_bench]:
    [temp = strtok(optarg, ","); files.push_back(temp);] and the loop.
    The first [push_back] builds a [std::string] from [temp] without
    testing it: with a null [temp] the call is undefined. *)
Definition push_file_list (optarg : list Z) (files : list (list Z))
  : option (list (list Z)) :=
  match strtok COMMA optarg with
  | None => None
  | Some (temp, rest) => Some (push_more_tokens (S (length rest)) rest (files ++ [temp]))
  end.

(** The pieces of a string between its delimiters, empty ones included:
    what the file list is compared with. *)
Fixpoint pieces (delim : Z) (s : list Z) : list (list Z) :=
  match s with
  | [] => [[]]
  | c :: s' =>
      if c =? delim then [] :: pieces delim s'
      else match pieces delim s' with
           | piece :: ps => (c :: piece) :: ps
           | [] => [[c]]
           end
  end.

Definition non_empty_pieces (delim : Z) (s : list Z) : list (list Z) :=
  filter (λ piece, piece ≠ []) (pieces delim s).

(** "a.bin,,b.bin," *)
Definition example_file_list : list Z :=
  [97; 46; 98; 105; 110; 44; 44; 98; 46; 98; 105; 110; 44].
(* ===================================================================== *)
(** * Part II.  Theorems                                                  *)
(* ===================================================================== *)

(** ** [sort_io_tensor] *)

Lemma sort_io_tensor_loop_length tmp i pending cur :
  length (sort_io_tensor_loop tmp i pending cur).2 = length cur.
Proof.
  revert i cur. induction pending as [|t pending IH]; intros i cur; simpl; [done|].
  destruct (Z.of_nat (length tmp) <=? GraphIOTensorDesc.id t); [done|].
  rewrite IH. destruct (GraphIOTensorDesc.id t =? Z.of_nat i); [done|]. apply length_insert.
Qed.

Lemma sort_io_tensor_loop_fail tmp i pending cur :
  (∃ t, t ∈ pending ∧ Z.of_nat (length tmp) ≤ GraphIOTensorDesc.id t) →
  (sort_io_tensor_loop tmp i pending cur).1 = AIPU_STATUS_ERROR_INVALID_GBIN.
Proof.
  revert i cur. induction pending as [|t pending IH]; intros i cur [u [Hu Hge]].
  - by apply elem_of_nil in Hu.
  - simpl. destruct (Z.leb_spec (Z.of_nat (length tmp)) (GraphIOTensorDesc.id t)) as [|Hlt]; [done|].
    apply IH. exists u. split; [|done].
    apply elem_of_cons in Hu as [->|Hu]; [lia|done].
Qed.

Lemma sort_io_tensor_loop_ok tmp i pending cur :
  Forall (λ t, GraphIOTensorDesc.id t < Z.of_nat (length tmp)) pending →
  (sort_io_tensor_loop tmp i pending cur).1 = AIPU_STATUS_SUCCESS.
Proof.
  revert i cur. induction pending as [|t pending IH]; intros i cur Hall; simpl; [done|].
  apply Forall_cons in Hall as [Ht Hall].
  destruct (Z.leb_spec (Z.of_nat (length tmp)) (GraphIOTensorDesc.id t)); [lia|]. by apply IH.
Qed.

(** What the loop leaves behind when the pending ids are in range and
    pairwise distinct: every pending descriptor that is not at its own
    position has been stored at the position its id names, and positions
    no such descriptor names are untouched. *)
Lemma sort_io_tensor_loop_placed tmp i pending cur :
  Forall (λ t, 0 ≤ GraphIOTensorDesc.id t < Z.of_nat (length cur)) pending →
  length tmp = length cur →
  NoDup (GraphIOTensorDesc.id <$> pending) →
  let r := (sort_io_tensor_loop tmp i pending cur).2 in
  (∀ (k : nat) t, pending !! k = Some t → GraphIOTensorDesc.id t ≠ Z.of_nat (i + k) →
      r !! Z.to_nat (GraphIOTensorDesc.id t) = Some t) ∧
  (∀ p : nat,
      (∀ (k : nat) t, pending !! k = Some t → GraphIOTensorDesc.id t ≠ Z.of_nat (i + k) →
          Z.to_nat (GraphIOTensorDesc.id t) ≠ p) →
      r !! p = cur !! p).
Proof.
  revert i cur. induction pending as [|t pending IH]; intros i cur Hall Hlen Hnd; simpl.
  { split; [intros k u Hk; by rewrite lookup_nil in Hk | done]. }
  apply Forall_cons in Hall as [Ht Hall].
  rewrite fmap_cons in Hnd. apply NoDup_cons in Hnd as [Hnotin Hnd].
  destruct (Z.leb_spec (Z.of_nat (length tmp)) (GraphIOTensorDesc.id t)); [lia|].
  set (cur' := if GraphIOTensorDesc.id t =? Z.of_nat i then cur else <[Z.to_nat (GraphIOTensorDesc.id t) := t]> cur).
  assert (Hlen' : length cur' = length cur).
  { unfold cur'. destruct (GraphIOTensorDesc.id t =? Z.of_nat i); [done|apply length_insert]. }
  destruct (IH (S i) cur') as [HA HB].
  { by rewrite Hlen'. }
  { by rewrite Hlen'. }
  { done. }
  split.
  - intros [|k] u Hk Hne; simpl in Hk.
    + injection Hk as <-.
      rewrite HB.
      * unfold cur'. destruct (Z.eqb_spec (GraphIOTensorDesc.id t) (Z.of_nat i)); [lia|].
        apply list_lookup_insert_eq. lia.
      * intros k u Hu _ Heq. apply Hnotin.
        apply list_elem_of_fmap. exists u. split.
        -- apply list_elem_of_lookup_2 in Hu.
           rewrite Forall_forall in Hall. specialize (Hall u Hu). lia.
        -- by apply list_elem_of_lookup_2 in Hu.
    + apply (HA k u Hk). lia.
  - intros p Hp. rewrite HB.
    + unfold cur'. destruct (Z.eqb_spec (GraphIOTensorDesc.id t) (Z.of_nat i)) as [|Hne]; [done|].
      apply list_lookup_insert_ne. apply (Hp 0%nat t); [done|]. lia.
    + intros k u Hu Hne. apply (Hp (S k) u); [done|]. lia.
Qed.

(** In-range, pairwise distinct ids hit every position. *)
Lemma ids_cover_positions (tensors : list GraphIOTensorDesc.t) (p : nat) :
  ids_in_range tensors → NoDup (GraphIOTensorDesc.id <$> tensors) → (p < length tensors)%nat →
  ∃ (j : nat) t, tensors !! j = Some t ∧ GraphIOTensorDesc.id t = Z.of_nat p.
Proof.
  intros Hrange Hnd Hp.
  set (l := (λ t, Z.to_nat (GraphIOTensorDesc.id t)) <$> tensors).
  assert (Hndl : NoDup l).
  { unfold l. replace ((λ t, Z.to_nat (GraphIOTensorDesc.id t)) <$> tensors)
      with (Z.to_nat <$> (GraphIOTensorDesc.id <$> tensors)) by (by rewrite <- list_fmap_compose).
    apply NoDup_fmap_2_strong; [|done].
    intros x y Hx Hy Hxy.
    apply list_elem_of_fmap in Hx as [tx [-> Hx]].
    apply list_elem_of_fmap in Hy as [ty [-> Hy]].
    unfold ids_in_range in Hrange. rewrite Forall_forall in Hrange.
    pose proof (Hrange _ Hx). pose proof (Hrange _ Hy). lia. }
  assert (Hsub : l ⊆+ seq 0 (length tensors)).
  { apply NoDup_submseteq; [done|]. intros x Hx.
    unfold l in Hx. apply list_elem_of_fmap in Hx as [t [-> Ht]].
    unfold ids_in_range in Hrange. rewrite Forall_forall in Hrange.
    pose proof (Hrange _ Ht). apply elem_of_seq. lia. }
  assert (Hperm : l ≡ₚ seq 0 (length tensors)).
  { apply submseteq_length_Permutation; [done|].
    unfold l. rewrite length_fmap, length_seq. done. }
  assert (Hin : p ∈ l).
  { rewrite Hperm. apply elem_of_seq. lia. }
  unfold l in Hin. apply list_elem_of_fmap in Hin as [t [Hid Ht]].
  apply list_elem_of_lookup_1 in Ht as [j Hj].
  exists j, t. split; [done|].
  unfold ids_in_range in Hrange. rewrite Forall_forall in Hrange.
  pose proof (Hrange t (list_elem_of_lookup_2 _ _ _ Hj)). lia.
Qed.

Lemma sort_io_tensor_invalid tensors :
  has_id_out_of_range tensors →
  (sort_io_tensor tensors).1 = AIPU_STATUS_ERROR_INVALID_GBIN.
Proof. intros H. by apply sort_io_tensor_loop_fail. Qed.

Lemma sort_io_tensor_sorted tensors :
  ids_in_range tensors → NoDup (GraphIOTensorDesc.id <$> tensors) →
  (sort_io_tensor tensors).1 = AIPU_STATUS_SUCCESS ∧
  length (sort_io_tensor tensors).2 = length tensors ∧
  ids_are_positions (sort_io_tensor tensors).2.
Proof.
  intros Hrange Hnd. split; [|split].
  - apply sort_io_tensor_loop_ok.
    eapply Forall_impl; [exact Hrange|]. simpl. intros; lia.
  - apply sort_io_tensor_loop_length.
  - intros p x Hx.
    assert (Hp : (p < length tensors)%nat).
    { apply lookup_lt_Some in Hx.
      unfold sort_io_tensor in Hx. by rewrite sort_io_tensor_loop_length in Hx. }
    destruct (ids_cover_positions tensors p Hrange Hnd Hp) as (j & t & Hj & Hid).
    destruct (sort_io_tensor_loop_placed tensors 0 tensors tensors Hrange eq_refl Hnd)
      as [HA HB].
    destruct (decide (j = p)) as [->|Hjp].
    + unfold sort_io_tensor in Hx. rewrite HB in Hx.
      * rewrite Hj in Hx. by injection Hx as <-.
      * intros k u Hk Hne Heq.
        assert (GraphIOTensorDesc.id u = GraphIOTensorDesc.id t).
        { unfold ids_in_range in Hrange. rewrite Forall_forall in Hrange.
          pose proof (Hrange u (list_elem_of_lookup_2 _ _ _ Hk)). lia. }
        assert (k = p).
        { apply (NoDup_lookup (GraphIOTensorDesc.id <$> tensors) k p (GraphIOTensorDesc.id t) Hnd);
            rewrite list_lookup_fmap; [rewrite Hk|rewrite Hj]; simpl; congruence. }
        subst k. simpl in Hne. congruence.
    + assert (Hplaced := HA j t Hj). simpl in Hplaced.
      unfold sort_io_tensor in Hx.
      rewrite Hid, Nat2Z.id in Hplaced. rewrite Hplaced in Hx; [|lia].
      by injection Hx as <-.
Qed.

(** ** [sort_io] *)

Lemma sort_io_tensor_status tensors :
  (sort_io_tensor tensors).1 = AIPU_STATUS_SUCCESS ∨
  (sort_io_tensor tensors).1 = AIPU_STATUS_ERROR_INVALID_GBIN.
Proof.
  unfold sort_io_tensor.
  assert (H : ∀ tmp pending i cur,
             (sort_io_tensor_loop tmp i pending cur).1 = AIPU_STATUS_SUCCESS ∨
             (sort_io_tensor_loop tmp i pending cur).1 = AIPU_STATUS_ERROR_INVALID_GBIN).
  { intros tmp pending. induction pending as [|t pending IH]; intros i cur; simpl;
      [by left|].
    destruct (Z.of_nat (length tmp) <=? GraphIOTensorDesc.id t); [by right|]. apply IH. }
  apply H.
Qed.

Lemma sort_io_invalid io l :
  l ∈ sorted_lists io → has_id_out_of_range l →
  (sort_io io).1 = AIPU_STATUS_ERROR_INVALID_GBIN.
Proof.
  intros Hl Hbad. unfold sort_io. destruct io as [ins outs dumps ? ? ? ? ? shapes].
  unfold sorted_lists in Hl. simpl in *.
  destruct (sort_io_tensor ins) as [r1 ins'] eqn:E1.
  destruct (sort_io_tensor_status ins) as [H1|H1]; rewrite E1 in H1; simpl in H1; subst r1;
    [|done].
  simpl.
  destruct (sort_io_tensor outs) as [r2 outs'] eqn:E2.
  destruct (sort_io_tensor_status outs) as [H2|H2]; rewrite E2 in H2; simpl in H2; subst r2;
    [|done].
  simpl.
  destruct (sort_io_tensor dumps) as [r3 dumps'] eqn:E3.
  destruct (sort_io_tensor_status dumps) as [H3|H3]; rewrite E3 in H3; simpl in H3; subst r3;
    [|done].
  simpl.
  destruct (sort_io_tensor shapes) as [r4 shapes'] eqn:E4.
  destruct (sort_io_tensor_status shapes) as [H4|H4]; rewrite E4 in H4; simpl in H4; subst r4;
    [|done].
  exfalso.
  repeat (apply elem_of_cons in Hl as [->|Hl]);
    [pose proof (sort_io_tensor_invalid _ Hbad) as Hc; rewrite ?E1, ?E2, ?E3, ?E4 in Hc;
     simpl in Hc; discriminate ..|].
  by apply elem_of_nil in Hl.
Qed.

Lemma sort_io_sorted io :
  Forall (λ l, ids_in_range l ∧ NoDup (GraphIOTensorDesc.id <$> l)) (sorted_lists io) →
  (sort_io io).1 = AIPU_STATUS_SUCCESS ∧
  Forall ids_are_positions (sorted_lists (sort_io io).2).
Proof.
  intros Hall. unfold sorted_lists in Hall.
  apply Forall_cons in Hall as [[Hr1 Hn1] Hall].
  apply Forall_cons in Hall as [[Hr2 Hn2] Hall].
  apply Forall_cons in Hall as [[Hr3 Hn3] Hall].
  apply Forall_cons in Hall as [[Hr4 Hn4] _].
  destruct (sort_io_tensor_sorted _ Hr1 Hn1) as (S1 & _ & P1).
  destruct (sort_io_tensor_sorted _ Hr2 Hn2) as (S2 & _ & P2).
  destruct (sort_io_tensor_sorted _ Hr3 Hn3) as (S3 & _ & P3).
  destruct (sort_io_tensor_sorted _ Hr4 Hn4) as (S4 & _ & P4).
  unfold sort_io. destruct io as [ins outs dumps ? ? ? ? ? shapes]. simpl in *.
  destruct (sort_io_tensor ins) as [r1 ins']; simpl in *; subst r1; simpl.
  destruct (sort_io_tensor outs) as [r2 outs']; simpl in *; subst r2; simpl.
  destruct (sort_io_tensor dumps) as [r3 dumps']; simpl in *; subst r3; simpl.
  destruct (sort_io_tensor shapes) as [r4 shapes']; simpl in *; subst r4; simpl.
  split; [done|]. unfold sorted_lists; simpl. repeat constructor; done.
Qed.

Lemma ids_in_range_nil : ids_in_range [] ∧ NoDup (GraphIOTensorDesc.id <$> ([] : list GraphIOTensorDesc.t)).
Proof. split; [constructor|simpl; constructor]. Qed.

(** C3 (as amended).  For the lists handed to [sort_io] (inputs, outputs,
    inter_dumps, outputs_shape): if some descriptor of one of them has an id
    that is not below that list's size, the call returns INVALID_GBIN; and
    if in each list the ids are in range and pairwise distinct, the call
    succeeds and afterwards [tensors[i].id = i] at every index of every
    list. *)
Theorem sort_io_permutation io :
  ((∃ l, l ∈ sorted_lists io ∧ has_id_out_of_range l) →
     (sort_io io).1 = AIPU_STATUS_ERROR_INVALID_GBIN) ∧
  (Forall (λ l, ids_in_range l ∧ NoDup (GraphIOTensorDesc.id <$> l)) (sorted_lists io) →
     (sort_io io).1 = AIPU_STATUS_SUCCESS ∧
     Forall ids_are_positions (sorted_lists (sort_io io).2)).
Proof.
  split.
  - intros (l & Hl & Hbad). by eapply sort_io_invalid.
  - apply sort_io_sorted.
Qed.

(** The theorem at work: inputs with ids 2,0,1 come out in order, and an
    input list [5] is refused. *)
Lemma sort_io_permutation_witness :
  ((sort_io (io_with_inputs [desc_with_id 5])).1 = AIPU_STATUS_ERROR_INVALID_GBIN) ∧
  ((sort_io (io_with_inputs [desc_with_id 2; desc_with_id 0; desc_with_id 1])).1
     = AIPU_STATUS_SUCCESS ∧
   Forall ids_are_positions
     (sorted_lists
        (sort_io (io_with_inputs [desc_with_id 2; desc_with_id 0; desc_with_id 1])).2)).
Proof.
  split.
  - apply (proj1 (sort_io_permutation (io_with_inputs [desc_with_id 5]))).
    exists [desc_with_id 5]. split.
    + unfold sorted_lists; simpl. apply elem_of_cons. by left.
    + exists (desc_with_id 5). split; [apply elem_of_cons; by left|simpl; lia].
  - apply (proj2 (sort_io_permutation
                    (io_with_inputs [desc_with_id 2; desc_with_id 0; desc_with_id 1]))).
    unfold sorted_lists; simpl.
    apply Forall_cons; split; [|repeat constructor].
    split.
    + unfold ids_in_range. repeat (apply Forall_cons; split); try apply Forall_nil;
        simpl; lia.
    + simpl. apply (bool_decide_unpack _). vm_compute. exact I.
Defined.

(** C3 as stated fails: with two descriptors that both carry id 0, no id
    is out of range and the call succeeds, yet position 1 ends up holding a
    descriptor whose id is 0. *)
Lemma sort_io_duplicate_ids_counterexample :
  let tensors := [desc_with_id 0; desc_with_id 0] in
  ids_in_range tensors ∧
  ¬ has_id_out_of_range tensors ∧
  (sort_io (io_with_inputs tensors)).1 = AIPU_STATUS_SUCCESS ∧
  inputs (sort_io (io_with_inputs tensors)).2 !! 1%nat = Some (desc_with_id 0) ∧
  ¬ ids_are_positions (inputs (sort_io (io_with_inputs tensors)).2).
Proof.
  simpl. split; [|split; [|split; [|split]]].
  - unfold ids_in_range. repeat (apply Forall_cons; split); try apply Forall_nil; simpl; lia.
  - intros (t & Ht & Hge). simpl in Hge.
    repeat (apply elem_of_cons in Ht as [->|Ht]); simpl in Hge; try lia.
    by apply elem_of_nil in Ht.
  - reflexivity.
  - reflexivity.
  - intros H. specialize (H 1%nat (desc_with_id 0) eq_refl). simpl in H. lia.
Qed.

(** ** [config_tcb_deps] *)


Lemma config_tcb_deps_loop_flag ps start n i tcb ret tcb' :
  JobV3_1.config_tcb_deps_loop ps start n i tcb = Some (ret, tcb') →
  tcb_t.flag tcb' = tcb_t.flag tcb.
Proof.
  revert i tcb. induction n as [|n IH]; intros i tcb H; simpl in H.
  - by injection H as _ <-.
  - destruct (ps !! i) as [p|]; [|done].
    destruct (32767 <? p); [by injection H as _ <-|].
    apply IH in H. by rewrite H.
Qed.





(** ** The TCB chain *)

Lemma tcb_index_of_pa base k :
  0 ≤ k → Z.to_nat ((base + k * sizeof_tcb_t - base) / sizeof_tcb_t) = Z.to_nat k.
Proof.
  intros Hk. replace (base + k * sizeof_tcb_t - base) with (k * sizeof_tcb_t) by lia.
  unfold sizeof_tcb_t. by rewrite Z.div_mul.
Qed.

Lemma config_tcb_deps_flag g j tcb sg_id tcb' :
  JobV3_1.config_tcb_deps g j tcb sg_id = Some (AIPU_STATUS_SUCCESS, tcb') →
  tcb_t.flag tcb' = Z.lor (tcb_t.flag tcb) TCB_FLAG_DEP_TYPE_NONE ∨
  tcb_t.flag tcb' = Z.lor (tcb_t.flag tcb) TCB_FLAG_DEP_TYPE_GROUP ∨
  tcb_t.flag tcb' = Z.lor (tcb_t.flag tcb) TCB_FLAG_DEP_TYPE_PRE_ALL.
Proof.
  unfold JobV3_1.config_tcb_deps. intros H.
  destruct (GraphV3X.get_subgraph g sg_id) as [sg|]; [|done].
  destruct (Subgraph.precursor_cnt sg =? SUBG_DEPEND_NONE).
  { injection H as <-. by left. }
  destruct ((1 <=? Subgraph.precursor_cnt sg) && (Subgraph.precursor_cnt sg <=? 4)).
  { apply config_tcb_deps_loop_flag in H. right; left. by rewrite H. }
  destruct (Subgraph.precursor_cnt sg =? SUBG_DEPEND_PREALL).
  { injection H as <-. by right; right. }
  done.
Qed.

(** A successful [setup_task_tcb] stores, at the TCB of task [t] of block
    [sg_id], a TCB of type TASK with the expected end flags, and changes
    nothing else of the job. *)
Lemma setup_task_tcb_ok S base g sg_id grid_id core_id t j j' :
  chain_params S base j → 1 ≤ S < 2^32 →
  JobV3_1.setup_task_tcb g sg_id grid_id core_id t j = Some (AIPU_STATUS_SUCCESS, j') →
  0 ≤ sg_id < S ∧ 0 ≤ t < 4 ∧
  ∃ tcb, is_task_tcb S sg_id t tcb ∧
    j' = JobV3_1.set_m_tcbs (<[Z.to_nat (2 + sg_id * 5 + t) := tcb]> (JobV3_1.m_tcbs j)) j.
Proof.
  intros (HS & HT & Htot & Hbase & Hlen & Htask) HSr H.
  unfold JobV3_1.setup_task_tcb in H.
  destruct (JobV3_1.get_task j sg_id t) as [task|] eqn:Hgt; [|done].
  apply Htask in Hgt as (Hsg & Ht & ->).
  destruct (GraphV3X.get_subgraph g sg_id) as [sg|]; [|done].
  rewrite HS, HT in H.
  replace (u32 (4 - 1)) with 3 in H by reflexivity.
  replace (u32 (S - 1)) with (S - 1) in H
    by (unfold u32; rewrite Z.mod_small; lia).
  split; [done|]. split; [done|].
  match type of H with
  | match (if _ then _ else Some (_, ?x)) with _ => _ end = _ => set (tcb0 := x) in H
  end.
  assert (Hflag0 : tcb_t.flag tcb0
                   = Z.lor TCB_FLAG_TASK_TYPE_TASK (expected_end_flags S sg_id t)).
  { unfold tcb0, expected_end_flags. simpl.
    destruct (t =? 3), (sg_id =? S - 1); reflexivity. }
  clearbody tcb0.
  assert (Hdep : ∃ tcb1, (if t =? 0 then JobV3_1.config_tcb_deps g j tcb0 sg_id
                          else Some (AIPU_STATUS_SUCCESS, tcb0))
                         = Some (AIPU_STATUS_SUCCESS, tcb1) ∧
                   (tcb_t.flag tcb1 = Z.lor (tcb_t.flag tcb0) TCB_FLAG_DEP_TYPE_NONE ∨
                    tcb_t.flag tcb1 = Z.lor (tcb_t.flag tcb0) TCB_FLAG_DEP_TYPE_GROUP ∨
                    tcb_t.flag tcb1 = Z.lor (tcb_t.flag tcb0) TCB_FLAG_DEP_TYPE_PRE_ALL)).
  { destruct (t =? 0).
    - destruct (JobV3_1.config_tcb_deps g j tcb0 sg_id) as [[ret tcb1]|] eqn:Hc; [|done].
      destruct (decide (ret = AIPU_STATUS_SUCCESS)) as [->|]; [|by injection H].
      exists tcb1. split; [done|]. by apply config_tcb_deps_flag in Hc.
    - exists tcb0. split; [done|]. left.
      unfold TCB_FLAG_DEP_TYPE_NONE. by rewrite Z.lor_0_r. }
  destruct Hdep as (tcb1 & Heq1 & Hflag1).
  rewrite Heq1 in H. simpl in H. injection H as <-.
  eexists. split; [|unfold JobV3_1.write_tcb; rewrite Hbase, tcb_index_of_pa by lia; done].
  unfold is_task_tcb. simpl. rewrite Hflag0 in Hflag1.
  unfold expected_end_flags in *.
  destruct (t =? 3), (sg_id =? S - 1);
    destruct Hflag1 as [->| [->| ->]]; split; reflexivity.
Qed.

Lemma chain_params_set_m_tcbs S base j tcbs :
  chain_params S base j → length tcbs = length (JobV3_1.m_tcbs j) →
  chain_params S base (JobV3_1.set_m_tcbs tcbs j).
Proof.
  intros (HS & HT & Htot & Hbase & Hlen & Htask) Hl.
  unfold chain_params; simpl.
  split_and!; [done|done|done|done|congruence|exact Htask].
Qed.

Lemma set_m_tcbs_id j : JobV3_1.set_m_tcbs (JobV3_1.m_tcbs j) j = j.
Proof. by destruct j. Qed.

(** The task loop of a group, run from task [t0] to the end, fills the
    TCBs of tasks [t0..3] of the block and touches no other TCB. *)
Lemma setup_tcb_group_loop_ok S base g sg_id grid_id core_id n t0 j j' :
  chain_params S base j → 1 ≤ S < 2^32 → 0 ≤ t0 → t0 + Z.of_nat n = 4 →
  JobV3_1.setup_tcb_group_loop g sg_id grid_id core_id n t0 j
  = Some (AIPU_STATUS_SUCCESS, j') →
  ((0 < n)%nat → 0 ≤ sg_id < S) ∧
  ∃ tcbs, j' = JobV3_1.set_m_tcbs tcbs j ∧
    length tcbs = length (JobV3_1.m_tcbs j) ∧
    (∀ t, t0 ≤ t < 4 →
       ∃ tcb, tcbs !! Z.to_nat (2 + sg_id * 5 + t) = Some tcb ∧ is_task_tcb S sg_id t tcb) ∧
    (∀ p : nat, (p < Z.to_nat (2 + sg_id * 5 + t0) ∨ Z.to_nat (2 + sg_id * 5 + 4) ≤ p)%nat →
       tcbs !! p = JobV3_1.m_tcbs j !! p).
Proof.
  revert t0 j. induction n as [|n IH]; intros t0 j Hcp HS Ht0 Hn H; simpl in H.
  - injection H as <-. split; [lia|].
    exists (JobV3_1.m_tcbs j). rewrite set_m_tcbs_id.
    repeat split; try done. intros; lia.
  - unfold and_then in H.
    destruct (JobV3_1.setup_task_tcb g sg_id grid_id core_id t0 j) as [[ret j1]|] eqn:H1;
      [|done].
    destruct (decide (ret = AIPU_STATUS_SUCCESS)) as [->|]; [|by injection H].
    destruct (setup_task_tcb_ok _ _ _ _ _ _ _ _ _ Hcp HS H1) as (Hsg & Ht & tcb & Htcb & ->).
    pose proof Hcp as (_ & _ & _ & _ & Hlen & _).
    destruct (IH (t0 + 1) _ (chain_params_set_m_tcbs _ _ _ _ Hcp
                               (length_insert _ _ _)) HS ltac:(lia) ltac:(lia) H)
      as (_ & tcbs & -> & Hl & Hfill & Hkeep).
    split; [done|]. simpl in *.
    exists tcbs. split; [done|]. split; [by rewrite Hl, length_insert|]. split.
    + intros t Htr. destruct (decide (t = t0)) as [->|Hne].
      * exists tcb. split; [|done]. rewrite Hkeep by lia.
        apply list_lookup_insert_eq. lia.
      * apply Hfill. lia.
    + intros p Hp. rewrite Hkeep by lia. apply list_lookup_insert_ne. lia.
Qed.

Lemma group_init_type flag :
  flag = Z.lor (Z.lor TCB_FLAG_TASK_TYPE_GROUP_INIT TCB_FLAG_GRID_INIT) TCB_FLAG_DEP_TYPE_NONE ∨
  flag = Z.lor (Z.lor TCB_FLAG_TASK_TYPE_GROUP_INIT TCB_FLAG_GRID_INIT) TCB_FLAG_DEP_TYPE_GROUP ∨
  flag = Z.lor (Z.lor TCB_FLAG_TASK_TYPE_GROUP_INIT TCB_FLAG_GRID_INIT) TCB_FLAG_DEP_TYPE_PRE_ALL →
  TCB_FLAG_TASK_TYPE flag = TCB_FLAG_TASK_TYPE_GROUP_INIT.
Proof. intros [->|[->| ->]]; reflexivity. Qed.

(** One round of the subgraph loop: the group-init TCB of position [i] and
    the task TCBs of the block named by the id found at that position. *)
Lemma setup_tcb_chain_step_ok S base g i core_id j j' :
  chain_params S base j → 1 ≤ S < 2^32 → 0 ≤ i < S →
  JobV3_1.setup_tcb_chain_step g i core_id j = Some (AIPU_STATUS_SUCCESS, j') →
  ∃ sg, GraphV3X.get_subgraph g i = Some sg ∧ 0 ≤ Subgraph.id sg < S ∧
    chain_params S base j' ∧ group_ok j' i ∧ block_ok S j' (Subgraph.id sg) ∧
    (∀ p, 0 ≤ p → p ≠ 1 + i * 5 →
       ¬ (2 + Subgraph.id sg * 5 ≤ p < 2 + Subgraph.id sg * 5 + 4) →
       tcb_at j' p = tcb_at j p).
Proof.
  intros Hcp HS Hi H. unfold JobV3_1.setup_tcb_chain_step in H.
  destruct (GraphV3X.get_subgraph g i) as [sg|]; [|done].
  match type of H with
  | match JobV3_1.config_tcb_deps _ _ ?x _ with _ => _ end = _ => set (tcb0 := x) in H
  end.
  destruct (JobV3_1.config_tcb_deps g j tcb0 (Subgraph.id sg)) as [[ret tcb1]|] eqn:Hc;
    [|done].
  destruct (decide (ret = AIPU_STATUS_SUCCESS)) as [->|]; [|by injection H].
  apply config_tcb_deps_flag in Hc. apply group_init_type in Hc.
  pose proof Hcp as (HSc & HT & Htot & Hbase & Hlen & Htask).
  unfold JobV3_1.write_tcb in H. rewrite HT, Hbase in H.
  replace (base + sizeof_tcb_t + (4 + 1) * i * sizeof_tcb_t)
    with (base + (1 + i * 5) * sizeof_tcb_t) in H by lia.
  rewrite tcb_index_of_pa in H by lia.
  set (j1 := JobV3_1.set_m_tcbs _ j) in H.
  assert (Hcp1 : chain_params S base j1).
  { apply chain_params_set_m_tcbs; [done|apply length_insert]. }
  unfold JobV3_1.setup_tcb_group, and_then in H.
  replace (JobV3_1.m_task_per_sg j1) with 4 in H by (by destruct Hcp1 as (_ & -> & _)).
  destruct (JobV3_1.setup_tcb_group_loop g (Subgraph.id sg) (JobV3_1.m_grid_id j1) core_id
              (Z.to_nat 4) 0 j1) as [[ret j2]|] eqn:Hg; [|done].
  destruct (decide (ret = AIPU_STATUS_SUCCESS)) as [->|]; [|by injection H].
  injection H as <-.
  destruct (setup_tcb_group_loop_ok S base g _ _ _ (Z.to_nat 4) 0 j1 _ Hcp1 HS
              ltac:(lia) ltac:(lia) Hg)
    as (Hid & tcbs & -> & Hl & Hfill & Hkeep).
  specialize (Hid ltac:(lia)).
  exists sg. split; [done|]. split; [done|].
  assert (Hl1 : length (JobV3_1.m_tcbs j1) = length (JobV3_1.m_tcbs j)).
  { unfold j1; simpl. apply length_insert. }
  split; [|split; [|split]].
  - destruct (chain_params_set_m_tcbs S base j1 tcbs Hcp1 Hl)
      as (? & ? & ? & ? & ? & Htask').
    unfold chain_params; simpl in *.
    split_and!; [done|done|done|done|done|exact Htask'].
  - exists tcb1. split; [|done]. unfold tcb_at; simpl.
    destruct (Z.ltb_spec (1 + i * 5) 0); [lia|].
    rewrite Hkeep by lia. unfold j1; simpl. apply list_lookup_insert_eq. lia.
  - intros t Ht. destruct (Hfill t ltac:(lia)) as (tcb & Hlk & Hok).
    exists tcb. split; [|done]. unfold tcb_at; simpl.
    destruct (Z.ltb_spec (2 + Subgraph.id sg * 5 + t) 0); [lia|]. done.
  - intros p Hp Hne Hnb. unfold tcb_at; simpl.
    destruct (Z.ltb_spec p 0); [lia|].
    rewrite Hkeep by lia. unfold j1; simpl. apply list_lookup_insert_ne. lia.
Qed.

(** The subgraph loop, entered at position [i] with the earlier positions
    done, completes the chain. *)
Lemma setup_tcb_chain_loop_ok S base g n i core_id j j' :
  chain_params S base j → 1 ≤ S < 2^32 → 0 ≤ i → i + Z.of_nat n = S →
  grid_ok j →
  (∀ i', 0 ≤ i' < i →
     group_ok j i' ∧
     ∃ sg, GraphV3X.get_subgraph g i' = Some sg ∧ 0 ≤ Subgraph.id sg < S ∧
       block_ok S j (Subgraph.id sg)) →
  JobV3_1.setup_tcb_chain_loop g n i core_id j = Some (AIPU_STATUS_SUCCESS, j') →
  chain_params S base j' ∧ grid_ok j' ∧
  ∀ i', 0 ≤ i' < S →
    group_ok j' i' ∧
    ∃ sg, GraphV3X.get_subgraph g i' = Some sg ∧ 0 ≤ Subgraph.id sg < S ∧
      block_ok S j' (Subgraph.id sg).
Proof.
  revert i core_id j. induction n as [|n IH]; intros i core_id j Hcp HS Hi Hn Hgrid Hdone H;
    simpl in H.
  - injection H as <-. split; [done|]. split; [done|].
    intros i' Hi'. apply Hdone. lia.
  - unfold and_then in H.
    destruct (JobV3_1.setup_tcb_chain_step g i core_id j) as [[ret j1]|] eqn:Hstep; [|done].
    destruct (decide (ret = AIPU_STATUS_SUCCESS)) as [->|]; [|by injection H].
    destruct (setup_tcb_chain_step_ok S base g i core_id j j1 Hcp HS ltac:(lia) Hstep)
      as (sg & Hsg & Hid & Hcp1 & Hgrp & Hblk & Hframe).
    eapply (IH (i + 1) _ j1 Hcp1 HS ltac:(lia) ltac:(lia)); [| |exact H].
    + destruct Hgrid as (tcb & Hat & Hty). exists tcb. split; [|done].
      rewrite Hframe; [done|lia|lia|lia].
    + intros i' Hi'. destruct (decide (i' = i)) as [->|Hne].
      * split; [done|]. by exists sg.
      * destruct (Hdone i' ltac:(lia)) as (Hg' & sg' & Hsg' & Hid' & Hblk').
        split.
        -- destruct Hg' as (tcb & Hat & Hty). exists tcb. split; [|done].
           rewrite Hframe; [done|lia|lia|lia].
        -- exists sg'. split; [done|]. split; [done|].
           destruct (decide (Subgraph.id sg' = Subgraph.id sg)) as [Heq|Hneq].
           ++ by rewrite Heq.
           ++ intros t Ht. destruct (Hblk' t Ht) as (tcb & Hat & Hok).
              exists tcb. split; [|done]. rewrite Hframe; [done|lia|lia|lia].
Qed.

Lemma get_task_init_per_task_data g j sg_id t task :
  JobV3_1.get_task (JobV3_1.init_per_task_data g j) sg_id t = Some task ↔
  0 ≤ sg_id < JobV3_1.m_sg_cnt j ∧ 0 ≤ t < JobV3_1.m_task_per_sg j ∧
  task = Task.mk (JobV3_1.m_init_tcb j
                  + (2 + sg_id * (1 + JobV3_1.m_task_per_sg j) + t) * sizeof_tcb_t).
Proof.
  unfold JobV3_1.get_task, JobV3_1.init_per_task_data. simpl.
  destruct (Z.ltb_spec sg_id 0); simpl; [split; [done|lia]|].
  destruct (Z.ltb_spec t 0); simpl; [split; [done|lia]|].
  rewrite list_lookup_fmap.
  destruct (seq 0 (Z.to_nat (JobV3_1.m_sg_cnt j)) !! Z.to_nat sg_id) as [i|] eqn:Hi; simpl.
  - apply lookup_seq in Hi as [-> Hi]. simpl.
    rewrite list_lookup_fmap.
    destruct (seq 0 (Z.to_nat (JobV3_1.m_task_per_sg j)) !! Z.to_nat t) as [u|] eqn:Hu; simpl.
    + apply lookup_seq in Hu as [-> Hu]. simpl.
      rewrite !Z2Nat.id by lia. split.
      * intros [= <-]. split; [lia|]. split; [lia|done].
      * by intros (_ & _ & ->).
    + apply lookup_ge_None in Hu. rewrite length_seq in Hu. split; [done|lia].
  - apply lookup_ge_None in Hi. rewrite length_seq in Hi. split; [done|lia].
Qed.

(** What a successful [init] leaves in the TCB buffer. *)
Lemma init_chain MAX_GROUP_ID alloc_ret tcbs_pa g j d j' d' :
  let S := GraphV3X.get_subgraph_cnt g in
  1 ≤ S → 1 + S * 5 < 2^32 →
  JobV3_1.init MAX_GROUP_ID alloc_ret tcbs_pa g (j, d)
  = Some (AIPU_STATUS_SUCCESS, (j', d')) →
  chain_params S tcbs_pa j' ∧ grid_ok j' ∧
  ∀ i, 0 ≤ i < S →
    group_ok j' i ∧
    ∃ sg, GraphV3X.get_subgraph g i = Some sg ∧ 0 ≤ Subgraph.id sg < S ∧
      block_ok S j' (Subgraph.id sg).
Proof.
  intros S HS1 HS2 H. unfold JobV3_1.init in H.
  destruct (GraphV3X.is_dynamic_shape g && negb _); [done|].
  simpl in H.
  match type of H with
  | context [SimulatorV3_1.get_start_group_id ?a ?b ?c ?e] =>
      destruct (SimulatorV3_1.get_start_group_id a b c e) as [[[r start] d1]|]; [|done]
  end.
  destruct (r <? 0); [done|].
  unfold and_then, JobV3_1.alloc_load_job_buffers in H.
  destruct (decide (alloc_ret = AIPU_STATUS_SUCCESS)) as [->|];
    [|simpl in H; destruct (decide (alloc_ret = AIPU_STATUS_SUCCESS)); [done|by injection H]].
  simpl in H.
  unfold JobV3_1.get_subgraph_cnt in H. fold S in H.
  destruct (Z.eqb_spec S 0); [lia|].
  match type of H with
  | match JobV3_1.setup_tcb_chain g ?x with _ => _ end = _ => set (j0 := x) in H
  end.
  assert (Hcp0 : chain_params S tcbs_pa j0).
  { unfold chain_params.
    assert (Htot : u32 (1 + S * (4 + 1)) = 1 + S * 5)
      by (unfold u32; rewrite Z.mod_small; lia).
    split_and!; try done.
    - unfold j0; simpl. by rewrite Htot, length_replicate.
    - intros sg_id t task. unfold j0. rewrite get_task_init_per_task_data. simpl.
      replace (sg_id * (1 + 4)) with (sg_id * 5) by lia. done. }
  clearbody j0.
  unfold JobV3_1.setup_tcb_chain, and_then in H.
  match type of H with
  | context [JobV3_1.setup_tcb_chain_loop g ?n 0 0 ?x] => set (j1 := x) in H
  end.
  fold S in H.
  destruct (JobV3_1.setup_tcb_chain_loop g (Z.to_nat S) 0 0 j1) as [[ret j2]|] eqn:Hloop;
    [|done].
  destruct (decide (ret = AIPU_STATUS_SUCCESS)) as [->|];
    [|simpl in H; destruct (decide (ret = AIPU_STATUS_SUCCESS)); [done|by injection H]].
  simpl in H. injection H as <- <-.
  pose proof Hcp0 as (HSc & HT & Htot & Hbase & Hlen & Htask).
  assert (Hcp1 : chain_params S tcbs_pa j1).
  { unfold j1, JobV3_1.write_tcb.
    apply chain_params_set_m_tcbs; [done|apply length_insert]. }
  assert (Hgrid1 : grid_ok j1).
  { eexists. split.
    - unfold tcb_at, j1, JobV3_1.write_tcb; simpl.
      rewrite Z.sub_diag. change (Z.to_nat (0 `div` sizeof_tcb_t)) with 0%nat.
      apply list_lookup_insert_eq. lia.
    - reflexivity. }
  destruct (setup_tcb_chain_loop_ok S tcbs_pa g (Z.to_nat S) 0 0 j1 j2 Hcp1
              ltac:(lia) ltac:(lia) ltac:(lia) Hgrid1 ltac:(intros; lia) Hloop)
    as (Hcp2 & Hgrid2 & Hall).
  split; [|split].
  - destruct Hcp2 as (? & ? & ? & ? & ? & Htask2).
    unfold chain_params; simpl. split_and!; [done|done|done|done|done|exact Htask2].
  - exact Hgrid2.
  - exact Hall.
Qed.


Lemma example_init_succeeds :
  JobV3_1.init example_MAX_GROUP_ID AIPU_STATUS_SUCCESS example_tcbs_pa
    example_graph (example_job, example_sim)
  = Some (AIPU_STATUS_SUCCESS, (example_init_job, example_init_sim)).
Proof. vm_compute. reflexivity. Qed.




(** ** [get_start_group_id] *)

Lemma run_meets_set_bit_in_range bitmap j cnt :
  (j + cnt ≤ length bitmap)%nat →
  ∃ taken, SimulatorV3_1.run_meets_set_bit bitmap j cnt = Some taken.
Proof.
  revert j. induction cnt as [|cnt IH]; intros j Hle; simpl; [by eexists|].
  destruct (lookup_lt_is_Some_2 bitmap j ltac:(lia)) as [b ->].
  destruct b; [by eexists|]. apply IH. lia.
Qed.

(** The search stops at the first clear bit it meets and hands out the run
    that starts there, whatever the bits that follow in the run. *)
Lemma get_start_group_id_loop_at_clear_bit MAX_GROUP_ID n i group_cnt start bitmap :
  0 ≤ i → 0 ≤ group_cnt → i + group_cnt < MAX_GROUP_ID → i + group_cnt < 2^32 →
  (Z.to_nat i + Z.to_nat group_cnt ≤ length bitmap)%nat →
  bitmap !! Z.to_nat i = Some false →
  SimulatorV3_1.get_start_group_id_loop MAX_GROUP_ID (S n) i group_cnt start bitmap
  = Some (0, u16 i, SimulatorV3_1.mark_run bitmap (Z.to_nat i) (Z.to_nat group_cnt)).
Proof.
  intros Hi Hc Hmax H32 Hlen Hbit. simpl. rewrite Hbit.
  unfold u32. rewrite Z.mod_small by lia.
  destruct (Z.leb_spec MAX_GROUP_ID (i + group_cnt)); [lia|].
  destruct (run_meets_set_bit_in_range bitmap (Z.to_nat i) (Z.to_nat group_cnt) Hlen)
    as [taken ->].
  reflexivity.
Qed.

Lemma get_start_group_id_loop_skip MAX_GROUP_ID n i group_cnt start bitmap :
  bitmap !! Z.to_nat i = Some true →
  SimulatorV3_1.get_start_group_id_loop MAX_GROUP_ID (S n) i group_cnt start bitmap
  = SimulatorV3_1.get_start_group_id_loop MAX_GROUP_ID n (i + 1) group_cnt start bitmap.
Proof. intros Hbit. simpl. by rewrite Hbit. Qed.

(** A request whose run, placed at the first clear bit, would reach the
    capacity is refused with a negative result and changes nothing. *)
Lemma get_start_group_id_loop_exhausted MAX_GROUP_ID n i group_cnt start bitmap :
  0 ≤ i → 0 ≤ group_cnt → MAX_GROUP_ID ≤ i + group_cnt → i + group_cnt < 2^32 →
  bitmap !! Z.to_nat i = Some false →
  SimulatorV3_1.get_start_group_id_loop MAX_GROUP_ID (S n) i group_cnt start bitmap
  = Some (-1, start, bitmap).
Proof.
  intros Hi Hc Hmax H32 Hbit. simpl. rewrite Hbit.
  unfold u32. rewrite Z.mod_small by lia.
  destruct (Z.leb_spec MAX_GROUP_ID (i + group_cnt)); [done|lia].
Qed.

(** C4, the code at the failing input.  With any capacity of at least 4
    and an empty bitmap: a first request for one id gets id 0, a second
    gets id 1, id 0 is released, and a request for two ids is then
    answered with success and the run [[0, 2)], although id 1 is still
    held by the second request.  The runs held at that point are [[1, 2)]
    and [[0, 2)], three ids in all. *)
Theorem get_start_group_id_overlap MAX_GROUP_ID (d0 : SimulatorV3_1.t) :
  4 ≤ MAX_GROUP_ID < 2^32 →
  SimulatorV3_1.m_group_id_bitmap d0 = replicate (Z.to_nat MAX_GROUP_ID) false →
  ∃ d1 d2 d3,
    SimulatorV3_1.get_start_group_id MAX_GROUP_ID 1 0 d0 = Some (0, 0, d1) ∧
    SimulatorV3_1.get_start_group_id MAX_GROUP_ID 1 0 d1 = Some (0, 1, d2) ∧
    SimulatorV3_1.get_start_group_id MAX_GROUP_ID 2 0
      (SimulatorV3_1.put_start_group_id 0 1 d2) = Some (0, 0, d3) ∧
    runs_overlap 1 1 0 2 ∧
    1 + 2 < MAX_GROUP_ID.
Proof.
  intros HM Hb0.
  set (b0 := replicate (Z.to_nat MAX_GROUP_ID) false) in *.
  assert (Hl0 : length b0 = Z.to_nat MAX_GROUP_ID) by apply length_replicate.
  assert (Hfuel : ∃ n, Z.to_nat MAX_GROUP_ID = Datatypes.S (Datatypes.S n)).
  { destruct (Z.to_nat MAX_GROUP_ID) as [|[|n]] eqn:Hn; [lia|lia|by exists n]. }
  destruct Hfuel as [n Hn].
  assert (Hclear : ∀ k : nat, (k < Z.to_nat MAX_GROUP_ID)%nat → b0 !! k = Some false).
  { intros k Hk. by apply lookup_replicate_2. }
  set (d1 := SimulatorV3_1.set_m_group_id_bitmap (<[0%nat := true]> b0) d0).
  set (d2 := SimulatorV3_1.set_m_group_id_bitmap
               (<[1%nat := true]> (<[0%nat := true]> b0)) d1).
  assert (E1 : SimulatorV3_1.get_start_group_id MAX_GROUP_ID 1 0 d0 = Some (0, 0, d1)).
  { unfold SimulatorV3_1.get_start_group_id. simpl (1 =? 0). cbv iota.
    rewrite Hb0, Hn.
    rewrite get_start_group_id_loop_at_clear_bit; [done|lia..| |].
    - rewrite Hl0. simpl. lia.
    - apply Hclear. simpl. lia. }
  assert (E2 : SimulatorV3_1.get_start_group_id MAX_GROUP_ID 1 0 d1 = Some (0, 1, d2)).
  { unfold SimulatorV3_1.get_start_group_id. simpl (1 =? 0). cbv iota.
    rewrite Hn. unfold d1 at 1. simpl SimulatorV3_1.m_group_id_bitmap.
    rewrite get_start_group_id_loop_skip
      by (simpl; apply list_lookup_insert_eq; lia).
    rewrite get_start_group_id_loop_at_clear_bit; [done|lia..| |].
    - rewrite length_insert, Hl0. simpl. lia.
    - simpl. rewrite list_lookup_insert_ne by lia. apply Hclear. lia. }
  set (b3 := <[0%nat := false]> (<[1%nat := true]> (<[0%nat := true]> b0))).
  assert (Hput : SimulatorV3_1.put_start_group_id 0 1 d2
                 = SimulatorV3_1.set_m_group_id_bitmap b3 d2) by reflexivity.
  exists d1, d2, (SimulatorV3_1.set_m_group_id_bitmap
                    (SimulatorV3_1.mark_run b3 0 2)
                    (SimulatorV3_1.put_start_group_id 0 1 d2)).
  split; [exact E1|]. split; [exact E2|]. split; [|split; [exists 1; lia|lia]].
  unfold SimulatorV3_1.get_start_group_id. simpl (2 =? 0). cbv iota.
  rewrite Hn, Hput. simpl SimulatorV3_1.m_group_id_bitmap.
  rewrite get_start_group_id_loop_at_clear_bit; [done|lia..| |].
  - unfold b3. rewrite !length_insert, Hl0. simpl. lia.
  - unfold b3. simpl. apply list_lookup_insert_eq. rewrite !length_insert, Hl0. lia.
Qed.

(** The scenario at capacity 64. *)
Lemma get_start_group_id_overlap_witness :
  ∃ d1 d2 d3,
    SimulatorV3_1.get_start_group_id 64 1 0 example_sim = Some (0, 0, d1) ∧
    SimulatorV3_1.get_start_group_id 64 1 0 d1 = Some (0, 1, d2) ∧
    SimulatorV3_1.get_start_group_id 64 2 0
      (SimulatorV3_1.put_start_group_id 0 1 d2) = Some (0, 0, d3) ∧
    runs_overlap 1 1 0 2 ∧
    1 + 2 < 64.
Proof.
  apply (get_start_group_id_overlap 64 example_sim).
  - lia.
  - reflexivity.
Defined.

(** ** The binary reader *)

Lemma strncmp_zero_iff chars buf n :
  Forall (λ ch, ch ≠ 0) chars → (n ≤ length buf)%nat →
  strncmp buf (c_str chars) n = 0 ↔ begins_with buf chars n.
Proof.
  unfold begins_with, c_str.
  revert buf n. induction chars as [|ch chars IH]; intros buf n Hnz Hlen.
  - destruct n as [|n]; [by rewrite !take_0|].
    destruct buf as [|c1 r1]; [simpl in Hlen; lia|].
    change ([] ++ [0]) with [0].
    change (length [0]) with 1%nat.
    replace (Nat.min (Datatypes.S n) 1) with 1%nat by lia.
    rewrite !firstn_cons, take_0, take_nil. simpl.
    destruct (Z.eqb_spec c1 0) as [->|Hne]; [done|].
    split; [lia|]. intros [= ->]. done.
  - apply Forall_cons in Hnz as [Hch Hnz].
    destruct n as [|n]; [by rewrite !take_0|].
    destruct buf as [|c1 r1]; [simpl in Hlen; lia|].
    rewrite <- app_comm_cons.
    change (length (ch :: chars ++ [0])) with (Datatypes.S (length (chars ++ [0]))).
    rewrite <- Nat.succ_min_distr, !firstn_cons.
    simpl in Hlen. simpl strncmp.
    destruct (Z.eqb_spec c1 ch) as [->|Hne].
    + destruct (Z.eqb_spec ch 0); [done|].
      rewrite IH by (done || lia). split; [by intros ->|by intros [= ->]].
    + split; [lia|]. intros [= -> _]. done.
Qed.

Lemma strcmp_zero_iff chars buf :
  Forall (λ ch, ch ≠ 0) chars →
  strcmp buf (c_str chars) = 0 ↔ take (length (c_str chars)) buf = c_str chars.
Proof.
  unfold c_str. revert buf. induction chars as [|ch chars IH]; intros buf Hnz.
  - destruct buf as [|c1 r1]; [done|].
    change ([] ++ [0]) with [0]. change (length [0]) with 1%nat.
    rewrite firstn_cons, take_0. simpl.
    destruct (Z.eqb_spec c1 0) as [->|Hne]; [done|].
    split; [lia|]. intros [= ->]. done.
  - apply Forall_cons in Hnz as [Hch Hnz].
    destruct buf as [|c1 r1]; [done|].
    rewrite <- app_comm_cons.
    change (length (ch :: chars ++ [0])) with (Datatypes.S (length (chars ++ [0]))).
    rewrite firstn_cons. simpl.
    destruct (Z.eqb_spec c1 ch) as [->|Hne].
    + destruct (Z.eqb_spec ch 0); [done|].
      rewrite IH by done. split; [by intros ->|by intros [= ->]].
    + split; [lia|]. intros [= -> _]. done.
Qed.

Lemma ELF_IDENT_nonzero : Forall (λ ch, ch ≠ 0) ELF_IDENT.
Proof. unfold ELF_IDENT. repeat constructor; lia. Qed.

(** C9.  [get_graph_bin_version] classifies a stream by its 16-byte
    identifier: an identifier that begins with the text magic gives V0005,
    otherwise one that begins with the ELF identifier gives ELF_V0, and
    every other stream (also one shorter than 16 bytes) gives no version,
    which the loader refuses as INVALID_GBIN.  [parse_graph_header_top],
    on a full header whose magic matches, succeeds exactly when the graph
    version is V0005 or ELF_V0 and returns GVERSION_UNSUPPORTED, leaving
    the graph untouched, for any other version. *)
Theorem binary_reader_versions c gbin gobj :
  Forall (λ ch, ch ≠ 0) (MAGIC c) →
  let e_ident := take 16 gbin in
  let g_version :=
    GRAPH_VERSION c (BinHeaderTop.version (BinHeaderTop.decode (take BIN_HDR_TOP_SIZE gbin))) in
  ((16 ≤ length gbin)%nat → begins_with e_ident (MAGIC c) 8 →
     get_graph_bin_version c gbin = AIPU_LOADABLE_GRAPH_V0005 c) ∧
  ((16 ≤ length gbin)%nat → ¬ begins_with e_ident (MAGIC c) 8 →
     begins_with e_ident ELF_IDENT 4 →
     get_graph_bin_version c gbin = AIPU_LOADABLE_GRAPH_ELF_V0 c) ∧
  ((length gbin < 16)%nat ∨
   (¬ begins_with e_ident (MAGIC c) 8 ∧ ¬ begins_with e_ident ELF_IDENT 4) →
     get_graph_bin_version c gbin = 0 ∧
     (AIPU_LOADABLE_GRAPH_V0005 c ≠ 0 → AIPU_LOADABLE_GRAPH_ELF_V0 c ≠ 0 →
        check_graph_bin_version c gbin = AIPU_STATUS_ERROR_INVALID_GBIN)) ∧
  ((BIN_HDR_TOP_SIZE ≤ length gbin)%nat →
   take (length (c_str (MAGIC c))) (take BIN_HDR_TOP_SIZE gbin) = c_str (MAGIC c) →
     (g_version = AIPU_LOADABLE_GRAPH_V0005 c ∨ g_version = AIPU_LOADABLE_GRAPH_ELF_V0 c →
        (parse_graph_header_top c gbin gobj).1 = AIPU_STATUS_SUCCESS) ∧
     (g_version ≠ AIPU_LOADABLE_GRAPH_V0005 c → g_version ≠ AIPU_LOADABLE_GRAPH_ELF_V0 c →
        parse_graph_header_top c gbin gobj
        = (AIPU_STATUS_ERROR_GVERSION_UNSUPPORTED, gobj))).
Proof.
  intros Hnz e_ident g_version.
  assert (Hid : (16 ≤ length gbin)%nat → length e_ident = 16%nat).
  { intros H. unfold e_ident. rewrite length_take. lia. }
  assert (Hzero : (length gbin < 16)%nat ∨
                  (¬ begins_with e_ident (MAGIC c) 8 ∧ ¬ begins_with e_ident ELF_IDENT 4) →
                  get_graph_bin_version c gbin = 0).
  { intros Hcase. unfold get_graph_bin_version. fold e_ident.
    destruct (decide (length e_ident ≠ 16%nat)) as [|Hl]; [done|].
    assert (length e_ident = 16%nat) as Hl16 by lia.
    destruct Hcase as [Hshort|[Hm He]].
    { unfold e_ident in Hl16. rewrite length_take in Hl16. lia. }
    destruct (Z.eqb_spec (strncmp e_ident (c_str (MAGIC c)) 8) 0) as [E|_].
    { apply strncmp_zero_iff in E; [done|done|lia]. }
    destruct (Z.eqb_spec (strncmp e_ident (c_str ELF_IDENT) 4) 0) as [E|_]; [|done].
    apply strncmp_zero_iff in E; [done|apply ELF_IDENT_nonzero|lia]. }
  split_and!.
  - intros Hlen Hm. unfold get_graph_bin_version. fold e_ident.
    destruct (decide (length e_ident ≠ 16%nat)) as [Hl|_]; [by rewrite Hid in Hl|].
    apply strncmp_zero_iff in Hm; [|done|rewrite Hid; lia]. by rewrite Hm.
  - intros Hlen Hm He. unfold get_graph_bin_version. fold e_ident.
    destruct (decide (length e_ident ≠ 16%nat)) as [Hl|_]; [by rewrite Hid in Hl|].
    destruct (Z.eqb_spec (strncmp e_ident (c_str (MAGIC c)) 8) 0) as [E|_].
    { apply strncmp_zero_iff in E; [done|done|rewrite Hid; lia]. }
    apply strncmp_zero_iff in He; [|apply ELF_IDENT_nonzero|rewrite Hid; lia].
    by rewrite He.
  - intros Hcase. split; [by apply Hzero|].
    intros H5 Helf. unfold check_graph_bin_version. rewrite (Hzero Hcase).
    destruct (Z.eqb_spec 0 (AIPU_LOADABLE_GRAPH_V0005 c)); [congruence|].
    destruct (Z.eqb_spec 0 (AIPU_LOADABLE_GRAPH_ELF_V0 c)); [congruence|]. done.
  - intros Hlen Hmagic.
    apply strcmp_zero_iff in Hmagic; [|done].
    unfold parse_graph_header_top.
    destruct (decide (length (take BIN_HDR_TOP_SIZE gbin) ≠ BIN_HDR_TOP_SIZE)) as [Hl|_].
    { rewrite length_take in Hl. lia. }
    rewrite Hmagic. simpl negb at 1. cbv iota. fold g_version.
    split.
    + intros [Hv|Hv].
      * rewrite Hv, Z.eqb_refl. done.
      * rewrite Hv, Z.eqb_refl. simpl. by rewrite andb_false_r.
    + intros H5 Helf.
      destruct (Z.eqb_spec (AIPU_LOADABLE_GRAPH_V0005 c) g_version); [congruence|].
      destruct (Z.eqb_spec (AIPU_LOADABLE_GRAPH_ELF_V0 c) g_version); [congruence|].
      done.
Qed.

(** The theorem at the example constants: a 36-byte header with the magic
    "AIPUBIN" and graph version 7 is classified V0005 by its identifier and
    refused by the header parser as GVERSION_UNSUPPORTED. *)
Lemma binary_reader_versions_witness :
  get_graph_bin_version example_bin_consts example_header_v7 = 5 ∧
  ∀ gobj, parse_graph_header_top example_bin_consts example_header_v7 gobj
          = (AIPU_STATUS_ERROR_GVERSION_UNSUPPORTED, gobj).
Proof.
  split.
  - apply (binary_reader_versions example_bin_consts example_header_v7
             (GraphHeader.mk 0 0 0 0 0 0 0 0 0)).
    + simpl. repeat constructor; lia.
    + unfold example_header_v7. simpl. lia.
    + reflexivity.
  - intros gobj.
    apply (binary_reader_versions example_bin_consts example_header_v7 gobj).
    + simpl. repeat constructor; lia.
    + unfold example_header_v7, BIN_HDR_TOP_SIZE. simpl. lia.
    + reflexivity.
    + vm_compute. discriminate.
    + vm_compute. discriminate.
Defined.

(** ** [schedule] and [poll_status] *)

(** C10.  For a job whose graph has no subgraph and that passes
    [validate_schedule_status], [schedule] returns success and leaves the
    job and the device as they were: nothing is queued, committed or
    written to a register.  The simulator's [poll_status] then returns
    success at once, whatever the state of the device and before any round
    of the polling loop (it does so with no fuel at all): the job becomes
    DONE and the device, its trace of register accesses and waits
    included, is unchanged. *)
Theorem zero_subgraph_schedule_poll validate_schedule_status cs c g j d fuel :
  GraphV3X.get_subgraph_cnt g = 0 →
  validate_schedule_status (JobV3_1.m_status j) = AIPU_STATUS_SUCCESS →
  JobV3_1.schedule validate_schedule_status cs g (j, d)
  = Some (AIPU_STATUS_SUCCESS, (j, d)) ∧
  SimulatorV3_1.poll_status c fuel (JobV3_1.get_subgraph_cnt g j) (JobV3_1.m_id j)
    (JobV3_1.m_grid_id j) (JobV3_1.m_status j) d
  = Some (AIPU_LL_STATUS_SUCCESS, AIPU_JOB_STATUS_DONE, d).
Proof.
  intros Hcnt Hvalid. split.
  - unfold JobV3_1.schedule. rewrite Hvalid.
    destruct (decide (AIPU_STATUS_SUCCESS ≠ AIPU_STATUS_SUCCESS)) as [Hne|_]; [done|].
    unfold JobV3_1.get_subgraph_cnt. by rewrite Hcnt.
  - unfold SimulatorV3_1.poll_status, JobV3_1.get_subgraph_cnt. by rewrite Hcnt.
Qed.

(** A job initialised on the empty graph: scheduled and polled with no
    fuel. *)
Lemma zero_subgraph_schedule_poll_witness :
  JobV3_1.schedule JobV3_1.validate_schedule_status_spec example_sim_consts example_empty_graph
    (example_empty_job, example_sim)
  = Some (AIPU_STATUS_SUCCESS, (example_empty_job, example_sim)) ∧
  SimulatorV3_1.poll_status example_sim_consts 0
    (JobV3_1.get_subgraph_cnt example_empty_graph example_empty_job)
    (JobV3_1.m_id example_empty_job) (JobV3_1.m_grid_id example_empty_job)
    (JobV3_1.m_status example_empty_job) example_sim
  = Some (AIPU_LL_STATUS_SUCCESS, AIPU_JOB_STATUS_DONE, example_sim).
Proof.
  apply (zero_subgraph_schedule_poll JobV3_1.validate_schedule_status_spec example_sim_consts
           example_sim_consts example_empty_graph example_empty_job example_sim 0).
  - reflexivity.
  - reflexivity.
Defined.

(** The simulator's [schedule] either finds no engine and changes nothing,
    or queues the descriptor; the queue then keeps it or gives up its head
    to the commit map under the grid id of the submitted job. *)
Lemma sim_schedule_cases c desc d ret bind d' :
  SimulatorV3_1.schedule c desc d = (ret, bind, d') →
  (ret = AIPU_STATUS_ERROR_NULL_PTR ∧ SimulatorV3_1.m_aipu d = false ∧ d' = d) ∨
  (ret = AIPU_STATUS_SUCCESS ∧ SimulatorV3_1.m_aipu d = true ∧
   ∃ queued,
     JobDesc.job_id queued = JobDesc.job_id desc ∧
     JobDesc.tcb_head queued = JobDesc.tcb_head desc ∧
     JobDesc.tcb_number queued = JobDesc.tcb_number desc ∧
     (SimulatorV3_1.m_buffer_queue d' = SimulatorV3_1.m_buffer_queue d ++ [queued] ∨
      ∃ head,
        SimulatorV3_1.m_buffer_queue d ++ [queued]
        = head :: SimulatorV3_1.m_buffer_queue d' ∧
        SimulatorV3_1.m_commit_map d' !! u16 (JobDesc.grid_id desc)
        = Some (JobDesc.job_id head))).
Proof.
  unfold SimulatorV3_1.schedule. intros H.
  destruct (SimulatorV3_1.m_aipu d) eqn:Haipu; simpl in H.
  2: { injection H as <- <- <-. by left. }
  right.
  match type of H with
  | context [SimulatorV3_1.m_buffer_queue d ++ [?q]] => set (queued := q) in *
  end.
  destruct (SimulatorV3_1.m_cant_add_job_flag d) eqn:Hflag.
  { injection H as <- _ <-. split; [done|]. split; [done|].
    exists queued. split_and!; try done. by left. }
  match type of H with
  | (if ?b then _ else _) = _ => destruct b
  end.
  { injection H as <- _ <-. split; [done|]. split; [done|].
    exists queued. split_and!; try done. by left. }
  destruct (SimulatorV3_1.m_buffer_queue d ++ [queued]) as [|head queue] eqn:Hq.
  { by destruct (SimulatorV3_1.m_buffer_queue d). }
  injection H as <- _ <-. split; [done|]. split; [done|].
  exists queued. split_and!; try done. right. exists head. split; [done|].
  simpl. apply lookup_insert_eq.
Qed.

(** C5 (as amended).  For a job in a schedulable state whose graph has at
    least one subgraph: if [schedule] fails, the job's status and the whole
    state of the back end (queue, commit map, registers) are as before the
    call; if it succeeds, the status is SCHED (BIND for a deferred run
    without trigger) and, the text being non-empty, the job's descriptor
    has been queued, where it either waits or has let the head of the queue
    be committed. *)
Theorem schedule_commit validate_schedule_status c g j d ret j' d' :
  validate_schedule_status (JobV3_1.m_status j) = AIPU_STATUS_SUCCESS →
  1 ≤ GraphV3X.get_subgraph_cnt g →
  JobV3_1.schedule validate_schedule_status c g (j, d) = Some (ret, (j', d')) →
  (ret ≠ AIPU_STATUS_SUCCESS →
     JobV3_1.m_status j' = JobV3_1.m_status j ∧ d' = d) ∧
  (ret = AIPU_STATUS_SUCCESS →
     JobV3_1.m_status j'
     = (if JobV3_1.m_is_defer_run j && negb (JobV3_1.m_do_trigger j)
        then AIPU_JOB_STATUS_BIND else AIPU_JOB_STATUS_SCHED) ∧
     (GraphV3X.m_text_size g ≠ 0 →
        ∃ queued,
          JobDesc.job_id queued = JobV3_1.m_id j ∧
          JobDesc.tcb_head queued = JobV3_1.m_init_tcb j ∧
          JobDesc.tcb_number queued = JobV3_1.m_tot_tcb_cnt j ∧
          (SimulatorV3_1.m_buffer_queue d' = SimulatorV3_1.m_buffer_queue d ++ [queued] ∨
           ∃ head,
             SimulatorV3_1.m_buffer_queue d ++ [queued]
             = head :: SimulatorV3_1.m_buffer_queue d' ∧
             SimulatorV3_1.m_commit_map d' !! u16 (JobV3_1.m_grid_id j)
             = Some (JobDesc.job_id head)))).
Proof.
  intros Hvalid Hcnt H. unfold JobV3_1.schedule in H. rewrite Hvalid in H.
  destruct (decide (AIPU_STATUS_SUCCESS ≠ AIPU_STATUS_SUCCESS)) as [Hne|_]; [done|].
  unfold JobV3_1.get_subgraph_cnt in H.
  destruct (Z.eqb_spec (GraphV3X.get_subgraph_cnt g) 0); [lia|].
  match type of H with
  | match JobV3_1.get_task ?x _ _ with _ => _ end = _ => set (j1 := x) in *
  end.
  assert (Hsame : JobV3_1.m_status j1 = JobV3_1.m_status j ∧
                  JobV3_1.m_id j1 = JobV3_1.m_id j ∧
                  JobV3_1.m_grid_id j1 = JobV3_1.m_grid_id j ∧
                  JobV3_1.m_init_tcb j1 = JobV3_1.m_init_tcb j ∧
                  JobV3_1.m_tot_tcb_cnt j1 = JobV3_1.m_tot_tcb_cnt j ∧
                  JobV3_1.m_is_defer_run j1 = JobV3_1.m_is_defer_run j ∧
                  JobV3_1.m_do_trigger j1 = JobV3_1.m_do_trigger j).
  { unfold j1. destruct (JobV3_1.m_err_code j) as [|err [|]];
      destruct (JobV3_1.m_backup_tcb_used _); simpl; done. }
  destruct Hsame as (Hst & Hid & Hgrid & Hinit & Htot & Hdefer & Htrig).
  clearbody j1.
  destruct (JobV3_1.get_task j1 _ _) as [tail|]; [|done].
  destruct (Z.eqb_spec (GraphV3X.m_text_size g) 0) as [Htext|Htext].
  - destruct (decide (AIPU_STATUS_SUCCESS ≠ AIPU_STATUS_SUCCESS)) as [Hne|_]; [done|].
    simpl in H. rewrite Hdefer, Htrig in H.
    destruct (JobV3_1.m_is_defer_run j && negb (JobV3_1.m_do_trigger j));
      injection H as <- <- <-; (split; [done|]); intros _; (split; [done|]); done.
  - destruct (SimulatorV3_1.schedule c _ d) as [[ret1 bind] d1] eqn:Hs.
    apply sim_schedule_cases in Hs.
    destruct Hs as [(-> & _ & ->)|(-> & _ & queued & Hq1 & Hq2 & Hq3 & Hq)].
    + destruct (decide (AIPU_STATUS_ERROR_NULL_PTR ≠ AIPU_STATUS_SUCCESS)) as [_|Hne];
        [|exfalso; apply Hne; discriminate].
      injection H as <- <- <-. split; [|done]. intros _. simpl. done.
    + destruct (decide (AIPU_STATUS_SUCCESS ≠ AIPU_STATUS_SUCCESS)) as [Hne|_]; [done|].
      simpl in H, Hq1, Hq2, Hq3, Hq. rewrite Hdefer, Htrig in H.
      assert (Hres : ∃ st, ret = AIPU_STATUS_SUCCESS ∧ d' = d1 ∧ JobV3_1.m_status j' = st ∧
                           st = (if JobV3_1.m_is_defer_run j && negb (JobV3_1.m_do_trigger j)
                                 then AIPU_JOB_STATUS_BIND else AIPU_JOB_STATUS_SCHED)).
      { destruct (JobV3_1.m_is_defer_run j && negb (JobV3_1.m_do_trigger j));
          injection H as <- <- <-; eexists; split_and!; done. }
      destruct Hres as (st & -> & -> & Hst' & ->).
      split; [done|]. intros _. split; [done|]. intros _.
      exists queued. rewrite <- Hid, <- Hinit, <- Htot, <- Hgrid. done.
Qed.

(** The amended statement on the example job: a call that finds no engine
    fails and leaves status and back end alone; a call that finds one
    succeeds, the job is SCHED and the head of the queue is committed. *)
Lemma schedule_commit_witness :
  (JobV3_1.m_status example_schedule_failed_job
   = JobV3_1.m_status example_job_with_err_code ∧
   example_sim_no_engine = example_sim_no_engine) ∧
  (JobV3_1.m_status example_schedule_ok_job = AIPU_JOB_STATUS_SCHED ∧
   ∃ queued,
     JobDesc.job_id queued = JobV3_1.m_id example_init_job ∧
     JobDesc.tcb_head queued = JobV3_1.m_init_tcb example_init_job ∧
     JobDesc.tcb_number queued = JobV3_1.m_tot_tcb_cnt example_init_job ∧
     (SimulatorV3_1.m_buffer_queue example_schedule_ok_sim
      = SimulatorV3_1.m_buffer_queue example_init_sim ++ [queued] ∨
      ∃ head,
        SimulatorV3_1.m_buffer_queue example_init_sim ++ [queued]
        = head :: SimulatorV3_1.m_buffer_queue example_schedule_ok_sim ∧
        SimulatorV3_1.m_commit_map example_schedule_ok_sim
          !! u16 (JobV3_1.m_grid_id example_init_job)
        = Some (JobDesc.job_id head))).
Proof.
  split.
  - apply (schedule_commit JobV3_1.validate_schedule_status_spec example_sim_consts
             example_graph example_job_with_err_code example_sim_no_engine
             AIPU_STATUS_ERROR_NULL_PTR example_schedule_failed_job example_sim_no_engine).
    + reflexivity.
    + vm_compute. discriminate.
    + vm_compute. reflexivity.
    + discriminate.
  - destruct (schedule_commit JobV3_1.validate_schedule_status_spec example_sim_consts
                example_graph example_init_job example_init_sim
                AIPU_STATUS_SUCCESS example_schedule_ok_job example_schedule_ok_sim)
      as [_ Hok].
    + reflexivity.
    + vm_compute. discriminate.
    + vm_compute. reflexivity.
    + destruct (Hok eq_refl) as [Hst Hq]. split; [exact Hst|].
      apply Hq. vm_compute. discriminate.
Defined.

(** C5 as stated fails in three ways.  (1) With no engine behind the
    simulator, [schedule] on the example job returns NULL_PTR after it has
    zeroed the error-code buffer: the byte at 0x2000, 7 before the call, is
    0 after it, and [m_backup_tcb_used] has been raised.  (2) On a graph
    without subgraphs the call succeeds, yet nothing is queued and the
    status stays INIT.  (3) On a graph whose text is empty the call succeeds
    and the status becomes SCHED, yet nothing is queued. *)
Lemma schedule_partial_commit_counterexample :
  (∃ j' d',
     JobV3_1.schedule JobV3_1.validate_schedule_status_spec example_sim_consts example_graph
       (example_job_with_err_code, example_sim_no_engine)
     = Some (AIPU_STATUS_ERROR_NULL_PTR, (j', d')) ∧
     JobV3_1.validate_schedule_status_spec (JobV3_1.m_status example_job_with_err_code)
     = AIPU_STATUS_SUCCESS ∧
     JobV3_1.m_mem example_job_with_err_code !! 0x2000 = Some 7 ∧
     JobV3_1.m_mem j' !! 0x2000 = Some 0 ∧
     JobV3_1.m_backup_tcb_used example_job_with_err_code = false ∧
     JobV3_1.m_backup_tcb_used j' = true) ∧
  (JobV3_1.schedule JobV3_1.validate_schedule_status_spec example_sim_consts example_empty_graph
     (example_empty_job, example_sim)
   = Some (AIPU_STATUS_SUCCESS, (example_empty_job, example_sim)) ∧
   JobV3_1.m_status example_empty_job = AIPU_JOB_STATUS_INIT ∧
   SimulatorV3_1.m_buffer_queue example_sim = []) ∧
  (∃ j' d',
     JobV3_1.schedule JobV3_1.validate_schedule_status_spec example_sim_consts
       example_textless_graph (example_init_job, example_init_sim)
     = Some (AIPU_STATUS_SUCCESS, (j', d')) ∧
     JobV3_1.m_status j' = AIPU_JOB_STATUS_SCHED ∧
     d' = example_init_sim ∧
     SimulatorV3_1.m_buffer_queue d' = [] ∧ SimulatorV3_1.m_commit_map d' = ∅).
Proof.
  split_and!.
  - eexists _, _. split_and!; [vm_compute; reflexivity|reflexivity..].
  - reflexivity.
  - reflexivity.
  - reflexivity.
  - eexists _, _. split_and!; [vm_compute; reflexivity|reflexivity..].
Qed.

(** ** [parse_dynamic_out_shape] *)

Lemma u64_mul_idemp_l a d : u64 (u64 a * d) = u64 (a * d).
Proof. unfold u64. apply Z.mul_mod_idemp_l. lia. Qed.

Lemma dims_product_from a data :
  foldl (λ size d, u64 (size * d)) (u64 a) data = u64 (a * product data).
Proof.
  revert a. induction data as [|d data IH]; intros a; simpl.
  - by rewrite Z.mul_1_r.
  - rewrite u64_mul_idemp_l, IH. f_equal. lia.
Qed.

(** In 64 bits the loop computes the product of the dims. *)
Lemma dims_product_exact data :
  JobV3_1.dims_product data = u64 (product data).
Proof.
  unfold JobV3_1.dims_product.
  change 1 with (u64 1) at 1. rewrite dims_product_from. f_equal. lia.
Qed.








Lemma example_dyn_size :
  product (shape_dims example_dyn_job (JobIOBuffer.mk 0 8 AIPU_DATA_TYPE_U32 0x3000)) * 4
  = 4000.
Proof. vm_compute. reflexivity. Qed.

(** ** [setup_segmmu] *)

(** With more than one config the pointer is advanced before each use: the
    cores get the configs at indices [segmmu + 1 .. segmmu + n]. *)
Lemma setup_segmmu_configs_shifted segmmu_num n segmmu bsegmmu sec :
  segmmu_num ≠ 1 → (segmmu + n < length bsegmmu)%nat →
  ∃ bsegmmu',
    JobV3_1.setup_segmmu_configs segmmu_num n segmmu bsegmmu sec
    = Some (bsegmmu', sec ++ (segmmu_enabled <$> take n (drop (S segmmu) bsegmmu))).
Proof.
  intros Hnum. revert segmmu bsegmmu sec.
  induction n as [|n IH]; intros segmmu bsegmmu sec Hlen; simpl.
  - eexists. by rewrite app_nil_r.
  - destruct (Z.eqb_spec segmmu_num 1); [done|].
    destruct (lookup_lt_is_Some_2 bsegmmu (S segmmu) ltac:(lia)) as [cfg Hcfg].
    rewrite Hcfg. fold (segmmu_enabled cfg).
    destruct (IH (S segmmu) (<[S segmmu := segmmu_enabled cfg]> bsegmmu)
                (sec ++ [segmmu_enabled cfg])) as [bsegmmu' Heq].
    { rewrite length_insert. lia. }
    exists bsegmmu'. rewrite Heq. f_equal. f_equal.
    rewrite drop_insert_lt by lia.
    rewrite (drop_S bsegmmu cfg (S segmmu) Hcfg). simpl.
    by rewrite <- app_assoc.
Qed.

(** With more than one config and no config beyond the last core's index,
    the pointer leaves the array. *)
Lemma setup_segmmu_configs_overrun segmmu_num n segmmu bsegmmu sec :
  segmmu_num ≠ 1 → (0 < n)%nat → (length bsegmmu ≤ segmmu + n)%nat →
  JobV3_1.setup_segmmu_configs segmmu_num n segmmu bsegmmu sec = None.
Proof.
  intros Hnum. revert segmmu bsegmmu sec.
  induction n as [|n IH]; intros segmmu bsegmmu sec Hn Hlen; [lia|]. simpl.
  destruct (Z.eqb_spec segmmu_num 1); [done|].
  destruct (bsegmmu !! S segmmu) as [cfg|] eqn:Hcfg; [|done].
  apply lookup_lt_Some in Hcfg.
  apply IH; [lia|rewrite length_insert; lia].
Qed.

(** With a single config the pointer stays: every core gets the enabled
    copy of that config. *)
Lemma setup_segmmu_configs_shared n segmmu bsegmmu sec cfg :
  bsegmmu !! segmmu = Some cfg → (0 < n)%nat →
  JobV3_1.setup_segmmu_configs 1 n segmmu bsegmmu sec
  = Some (<[segmmu := segmmu_enabled cfg]> bsegmmu,
          sec ++ replicate n (segmmu_enabled cfg)).
Proof.
  revert bsegmmu sec cfg.
  induction n as [|n IH]; intros bsegmmu sec cfg Hcfg Hn; [lia|].
  simpl. rewrite Hcfg. fold (segmmu_enabled cfg).
  destruct n as [|n].
  - reflexivity.
  - rewrite (IH _ _ (segmmu_enabled cfg)); [|by apply list_lookup_insert_eq, lookup_lt_Some with cfg|lia].
    rewrite list_insert_insert_eq, <- app_assoc. reflexivity.
Qed.

(** A tagged buffer changes a control word only when its segment index is
    below 4 and its control index 0 or 1. *)
Lemma segmmu_bind_cores_range_checked s_id pa n core_idx sec b sec' :
  JobV3_1.segmmu_bind_cores s_id pa n core_idx sec = Some (b, sec') → sec' ≠ sec →
  0 ≤ JobV3_1.segmmu_idx s_id < 4 ∧ 0 ≤ JobV3_1.segmmu_ctrl_idx s_id ≤ 1.
Proof.
  revert core_idx sec.
  induction n as [|n IH]; intros core_idx sec H Hne; simpl in H.
  - congruence.
  - destruct (_ =? 0); [by eapply IH|].
    destruct (_ && _) eqn:Hseg; [|congruence].
    destruct ((0 <=? JobV3_1.segmmu_ctrl_idx s_id) && _) eqn:Hctrl; [|congruence].
    apply andb_true_iff in Hseg as [? ?]. apply andb_true_iff in Hctrl as [? ?]. lia.
Qed.

(** The same for the whole pass over one tagged buffer, with the test of
    the core mask against the job's cores. *)
Lemma segmmu_bind_buffers_checked core_cnt iobuf sec sec' :
  JobV3_1.segmmu_bind_buffers core_cnt [iobuf] sec = Some sec' → sec' ≠ sec →
  Z.land (JobV3_1.core_id_mask (JobIOBuffer.id iobuf)) (Z.shiftl 1 core_cnt - 1) ≠ 0 ∧
  0 ≤ JobV3_1.segmmu_idx (JobIOBuffer.id iobuf) < 4 ∧
  0 ≤ JobV3_1.segmmu_ctrl_idx (JobIOBuffer.id iobuf) ≤ 1.
Proof.
  simpl. intros H Hne.
  destruct (Z.eqb_spec (Z.land (JobV3_1.core_id_mask (JobIOBuffer.id iobuf))
                          (Z.shiftl 1 core_cnt - 1)) 0) as [|Hmask]; [congruence|].
  split; [exact Hmask|].
  destruct (JobV3_1.segmmu_bind_cores _ _ _ _ _) as [[b sec1]|] eqn:Hcores; [|done].
  apply (segmmu_bind_cores_range_checked _ _ _ _ _ _ _ Hcores).
  destruct b; congruence.
Qed.

(** C8, what the code does.  With more than one SegMMU config (and no
    tagged buffer), core [i] is given the config at index [i + 1] of the
    section, not the one at index [i]; and when the section holds no
    config at index [core_cnt], as when it holds one config per core, the
    function reads past the section. *)
Theorem setup_segmmu_core_configs g j :
  JobV3_1.m_segmmu_num j ≠ 0 → JobV3_1.m_segmmu_num j ≠ 1 →
  JobV3_1.m_segmmu_sec j = [] → JobV3_1.m_segmmus j = [] →
  let n := Z.to_nat (JobV3_1.m_core_cnt j) in
  ((n < length (GraphV3X.m_bsegmmu g))%nat →
     ∃ j' bsegmmu',
       JobV3_1.setup_segmmu g j = Some (AIPU_STATUS_SUCCESS, (j', bsegmmu')) ∧
       length (JobV3_1.m_segmmu_sec j') = n ∧
       ∀ i : nat, (i < n)%nat →
         JobV3_1.m_segmmu_sec j' !! i = segmmu_enabled <$> GraphV3X.m_bsegmmu g !! S i) ∧
  ((0 < n)%nat → (length (GraphV3X.m_bsegmmu g) ≤ n)%nat →
     JobV3_1.setup_segmmu g j = None).
Proof.
  intros Hn0 Hn1 Hsec Hbufs n. unfold JobV3_1.setup_segmmu.
  destruct (Z.eqb_spec (JobV3_1.m_segmmu_num j) 0); [done|].
  rewrite Hsec, Hbufs. fold n. split.
  - intros Hlen.
    destruct (setup_segmmu_configs_shifted (JobV3_1.m_segmmu_num j) n 0
                (GraphV3X.m_bsegmmu g) [] Hn1 ltac:(lia)) as [bsegmmu' ->].
    simpl. eexists _, _. split; [done|]. simpl. split.
    + rewrite length_fmap, length_take, length_drop. lia.
    + intros i Hi. rewrite list_lookup_fmap, lookup_take_lt by lia.
      by rewrite lookup_drop.
  - intros Hpos Hlen.
    by rewrite setup_segmmu_configs_overrun by (done || lia).
Qed.

(** The example: two cores, a section of two configs: the function reads
    past the section. *)
Lemma setup_segmmu_core_configs_witness :
  JobV3_1.setup_segmmu example_segmmu_graph example_segmmu_job = None.
Proof.
  apply (setup_segmmu_core_configs example_segmmu_graph example_segmmu_job).
  - discriminate.
  - discriminate.
  - reflexivity.
  - reflexivity.
  - simpl. lia.
  - simpl. lia.
Defined.

(** ** The BSS walk *)

Section WalkTriples.
Context {A B : Type}.
Implicit Types (P : BssWalk.t → Prop) (E : BssWalk.t → Prop).

Lemma triple_ret P E (a : A) : triple P (mret a) (λ _, P) E.
Proof. intros s Hs. exact Hs. Qed.

Lemma triple_bind P (Q : A → BssWalk.t → Prop) (R : B → BssWalk.t → Prop) E
    (m : walker A) (f : A → walker B) :
  triple P m Q E → (∀ a, triple (Q a) (f a) R E) → triple P (m ≫= f) R E.
Proof.
  intros Hm Hf s Hs. specialize (Hm s Hs).
  unfold mbind, walker_bind. destruct (m s) as [[a|] s']; [|exact Hm].
  exact (Hf a s' Hm).
Qed.
End WalkTriples.

Section WalkInvariant.
Variable L : bss_layout.
Variable mem : Z → Z.
Variables lb ub : Z.
Hypothesis HL : bss_layout_ok L.

Lemma load_triple kind n :
  n ∈ checked_load_sizes L →
  triple (walk_inv lb ub 0) (load mem lb ub kind n)
    (λ _, walk_inv lb ub n) (walk_stopped L lb ub).
Proof.
  intros Hn s (Hloads & Hlb & Hub). unfold load, umd_is_valid_ptr.
  destruct (Z.leb_spec lb (BssWalk.desc_load_addr s)); [|lia].
  destruct (Z.leb_spec (BssWalk.desc_load_addr s + n) ub); simpl.
  - split_and!; [|done..]. apply Forall_cons. split; [|done]. by intros _.
  - split; [done|]. exists n. split; [done|lia].
Qed.

Lemma skip_triple n :
  0 ≤ n →
  triple (walk_inv lb ub n) (skip n) (λ _, walk_inv lb ub 0) (walk_stopped L lb ub).
Proof. intros Hn s (Hloads & Hlb & Hub). unfold skip, walk_inv. simpl. split_and!; [done|lia..]. Qed.

Lemma add_param_triple n param :
  triple (walk_inv lb ub n) (add_param param) (λ _, walk_inv lb ub n) (walk_stopped L lb ub).
Proof. intros s Hs. exact Hs. Qed.

Lemma get_m_static_buf_idx_triple n :
  triple (walk_inv lb ub n) get_m_static_buf_idx (λ _, walk_inv lb ub n) (walk_stopped L lb ub).
Proof. intros s Hs. exact Hs. Qed.

Lemma get_m_reuse_buf_idx_triple n :
  triple (walk_inv lb ub n) get_m_reuse_buf_idx (λ _, walk_inv lb ub n) (walk_stopped L lb ub).
Proof. intros s Hs. exact Hs. Qed.

Lemma incr_m_static_buf_idx_triple n :
  triple (walk_inv lb ub n) incr_m_static_buf_idx (λ _, walk_inv lb ub n) (walk_stopped L lb ub).
Proof. intros s Hs. exact Hs. Qed.

Lemma incr_m_reuse_buf_idx_triple n :
  triple (walk_inv lb ub n) incr_m_reuse_buf_idx (λ _, walk_inv lb ub n) (walk_stopped L lb ub).
Proof. intros s Hs. exact Hs. Qed.

Local Ltac walk_step :=
  first
    [ apply triple_ret
    | apply add_param_triple
    | apply get_m_static_buf_idx_triple
    | apply get_m_reuse_buf_idx_triple
    | apply incr_m_static_buf_idx_triple
    | apply incr_m_reuse_buf_idx_triple
    | apply load_triple; unfold checked_load_sizes; set_solver
    | apply skip_triple; unfold sizeof_uint32_t; destruct HL as (? & ? & ? & ?); lia ].

Local Ltac walk_seq := eapply triple_bind; [walk_step|intros ?].

Lemma static_ro_entries_triple sub_sec_iter sub_desc_load n :
  triple (walk_inv lb ub 0) (static_ro_entries mem lb ub sub_sec_iter sub_desc_load n)
    (λ _, walk_inv lb ub 0) (walk_stopped L lb ub).
Proof.
  induction n as [|n IH]; simpl; [walk_step|].
  do 4 walk_seq. exact IH.
Qed.

Lemma reuse_ro_entries_triple sub_sec_iter sub_desc_load n :
  triple (walk_inv lb ub 0) (reuse_ro_entries mem lb ub sub_sec_iter sub_desc_load n)
    (λ _, walk_inv lb ub 0) (walk_stopped L lb ub).
Proof.
  induction n as [|n IH]; simpl; [walk_step|].
  do 4 walk_seq. exact IH.
Qed.

Lemma static_sub_sections_triple n sub_sec_iter :
  triple (walk_inv lb ub 0) (static_sub_sections L mem lb ub n sub_sec_iter)
    (λ _, walk_inv lb ub 0) (walk_stopped L lb ub).
Proof.
  revert sub_sec_iter. induction n as [|n IH]; intros sub_sec_iter; simpl; [walk_step|].
  do 2 walk_seq.
  eapply triple_bind; [apply static_ro_entries_triple|intros ?]. apply IH.
Qed.

Lemma reuse_sub_sections_triple n sub_sec_iter :
  triple (walk_inv lb ub 0) (reuse_sub_sections L mem lb ub n sub_sec_iter)
    (λ _, walk_inv lb ub 0) (walk_stopped L lb ub).
Proof.
  revert sub_sec_iter. induction n as [|n IH]; intros sub_sec_iter; simpl; [walk_step|].
  do 2 walk_seq.
  eapply triple_bind; [apply reuse_ro_entries_triple|intros ?]. apply IH.
Qed.

Lemma static_sections_triple n :
  triple (walk_inv lb ub 0) (static_sections L mem lb ub n)
    (λ _, walk_inv lb ub 0) (walk_stopped L lb ub).
Proof.
  induction n as [|n IH]; simpl; [walk_step|].
  do 2 walk_seq.
  eapply triple_bind; [apply static_sub_sections_triple|intros ?].
  walk_seq. exact IH.
Qed.

Lemma reuse_sections_triple n :
  triple (walk_inv lb ub 0) (reuse_sections L mem lb ub n)
    (λ _, walk_inv lb ub 0) (walk_stopped L lb ub).
Proof.
  induction n as [|n IH]; simpl; [walk_step|].
  do 2 walk_seq.
  eapply triple_bind; [apply reuse_sub_sections_triple|intros ?].
  walk_seq. exact IH.
Qed.
End WalkInvariant.

(** The two section loops in a row, as [parse_bss_section] runs them. *)
Lemma bss_walk_triple L mem lb ub n_static n_reuse :
  bss_layout_ok L →
  triple (walk_inv lb ub 0)
    (static_sections L mem lb ub n_static;; reuse_sections L mem lb ub n_reuse)
    (λ _, walk_inv lb ub 0) (walk_stopped L lb ub).
Proof.
  intros HL. eapply triple_bind; [by apply static_sections_triple|intros ?].
  by apply reuse_sections_triple.
Qed.

(** C7, as amended.  For a call of [parse_bss_section] with a non-zero
    [size]: every read of a static or reuse section descriptor, of a
    sub-section descriptor and of a relocation offset lies within
    [bss, bss + sizeof(BSSHeader) + size]; on success the cursor handed
    back lies there too; and a failure is INVALID_GBIN, returned for a
    rejected header or with the cursor at a place where the struct to
    read next would go beyond the upper bound. *)
Theorem parse_bss_section_bounds L mem bss size s :
  bss_layout_ok L → 0 ≤ bss → 0 < size →
  bss + sizeof_BSSHeader L + size < 2^64 →
  BssWalk.loads s = [] →
  let ub := bss + sizeof_BSSHeader L + size in
  ∃ ret s',
    parse_bss_section L mem bss size s = (ret, s') ∧
    (∀ a, a ∈ BssWalk.loads s' → load_within bss ub a) ∧
    (ret = AIPU_STATUS_SUCCESS → bss ≤ BssWalk.desc_load_addr s' ≤ ub) ∧
    (ret ≠ AIPU_STATUS_SUCCESS →
       ret = AIPU_STATUS_ERROR_INVALID_GBIN ∧
       (bss_header_invalid (as_BSSHeader L (read_bytes mem bss (sizeof_BSSHeader L))) ∨
        ∃ n, n ∈ checked_load_sizes L ∧ ub < BssWalk.desc_load_addr s' + n)).
Proof.
  intros HL Hbss Hsize Hfit Hloads ub. unfold parse_bss_section.
  destruct (Z.eqb_spec 0 size) as [|_]; [lia|].
  assert (Hub : u64 (bss + sizeof_BSSHeader L + size) = ub).
  { unfold u64. apply Z.mod_small. destruct HL as (? & _). lia. }
  rewrite Hub, Hloads.
  set (h := as_BSSHeader L (read_bytes mem bss (sizeof_BSSHeader L))).
  destruct (_ || _) eqn:Htest.
  - eexists _, _. split; [reflexivity|]. split_and!.
    + simpl. intros a Ha%list_elem_of_singleton Hkind. by subst a.
    + done.
    + intros _. split; [done|]. left. unfold bss_header_invalid.
      apply orb_true_iff in Htest as [Htest|Htest]; [apply orb_true_iff in Htest as [Htest|Htest]|];
        apply Z.eqb_eq in Htest; tauto.
  - set (s1 := BssWalk.set_desc_load_addr _ _).
    assert (Hinv : walk_inv bss ub 0 s1).
    { unfold walk_inv, s1. simpl. split_and!.
      - apply Forall_cons. split; [by intros ?|constructor].
      - destruct HL as (? & _). lia.
      - unfold ub. lia. }
    pose proof (bss_walk_triple L mem bss ub
                  (Z.to_nat (BSSHeader.static_section_desc_cnt h))
                  (Z.to_nat (BSSHeader.reuse_section_desc_cnt h)) HL s1 Hinv) as Hwalk.
    cbv zeta.
    match type of Hwalk with
    | match ?r with _ => _ end => destruct r as [[[]|] s']
    end.
    + destruct Hwalk as (Hall & Hlb & Hle). eexists _, _. split; [reflexivity|]. split_and!.
      * intros a Ha. by eapply Forall_forall in Hall.
      * intros _. lia.
      * done.
    + destruct Hwalk as ((Hall & Hlb & Hle) & Hstop). eexists _, _. split; [reflexivity|].
      split_and!.
      * intros a Ha. by eapply Forall_forall in Hall.
      * done.
      * intros _. split; [done|]. by right.
Qed.

(** The example BSS with its size of 116 bytes: the walk succeeds and
    hands back the end of the section. *)
Lemma parse_bss_section_bounds_witness :
  ∃ s',
    parse_bss_section example_bss_layout example_bss_mem example_bss_addr 116
      example_walk_start = (AIPU_STATUS_SUCCESS, s') ∧
    BssWalk.desc_load_addr s' = example_bss_addr + 16 + 116 ∧
    ∀ a, a ∈ BssWalk.loads s' →
      load_within example_bss_addr (example_bss_addr + 16 + 116) a.
Proof.
  destruct (parse_bss_section_bounds example_bss_layout example_bss_mem
              example_bss_addr 116 example_walk_start) as (ret & s' & Hrun & Hall & _).
  - unfold bss_layout_ok. simpl. lia.
  - unfold example_bss_addr. lia.
  - lia.
  - unfold example_bss_addr. simpl. lia.
  - reflexivity.
  - exists s'. vm_compute in Hrun. injection Hrun as <- <-.
    split; [reflexivity|]. split; [reflexivity|]. exact Hall.
Defined.

(** The same bytes with [size = 0]: the upper bound is [UINT64_MAX], the
    walk succeeds, and it has read descriptors beyond the header, that is
    beyond [bss + sizeof(BSSHeader) + size]. *)
Lemma parse_bss_section_unsized_counterexample :
  let r := parse_bss_section example_bss_layout example_bss_mem example_bss_addr 0
             example_walk_start in
  r.1 = AIPU_STATUS_SUCCESS ∧
  Exists (λ a, BssLoad.kind a ≠ LOAD_BSS_HEADER ∧
               example_bss_addr + sizeof_BSSHeader example_bss_layout + 0
               < BssLoad.addr a + BssLoad.size a)
    (BssWalk.loads r.2).
Proof.
  vm_compute. split; [reflexivity|].
  apply Exists_cons_hd. split; [discriminate|reflexivity].
Qed.

(** The same bytes announced as 100 bytes: the walk stops before the
    sub-section descriptor of the reuse section. *)
Lemma parse_bss_section_truncated_example :
  (parse_bss_section example_bss_layout example_bss_mem example_bss_addr 100
     example_walk_start).1 = AIPU_STATUS_ERROR_INVALID_GBIN.
Proof. vm_compute. reflexivity. Qed.

(* ===================================================================== *)
(** * Part II, continued.  Further properties of the code                *)
(* ===================================================================== *)

(** ** [sort_io_tensor] and [sort_io]: what they keep *)

(** Whatever the loop leaves in the vector was in the vector or among the
    pending descriptors. *)
Lemma sort_io_tensor_loop_elem_of tmp i pending cur x :
  x ∈ (sort_io_tensor_loop tmp i pending cur).2 → x ∈ cur ∨ x ∈ pending.
Proof.
  revert i cur. induction pending as [|t pending IH]; intros i cur; simpl; [by left|].
  destruct (Z.of_nat (length tmp) <=? GraphIOTensorDesc.id t); [by left|].
  intros [Hx|Hx]%IH; [|right; by apply elem_of_cons; right].
  destruct (GraphIOTensorDesc.id t =? Z.of_nat i); [by left|].
  apply list_elem_of_lookup_1 in Hx as [k Hk].
  apply list_lookup_insert_Some in Hk as [(_ & <- & _)|(_ & Hk)].
  - right. by apply elem_of_cons; left.
  - left. by eapply list_elem_of_lookup_2.
Qed.

(** With ids in range and pairwise distinct, [sort_io_tensor] loses and
    duplicates nothing: the sorted vector is a permutation of the given
    one. *)
Theorem sort_io_tensor_permutes tensors :
  ids_in_range tensors → NoDup (GraphIOTensorDesc.id <$> tensors) →
  (sort_io_tensor tensors).2 ≡ₚ tensors.
Proof.
  intros Hrange Hnd.
  destruct (sort_io_tensor_sorted tensors Hrange Hnd) as (_ & Hlen & Hpos).
  apply submseteq_length_Permutation; [|by rewrite Hlen].
  apply NoDup_submseteq.
  - apply NoDup_alt. intros i j x Hi Hj.
    pose proof (Hpos i x Hi). pose proof (Hpos j x Hj). lia.
  - intros x Hx. apply sort_io_tensor_loop_elem_of in Hx. tauto.
Qed.

Lemma sort_io_tensor_permutes_witness :
  (sort_io_tensor example_unsorted_inputs).2 ≡ₚ example_unsorted_inputs.
Proof.
  apply sort_io_tensor_permutes.
  - unfold ids_in_range, example_unsorted_inputs. simpl.
    repeat (apply Forall_cons; split; [simpl; lia|]). apply Forall_nil_2.
  - apply (bool_decide_unpack _). vm_compute. exact I.
Defined.

(** A descriptor that sits at its own position is never moved. *)
Lemma sort_io_tensor_loop_in_place tmp i pending cur :
  (∀ (k : nat) t, pending !! k = Some t → GraphIOTensorDesc.id t = Z.of_nat (i + k)) →
  (i + length pending ≤ length tmp)%nat →
  sort_io_tensor_loop tmp i pending cur = (AIPU_STATUS_SUCCESS, cur).
Proof.
  revert i cur. induction pending as [|t pending IH]; intros i cur Hpos Hlen; simpl; [done|].
  simpl in Hlen. pose proof (Hpos 0%nat t eq_refl) as Ht.
  destruct (Z.leb_spec (Z.of_nat (length tmp)) (GraphIOTensorDesc.id t)); [lia|].
  destruct (Z.eqb_spec (GraphIOTensorDesc.id t) (Z.of_nat i)); [|lia].
  apply IH; [|lia]. intros k u Hk. rewrite (Hpos (S k) u Hk). lia.
Qed.

(** A vector that is already in id order comes back as it is, so sorting
    a second time changes nothing. *)
Theorem sort_io_tensor_sorted_fixed tensors :
  ids_are_positions tensors →
  sort_io_tensor tensors = (AIPU_STATUS_SUCCESS, tensors).
Proof.
  intros Hpos. apply sort_io_tensor_loop_in_place; [|done].
  intros k t Hk. by rewrite (Hpos k t Hk).
Qed.

Lemma sort_io_tensor_sorted_fixed_witness :
  sort_io_tensor example_sorted_inputs = (AIPU_STATUS_SUCCESS, example_sorted_inputs).
Proof.
  apply sort_io_tensor_sorted_fixed.
  intros [|[|[|i]]] t Hi; simpl in Hi; try discriminate; by injection Hi as <-.
Defined.

(** [sort_io] never touches the profiler, printf, layer-counter,
    error-code and SegMMU lists, and never changes the length of a list,
    whatever it returns. *)
Theorem sort_io_frame io :
  let io' := (sort_io io).2 in
  profiler io' = profiler io ∧ printf io' = printf io ∧
  layer_counter io' = layer_counter io ∧ err_code io' = err_code io ∧
  segmmus io' = segmmus io ∧
  length <$> io_lists io' = length <$> io_lists io.
Proof.
  unfold sort_io, io_lists.
  pose proof (sort_io_tensor_loop_length (inputs io) 0 (inputs io) (inputs io)) as H1.
  pose proof (sort_io_tensor_loop_length (outputs io) 0 (outputs io) (outputs io)) as H2.
  pose proof (sort_io_tensor_loop_length (inter_dumps io) 0 (inter_dumps io) (inter_dumps io)) as H3.
  pose proof (sort_io_tensor_loop_length (outputs_shape io) 0 (outputs_shape io)
                (outputs_shape io)) as H4.
  fold (sort_io_tensor (inputs io)) in H1. fold (sort_io_tensor (outputs io)) in H2.
  fold (sort_io_tensor (inter_dumps io)) in H3. fold (sort_io_tensor (outputs_shape io)) in H4.
  destruct (sort_io_tensor (inputs io)) as [r1 l1]. simpl in *.
  destruct (decide (r1 = _)); simpl; [|by rewrite H1].
  destruct (sort_io_tensor (outputs io)) as [r2 l2]. simpl in *.
  destruct (decide (r2 = _)); simpl; [|by rewrite H1, H2].
  destruct (sort_io_tensor (inter_dumps io)) as [r3 l3]. simpl in *.
  destruct (decide (r3 = _)); simpl; [|by rewrite H1, H2, H3].
  destruct (sort_io_tensor (outputs_shape io)) as [r4 l4]. simpl in *.
  by rewrite H1, H2, H3, H4.
Qed.

(** [sort_io] does not roll back: when the inputs can be sorted and the
    outputs carry an id out of range, the call fails with the inputs
    already in id order, the outputs as far as the loop got, and the two
    later lists untouched. *)
Theorem sort_io_fails_half_sorted io :
  ids_in_range (inputs io) → NoDup (GraphIOTensorDesc.id <$> inputs io) →
  has_id_out_of_range (outputs io) →
  (sort_io io).1 = AIPU_STATUS_ERROR_INVALID_GBIN ∧
  inputs (sort_io io).2 = (sort_io_tensor (inputs io)).2 ∧
  ids_are_positions (inputs (sort_io io).2) ∧
  inter_dumps (sort_io io).2 = inter_dumps io ∧
  outputs_shape (sort_io io).2 = outputs_shape io.
Proof.
  intros Hrange Hnd Hbad.
  destruct (sort_io_tensor_sorted _ Hrange Hnd) as (H1 & _ & Hpos).
  pose proof (sort_io_tensor_invalid _ Hbad) as H2.
  unfold sort_io.
  destruct (sort_io_tensor (inputs io)) as [r1 l1]. simpl in *. subst r1.
  destruct (decide _) as [_|]; [|done]. simpl.
  destruct (sort_io_tensor (outputs io)) as [r2 l2]. simpl in *. subst r2.
  destruct (decide _) as [|_]; [done|]. simpl. done.
Qed.

Lemma sort_io_fails_half_sorted_witness :
  (sort_io example_half_sortable_io).1 = AIPU_STATUS_ERROR_INVALID_GBIN ∧
  inputs (sort_io example_half_sortable_io).2 = example_sorted_inputs ∧
  inter_dumps (sort_io example_half_sortable_io).2 = [desc_with_id 1; desc_with_id 0].
Proof.
  destruct (sort_io_fails_half_sorted example_half_sortable_io) as (H1 & H2 & _ & H3 & _).
  - unfold ids_in_range. simpl.
    repeat (apply Forall_cons; split; [simpl; lia|]). apply Forall_nil_2.
  - apply (bool_decide_unpack _). vm_compute. exact I.
  - exists (desc_with_id 5). split; [by apply list_elem_of_singleton|simpl; lia].
  - split; [exact H1|]. split; [by rewrite H2|exact H3].
Defined.

(** ** [fill_io_tensor_desc_inner] *)

(** With the case labels pairwise distinct (as a [switch] needs them): a
    sub-section whose type is the [k]-th label has its descriptor appended
    to the [k]-th list and to no other; for any other type the call
    returns INVALID_TENSOR_TYPE and leaves the lists alone. *)
Theorem fill_io_tensor_desc_inner_one_list c reuse_sec_iter sub_sec_iter sub desc :
  NoDup (io_section_types c) →
  (∀ k : nat, io_section_types c !! k = Some (sub_section_desc_v3_t.type sub) →
     (fill_io_tensor_desc_inner c reuse_sec_iter sub_sec_iter sub desc).1
     = AIPU_STATUS_SUCCESS ∧
     io_lists (fill_io_tensor_desc_inner c reuse_sec_iter sub_sec_iter sub desc).2
     = alter (λ l, l ++ [io_desc_of reuse_sec_iter sub]) k (io_lists desc)) ∧
  (sub_section_desc_v3_t.type sub ∉ io_section_types c →
     fill_io_tensor_desc_inner c reuse_sec_iter sub_sec_iter sub desc
     = (AIPU_STATUS_ERROR_INVALID_TENSOR_TYPE, desc)).
Proof.
  intros Hnd. split.
  - intros k Hk.
    assert (Hsame : ∀ k' : nat,
               io_section_types c !! k' = Some (sub_section_desc_v3_t.type sub) → k' = k).
    { intros k' Hk'. by eapply NoDup_lookup. }
    unfold fill_io_tensor_desc_inner.
    repeat match goal with
           | |- context [sub_section_desc_v3_t.type sub =? ?x] =>
               destruct (Z.eqb_spec (sub_section_desc_v3_t.type sub) x) as [Heq|?]
           end;
      try (first
             [ pose proof (Hsame 0%nat ltac:(simpl; by rewrite <- Heq))
             | pose proof (Hsame 1%nat ltac:(simpl; by rewrite <- Heq))
             | pose proof (Hsame 2%nat ltac:(simpl; by rewrite <- Heq))
             | pose proof (Hsame 3%nat ltac:(simpl; by rewrite <- Heq))
             | pose proof (Hsame 4%nat ltac:(simpl; by rewrite <- Heq))
             | pose proof (Hsame 5%nat ltac:(simpl; by rewrite <- Heq))
             | pose proof (Hsame 6%nat ltac:(simpl; by rewrite <- Heq))
             | pose proof (Hsame 7%nat ltac:(simpl; by rewrite <- Heq))
             | pose proof (Hsame 8%nat ltac:(simpl; by rewrite <- Heq)) ];
           subst k; done).
    exfalso. do 9 (destruct k as [|k]; [simpl in Hk; congruence|]). done.
  - intros Hnotin. unfold fill_io_tensor_desc_inner.
    repeat match goal with
           | |- context [sub_section_desc_v3_t.type sub =? ?x] =>
               destruct (Z.eqb_spec (sub_section_desc_v3_t.type sub) x) as [Heq|?]
           end;
      try done; exfalso; apply Hnotin; rewrite Heq; unfold io_section_types; set_solver.
Qed.

Lemma fill_io_tensor_desc_inner_one_list_witness :
  fill_io_tensor_desc_inner example_section_types 0 0 example_output_sub_section
    (io_with_inputs [desc_with_id 0])
  = (AIPU_STATUS_SUCCESS,
     mkGraphIOTensors [desc_with_id 0] [io_desc_of 0 example_output_sub_section]
       [] [] [] [] [] [] []).
Proof.
  destruct (fill_io_tensor_desc_inner_one_list example_section_types 0 0
              example_output_sub_section (io_with_inputs [desc_with_id 0])) as [H _].
  - apply (bool_decide_unpack _). vm_compute. exact I.
  - destruct (H 1%nat eq_refl) as [_ _]. reflexivity.
Defined.

(** ** The BSS walk: cursor and relocation entries *)

Section WalkAccount.
Variable L : bss_layout.
Variable mem : Z → Z.
Variables lb ub start : Z.
Variable params : list GraphParamMapLoadDesc.t.

Let acct := walk_account start params.

Lemma load_account kind n :
  kind ≠ LOAD_BSS_HEADER → kind ≠ LOAD_OFFSET_IN_RO →
  triple (acct 0 0%nat) (load mem lb ub kind n) (λ _, acct n 0%nat) (acct 0 0%nat).
Proof.
  intros Hk1 Hk2 s (Haddr & added & Hparams & Hcount). unfold load.
  destruct (umd_is_valid_ptr _ _ _ _); [|by split; [|exists added]].
  split; simpl.
  - destruct (decide (kind = LOAD_BSS_HEADER)); [done|]. lia.
  - exists added. split; [done|]. unfold relocation_loads, BssWalk.set_loads.
    cbn [BssWalk.loads]. rewrite filter_cons_False by done. exact Hcount.
Qed.

Lemma load_offset_account n :
  triple (acct 0 0%nat) (load mem lb ub LOAD_OFFSET_IN_RO n) (λ _, acct n 1%nat)
    (acct 0 0%nat).
Proof.
  intros s (Haddr & added & Hparams & Hcount). unfold load.
  destruct (umd_is_valid_ptr _ _ _ _); [|by split; [|exists added]].
  split; simpl.
  - lia.
  - exists added. split; [done|]. unfold relocation_loads, BssWalk.set_loads.
    cbn [BssWalk.loads]. rewrite filter_cons_True by done.
    unfold relocation_loads in Hcount. rewrite length_cons. lia.
Qed.

Lemma skip_account n m :
  triple (acct n m) (skip n) (λ _, acct 0 m) (acct 0 0%nat).
Proof. intros s (Haddr & Hparams). split; [simpl; lia|exact Hparams]. Qed.

Lemma add_param_account n param :
  triple (acct n 1%nat) (add_param param) (λ _, acct n 0%nat) (acct 0 0%nat).
Proof.
  intros s (Haddr & added & Hparams & Hcount). split; [exact Haddr|].
  exists (added ++ [param]). simpl. rewrite Hparams, <- app_assoc. split; [done|].
  rewrite length_app. simpl. lia.
Qed.

Lemma get_m_static_buf_idx_account n m :
  triple (acct n m) get_m_static_buf_idx (λ _, acct n m) (acct 0 0%nat).
Proof. intros s Hs. exact Hs. Qed.

Lemma get_m_reuse_buf_idx_account n m :
  triple (acct n m) get_m_reuse_buf_idx (λ _, acct n m) (acct 0 0%nat).
Proof. intros s Hs. exact Hs. Qed.

Lemma incr_m_static_buf_idx_account n m :
  triple (acct n m) incr_m_static_buf_idx (λ _, acct n m) (acct 0 0%nat).
Proof. intros s Hs. exact Hs. Qed.

Lemma incr_m_reuse_buf_idx_account n m :
  triple (acct n m) incr_m_reuse_buf_idx (λ _, acct n m) (acct 0 0%nat).
Proof. intros s Hs. exact Hs. Qed.

Local Ltac account_step :=
  first
    [ apply triple_ret
    | apply add_param_account
    | apply get_m_static_buf_idx_account
    | apply get_m_reuse_buf_idx_account
    | apply incr_m_static_buf_idx_account
    | apply incr_m_reuse_buf_idx_account
    | apply load_offset_account
    | apply load_account; discriminate
    | apply skip_account ].

Local Ltac account_seq := eapply triple_bind; [account_step|intros ?].

Lemma static_ro_entries_account sub_sec_iter sub_desc_load n :
  triple (acct 0 0%nat) (static_ro_entries mem lb ub sub_sec_iter sub_desc_load n)
    (λ _, acct 0 0%nat) (acct 0 0%nat).
Proof. induction n as [|n IH]; simpl; [account_step|]. do 4 account_seq. exact IH. Qed.

Lemma reuse_ro_entries_account sub_sec_iter sub_desc_load n :
  triple (acct 0 0%nat) (reuse_ro_entries mem lb ub sub_sec_iter sub_desc_load n)
    (λ _, acct 0 0%nat) (acct 0 0%nat).
Proof. induction n as [|n IH]; simpl; [account_step|]. do 4 account_seq. exact IH. Qed.

Lemma static_sub_sections_account n sub_sec_iter :
  triple (acct 0 0%nat) (static_sub_sections L mem lb ub n sub_sec_iter)
    (λ _, acct 0 0%nat) (acct 0 0%nat).
Proof.
  revert sub_sec_iter. induction n as [|n IH]; intros sub_sec_iter; simpl; [account_step|].
  do 2 account_seq.
  eapply triple_bind; [apply static_ro_entries_account|intros ?]. apply IH.
Qed.

Lemma reuse_sub_sections_account n sub_sec_iter :
  triple (acct 0 0%nat) (reuse_sub_sections L mem lb ub n sub_sec_iter)
    (λ _, acct 0 0%nat) (acct 0 0%nat).
Proof.
  revert sub_sec_iter. induction n as [|n IH]; intros sub_sec_iter; simpl; [account_step|].
  do 2 account_seq.
  eapply triple_bind; [apply reuse_ro_entries_account|intros ?]. apply IH.
Qed.

Lemma static_sections_account n :
  triple (acct 0 0%nat) (static_sections L mem lb ub n) (λ _, acct 0 0%nat) (acct 0 0%nat).
Proof.
  induction n as [|n IH]; simpl; [account_step|].
  do 2 account_seq.
  eapply triple_bind; [apply static_sub_sections_account|intros ?].
  account_seq. exact IH.
Qed.

Lemma reuse_sections_account n :
  triple (acct 0 0%nat) (reuse_sections L mem lb ub n) (λ _, acct 0 0%nat) (acct 0 0%nat).
Proof.
  induction n as [|n IH]; simpl; [account_step|].
  do 2 account_seq.
  eapply triple_bind; [apply reuse_sub_sections_account|intros ?].
  account_seq. exact IH.
Qed.

Lemma bss_walk_account n_static n_reuse :
  triple (acct 0 0%nat)
    (static_sections L mem lb ub n_static;; reuse_sections L mem lb ub n_reuse)
    (λ _, acct 0 0%nat) (acct 0 0%nat).
Proof.
  eapply triple_bind; [apply static_sections_account|intros ?].
  apply reuse_sections_account.
Qed.
End WalkAccount.

(** The walk reads the BSS front to back without a gap: whenever
    [parse_bss_section] gets past the header test, its cursor stands at
    the end of the header plus the sizes of all descriptors and offsets
    read; and it queues one relocation entry per offset read, behind the
    entries the graph already had. *)
Theorem parse_bss_section_accounting L mem bss size s :
  BssWalk.loads s = [] →
  let r := parse_bss_section L mem bss size s in
  (∃ added,
     BssWalk.param_map r.2 = BssWalk.param_map s ++ added ∧
     length added = relocation_loads (BssWalk.loads r.2)) ∧
  (¬ bss_header_invalid (as_BSSHeader L (read_bytes mem bss (sizeof_BSSHeader L))) →
     BssWalk.desc_load_addr r.2
     = bss + sizeof_BSSHeader L + loaded_bytes (BssWalk.loads r.2)).
Proof.
  intros Hloads. unfold parse_bss_section. rewrite Hloads.
  set (h := as_BSSHeader L (read_bytes mem bss (sizeof_BSSHeader L))).
  set (ub := if 0 =? size then _ else _).
  destruct (_ || _) eqn:Htest.
  - simpl. split; [exists []; by rewrite app_nil_r|].
    intros Hvalid. exfalso. apply Hvalid. unfold bss_header_invalid.
    apply orb_true_iff in Htest as [Htest|Htest]; [apply orb_true_iff in Htest as [Htest|Htest]|];
      apply Z.eqb_eq in Htest; tauto.
  - set (s1 := BssWalk.set_desc_load_addr _ _).
    assert (Hacct : walk_account (bss + sizeof_BSSHeader L) (BssWalk.param_map s) 0 0 s1).
    { split; [simpl; lia|]. exists []. by rewrite app_nil_r. }
    pose proof (bss_walk_account L mem bss ub (bss + sizeof_BSSHeader L) (BssWalk.param_map s)
                  (Z.to_nat (BSSHeader.static_section_desc_cnt h))
                  (Z.to_nat (BSSHeader.reuse_section_desc_cnt h)) s1 Hacct) as Hwalk.
    cbv zeta.
    match type of Hwalk with
    | match ?r with _ => _ end => destruct r as [[[]|] s']
    end; simpl;
      destruct Hwalk as (Haddr & added & Hparams & Hcount);
      (split; [exists added; split; [done|lia]|intros _; lia]).
Qed.

Lemma parse_bss_section_accounting_witness :
  let r := parse_bss_section example_bss_layout example_bss_mem example_bss_addr 116
             example_walk_start in
  length (BssWalk.param_map r.2) = 3%nat ∧
  BssWalk.desc_load_addr r.2 = example_bss_addr + 16 + 116.
Proof.
  destruct (parse_bss_section_accounting example_bss_layout example_bss_mem
              example_bss_addr 116 example_walk_start eq_refl)
    as ((added & Hparams & Hcount) & Haddr).
  split.
  - rewrite Hparams. simpl. rewrite Hcount. vm_compute. reflexivity.
  - rewrite Haddr; [vm_compute; reflexivity|].
    unfold bss_header_invalid. vm_compute. intros [H|[H|H]]; discriminate H.
Defined.

(** ** The binary reader: failures and agreement of its two checks *)

(** [parse_graph_header_top] fails with INVALID_GBIN on a stream shorter
    than the header and with UNKNOWN_BIN when the header does not start
    with the magic and its NUL; whenever it fails the graph object is left
    as it was. *)
Theorem parse_graph_header_top_failures c gbin gobj :
  Forall (λ ch, ch ≠ 0) (MAGIC c) →
  ((length gbin < BIN_HDR_TOP_SIZE)%nat →
     parse_graph_header_top c gbin gobj = (AIPU_STATUS_ERROR_INVALID_GBIN, gobj)) ∧
  ((BIN_HDR_TOP_SIZE ≤ length gbin)%nat →
   take (length (c_str (MAGIC c))) (take BIN_HDR_TOP_SIZE gbin) ≠ c_str (MAGIC c) →
     parse_graph_header_top c gbin gobj = (AIPU_STATUS_ERROR_UNKNOWN_BIN, gobj)) ∧
  ((parse_graph_header_top c gbin gobj).1 ≠ AIPU_STATUS_SUCCESS →
     (parse_graph_header_top c gbin gobj).2 = gobj).
Proof.
  intros Hmagic. unfold parse_graph_header_top. split_and!.
  - intros Hlen. destruct (decide _) as [|Heq]; [done|].
    exfalso. apply Heq. rewrite length_take. lia.
  - intros Hlen Hne. destruct (decide _) as [Heq|_].
    { exfalso. apply Heq. rewrite length_take. lia. }
    destruct (Z.eqb_spec (strcmp (take BIN_HDR_TOP_SIZE gbin) (c_str (MAGIC c))) 0) as [Hz|_];
      [|done].
    exfalso. apply Hne. by apply strcmp_zero_iff.
  - destruct (decide _); [done|]. destruct (negb _); [done|].
    destruct (_ && _); [done|]. simpl. done.
Qed.

Lemma parse_graph_header_top_failures_witness :
  let gobj := GraphHeader.mk 1 2 3 4 5 6 7 8 9 in
  parse_graph_header_top example_bin_consts (take 20 example_header_v5) gobj
  = (AIPU_STATUS_ERROR_INVALID_GBIN, gobj) ∧
  parse_graph_header_top example_bin_consts example_header_long_magic gobj
  = (AIPU_STATUS_ERROR_UNKNOWN_BIN, gobj).
Proof.
  intros gobj.
  assert (Hmagic : Forall (λ ch, ch ≠ 0) (MAGIC example_bin_consts)).
  { simpl. repeat constructor; lia. }
  split.
  - apply (parse_graph_header_top_failures example_bin_consts _ gobj Hmagic).
    unfold BIN_HDR_TOP_SIZE. simpl. lia.
  - apply (parse_graph_header_top_failures example_bin_consts _ gobj Hmagic).
    + unfold BIN_HDR_TOP_SIZE. simpl. lia.
    + simpl. discriminate.
Defined.

(** The two checks of the reader agree on the text format: a stream whose
    top header [parse_graph_header_top] accepts is one that
    [get_graph_bin_version] identifies as V0005 (so no stream identified
    as ELF passes the header check). *)
Theorem parse_graph_header_top_accepts_v0005 c gbin gobj :
  Forall (λ ch, ch ≠ 0) (MAGIC c) →
  (parse_graph_header_top c gbin gobj).1 = AIPU_STATUS_SUCCESS →
  get_graph_bin_version c gbin = AIPU_LOADABLE_GRAPH_V0005 c.
Proof.
  intros Hmagic. unfold parse_graph_header_top, get_graph_bin_version.
  destruct (decide (length (take BIN_HDR_TOP_SIZE gbin) ≠ _)) as [|Hlen]; [done|].
  apply dec_stable in Hlen. rewrite length_take in Hlen. unfold BIN_HDR_TOP_SIZE in Hlen.
  destruct (Z.eqb_spec (strcmp (take BIN_HDR_TOP_SIZE gbin) (c_str (MAGIC c))) 0) as [Hz|_];
    [|done].
  intros _. apply strcmp_zero_iff in Hz; [|done].
  destruct (decide (length (take 16 gbin) ≠ _)) as [Hne|Hlen16].
  { exfalso. apply Hne. rewrite length_take. lia. }
  apply dec_stable in Hlen16.
  assert (Hbegin : strncmp (take 16 gbin) (c_str (MAGIC c)) 8 = 0).
  { apply strncmp_zero_iff; [done|lia|]. unfold begins_with.
    rewrite <- Hz at 2. rewrite !take_take. unfold BIN_HDR_TOP_SIZE. f_equal. lia. }
  by rewrite Hbegin.
Qed.

Lemma parse_graph_header_top_accepts_v0005_witness :
  get_graph_bin_version example_bin_consts example_header_v5 = 5.
Proof.
  apply (parse_graph_header_top_accepts_v0005 example_bin_consts example_header_v5
           (GraphHeader.mk 0 0 0 0 0 0 0 0 0)).
  - simpl. repeat constructor; lia.
  - vm_compute. reflexivity.
Defined.

(** ** The BSS table of the graph *)

Lemma in_range_spec bss_id (m_bss_vec : list BSS.t) :
  0 ≤ bss_id → Z.of_nat (length m_bss_vec) < 2^32 →
  BssVec.in_range bss_id m_bss_vec = true ↔ (Z.to_nat bss_id < length m_bss_vec)%nat.
Proof.
  intros Hid Hlen. unfold BssVec.in_range, u32. rewrite Z.mod_small by lia.
  rewrite Z.ltb_lt. lia.
Qed.

(** The sizes of a BSS are those of the first [set_const_size]: with 4096
    in place of a zero constant size, and unchanged by any later call. *)
Theorem set_const_size_first_call_wins bss_id c z m_bss_vec b :
  0 ≤ bss_id → Z.of_nat (length m_bss_vec) < 2^32 →
  m_bss_vec !! Z.to_nat bss_id = Some b → BSS.const_info b = [] →
  let vec1 := BssVec.set_const_size bss_id c z m_bss_vec in
  BssVec.get_const_size bss_id vec1 = Some (if c =? 0 then 4096 else c) ∧
  BssVec.get_zerocpy_const_size bss_id vec1 = Some z ∧
  ∀ c' z',
    BssVec.get_const_size bss_id (BssVec.set_const_size bss_id c' z' vec1)
    = BssVec.get_const_size bss_id vec1 ∧
    BssVec.get_zerocpy_const_size bss_id (BssVec.set_const_size bss_id c' z' vec1)
    = BssVec.get_zerocpy_const_size bss_id vec1.
Proof.
  intros Hid Hlen Hb Hinfo vec1.
  assert (Hin : BssVec.in_range bss_id m_bss_vec = true).
  { apply in_range_spec; [done..|]. by eapply lookup_lt_Some. }
  assert (Hguard : ∀ f v, length v = length m_bss_vec →
            BssVec.guarded bss_id f v = alter f (Z.to_nat bss_id) v).
  { intros f v Hv. unfold BssVec.guarded, BssVec.in_range in *. by rewrite Hv, Hin. }
  assert (Hget : ∀ v, length v = length m_bss_vec → BssVec.in_range bss_id v = true).
  { intros v Hv. unfold BssVec.in_range in *. by rewrite Hv. }
  unfold vec1, BssVec.set_const_size, BssVec.get_const_size, BssVec.get_zerocpy_const_size.
  rewrite (Hguard _ m_bss_vec eq_refl).
  split_and!; [| |intros c' z'; rewrite !(Hguard _ (alter _ _ m_bss_vec)) by apply length_alter;
                  split];
    rewrite !Hget by (by rewrite ?length_alter);
    rewrite !list_lookup_alter_eq, Hb; simpl; rewrite Hinfo; done.
Qed.

Lemma set_const_size_first_call_wins_witness :
  let vec1 := BssVec.set_const_size 1 0 512 [empty_bss 0; empty_bss 1] in
  BssVec.get_const_size 1 vec1 = Some 4096 ∧
  BssVec.get_const_size 1 (BssVec.set_const_size 1 100 200 vec1) = Some 4096.
Proof.
  destruct (set_const_size_first_call_wins 1 0 512 [empty_bss 0; empty_bss 1] (empty_bss 1))
    as (H1 & _ & H2).
  - lia.
  - simpl. lia.
  - reflexivity.
  - reflexivity.
  - split; [exact H1|]. destruct (H2 100 200) as [-> _]. exact H1.
Defined.

(** One [add_reuse_section] on a table that has a BSS 0: the section is
    appended to BSS 0 and to the BSS named, once each. *)
Lemma add_reuse_section_step bss_id section (m_bss_vec : list BSS.t) b0 :
  m_bss_vec !! 0%nat = Some b0 → 0 ≤ bss_id → Z.of_nat (length m_bss_vec) < 2^32 →
  ∃ vec1,
    BssVec.add_reuse_section bss_id section m_bss_vec = Some vec1 ∧
    length vec1 = length m_bss_vec ∧
    ∀ (k : nat) b, m_bss_vec !! k = Some b →
      vec1 !! k
      = Some (if decide (k = 0%nat ∨ bss_id = Z.of_nat k)
              then BSS.set_reuse_sections (BSS.reuse_sections b ++ [section]) b
              else b).
Proof.
  intros H0 Hid Hlen. unfold BssVec.add_reuse_section.
  set (push := λ b, BSS.set_reuse_sections (BSS.reuse_sections b ++ [section]) b).
  assert (Hg : ∀ (k : nat) b, m_bss_vec !! k = Some b →
             BssVec.guarded bss_id push m_bss_vec !! k
             = Some (if decide (bss_id = Z.of_nat k) then push b else b)).
  { intros k b Hk. unfold BssVec.guarded.
    destruct (BssVec.in_range bss_id m_bss_vec) eqn:Hin.
    - destruct (decide (bss_id = Z.of_nat k)) as [->|Hne].
      + rewrite Nat2Z.id, list_lookup_alter_eq, Hk. done.
      + rewrite list_lookup_alter_ne by lia. done.
    - destruct (decide (bss_id = Z.of_nat k)) as [->|Hne]; [|done].
      exfalso. apply not_true_iff_false in Hin. apply Hin.
      apply in_range_spec; [done..|]. rewrite Nat2Z.id. by eapply lookup_lt_Some. }
  assert (Hgl : length (BssVec.guarded bss_id push m_bss_vec) = length m_bss_vec).
  { unfold BssVec.guarded. destruct (BssVec.in_range _ _); [apply length_alter|done]. }
  destruct (Z.eqb_spec bss_id 0) as [->|Hne].
  - eexists. split; [done|]. split; [done|]. intros k b Hk. rewrite (Hg k b Hk).
    repeat case_decide; try done; exfalso; lia.
  - destruct (BssVec.guarded bss_id push m_bss_vec) as [|g0 rest] eqn:Hvec.
    { exfalso. apply lookup_lt_Some in H0. simpl in Hgl. lia. }
    rewrite <- Hvec in *. clear Hvec.
    exists (alter push 0%nat (BssVec.guarded bss_id push m_bss_vec)).
    split; [done|]. split; [by rewrite length_alter|].
    intros k b Hk. destruct k as [|k].
    + rewrite list_lookup_alter_eq, (Hg 0%nat b Hk).
      repeat case_decide; try done; exfalso; lia.
    + rewrite list_lookup_alter_ne by lia. rewrite (Hg (S k) b Hk).
      repeat case_decide; try done; exfalso; lia.
Qed.

(** BSS 0 collects the reuse sections of every BSS: after any run of
    [add_reuse_section] calls on a table that has a BSS 0, BSS 0 holds
    every section added, in call order, and any other BSS those added
    under its own id.  On an empty table a call for a non-zero id is
    undefined (it indexes BSS 0). *)
Theorem add_reuse_sections_collect calls :
  (∀ (m_bss_vec : list BSS.t) b0,
     m_bss_vec !! 0%nat = Some b0 → Forall (λ call, 0 ≤ call.1) calls →
     Z.of_nat (length m_bss_vec) < 2^32 →
     ∃ vec',
       add_reuse_sections calls m_bss_vec = Some vec' ∧
       length vec' = length m_bss_vec ∧
       ∀ (k : nat) b, m_bss_vec !! k = Some b →
         ∃ b', vec' !! k = Some b' ∧
           BSS.reuse_sections b'
           = BSS.reuse_sections b
             ++ (snd <$> filter (λ call, k = 0%nat ∨ call.1 = Z.of_nat k) calls)) ∧
  (∀ bss_id section, bss_id ≠ 0 → BssVec.add_reuse_section bss_id section [] = None).
Proof.
  split.
  - induction calls as [|[bss_id section] calls IH]; intros m_bss_vec b0 H0 Hids Hlen.
    + exists m_bss_vec. split; [done|]. split; [done|]. intros k b Hk.
      exists b. split; [done|]. simpl. by rewrite app_nil_r.
    + apply Forall_cons in Hids as [Hid Hids]. simpl in Hid.
      destruct (add_reuse_section_step bss_id section m_bss_vec b0 H0 Hid Hlen)
        as (vec1 & Hstep & Hlen1 & Hvec1).
      unfold add_reuse_sections. simpl. rewrite Hstep.
      destruct (IH vec1 _ (Hvec1 0%nat b0 H0) Hids ltac:(lia)) as (vec' & Hrun & Hlen' & Hvec').
      exists vec'. split; [exact Hrun|]. split; [lia|].
      intros k b Hk. destruct (Hvec' k _ (Hvec1 k b Hk)) as (b' & Hb' & Hsec).
      exists b'. split; [done|]. rewrite Hsec.
      destruct (decide (k = 0%nat ∨ bss_id = Z.of_nat k)) as [Hyes|Hno].
      * rewrite filter_cons_True by done. simpl. by rewrite <- app_assoc.
      * rewrite filter_cons_False by done. done.
  - intros bss_id section Hne. unfold BssVec.add_reuse_section.
    destruct (Z.eqb_spec bss_id 0); [done|]. unfold BssVec.guarded.
    by destruct (BssVec.in_range _ _).
Qed.

Lemma add_reuse_sections_collect_witness :
  ∃ vec' b0 b1,
    add_reuse_sections [(1, section_of_size 10); (0, section_of_size 20);
                        (1, section_of_size 30)] [empty_bss 0; empty_bss 1] = Some vec' ∧
    vec' !! 0%nat = Some b0 ∧ vec' !! 1%nat = Some b1 ∧
    GraphSectionDesc.size <$> BSS.reuse_sections b0 = [10; 20; 30] ∧
    GraphSectionDesc.size <$> BSS.reuse_sections b1 = [10; 30].
Proof.
  destruct (add_reuse_sections_collect
              [(1, section_of_size 10); (0, section_of_size 20); (1, section_of_size 30)])
    as [H _].
  destruct (H [empty_bss 0; empty_bss 1] (empty_bss 0) eq_refl) as (vec' & Hrun & _ & Hvec').
  - repeat (apply Forall_cons; split; [simpl; lia|]). apply Forall_nil_2.
  - simpl. lia.
  - destruct (Hvec' 0%nat (empty_bss 0) eq_refl) as (b0 & Hb0 & Hs0).
    destruct (Hvec' 1%nat (empty_bss 1) eq_refl) as (b1 & Hb1 & Hs1).
    exists vec', b0, b1. split; [exact Hrun|]. split; [exact Hb0|]. split; [exact Hb1|].
    rewrite Hs0, Hs1. split; reflexivity.
Defined.

(** ** [get_start_group_id]: the first clear bit decides *)

Lemma get_start_group_id_loop_skip_run MAX_GROUP_ID (k : nat) :
  ∀ (m : nat) j group_cnt start bitmap,
    0 ≤ j →
    (∀ t : nat, (t < k)%nat → bitmap !! (Z.to_nat j + t)%nat = Some true) →
    SimulatorV3_1.get_start_group_id_loop MAX_GROUP_ID (k + m) j group_cnt start bitmap
    = SimulatorV3_1.get_start_group_id_loop MAX_GROUP_ID m (j + Z.of_nat k) group_cnt
        start bitmap.
Proof.
  induction k as [|k IH]; intros m j group_cnt start bitmap Hj Hset.
  - simpl. by rewrite Z.add_0_r.
  - change (S k + m)%nat with (S (k + m)).
    rewrite get_start_group_id_loop_skip.
    + rewrite IH; [f_equal; lia|lia|].
      intros t Ht. replace (Z.to_nat (j + 1) + t)%nat with (Z.to_nat j + S t)%nat by lia.
      apply Hset. lia.
    + specialize (Hset 0%nat ltac:(lia)). by rewrite Nat.add_0_r in Hset.
Qed.

Lemma mark_run_lookup bitmap (j cnt k : nat) :
  (j + cnt ≤ length bitmap)%nat →
  SimulatorV3_1.mark_run bitmap j cnt !! k
  = if decide (j ≤ k < j + cnt)%nat then Some true else bitmap !! k.
Proof.
  revert bitmap j. induction cnt as [|cnt IH]; intros bitmap j Hlen; simpl.
  - case_decide; [lia|done].
  - rewrite IH by (rewrite length_insert; lia).
    repeat case_decide; try done; try lia.
    + destruct (decide (k = j)) as [->|]; [|lia].
      apply list_lookup_insert_eq. lia.
    + apply list_lookup_insert_ne. lia.
Qed.

(** [get_start_group_id] looks no further than the first clear bit [i] of
    the bitmap.  If the run of [group_cnt] ids from [i] stays below
    [MAX_GROUP_ID], the call succeeds with [start_group_id = i] and sets
    exactly the bits of that run, whether or not some of them were set
    already; otherwise it fails with -1 and changes nothing, even when a
    later part of the bitmap has room. *)
Theorem get_start_group_id_first_clear_bit MAX_GROUP_ID group_cnt start d (i : nat) :
  1 ≤ group_cnt → MAX_GROUP_ID < 2^32 →
  length (SimulatorV3_1.m_group_id_bitmap d) = Z.to_nat MAX_GROUP_ID →
  (∀ k : nat, (k < i)%nat → SimulatorV3_1.m_group_id_bitmap d !! k = Some true) →
  SimulatorV3_1.m_group_id_bitmap d !! i = Some false →
  (Z.of_nat i + group_cnt < MAX_GROUP_ID →
     ∃ bitmap',
       SimulatorV3_1.get_start_group_id MAX_GROUP_ID group_cnt start d
       = Some (0, u16 (Z.of_nat i), SimulatorV3_1.set_m_group_id_bitmap bitmap' d) ∧
       ∀ k : nat,
         bitmap' !! k
         = if decide (i ≤ k < i + Z.to_nat group_cnt)%nat then Some true
           else SimulatorV3_1.m_group_id_bitmap d !! k) ∧
  (MAX_GROUP_ID ≤ Z.of_nat i + group_cnt → Z.of_nat i + group_cnt < 2^32 →
     SimulatorV3_1.get_start_group_id MAX_GROUP_ID group_cnt start d
     = Some (-1, start,
             SimulatorV3_1.set_m_group_id_bitmap (SimulatorV3_1.m_group_id_bitmap d) d)).
Proof.
  intros Hcnt Hmax Hlen Hset Hclear.
  assert (Hi : (i < Z.to_nat MAX_GROUP_ID)%nat).
  { rewrite <- Hlen. by eapply lookup_lt_Some. }
  unfold SimulatorV3_1.get_start_group_id.
  destruct (Z.eqb_spec group_cnt 0); [lia|].
  replace (Z.to_nat MAX_GROUP_ID) with (i + S (Z.to_nat MAX_GROUP_ID - i - 1))%nat by lia.
  rewrite get_start_group_id_loop_skip_run; [|lia|by intros t Ht; apply Hset].
  rewrite Z.add_0_l. split.
  - intros Hfit.
    rewrite get_start_group_id_loop_at_clear_bit;
      [|lia|lia|lia|lia|rewrite Hlen; lia|by rewrite Nat2Z.id].
    eexists. split; [reflexivity|]. intros k. rewrite Nat2Z.id.
    apply mark_run_lookup. rewrite Hlen. lia.
  - intros Hover Hfit.
    rewrite get_start_group_id_loop_exhausted;
      [done|lia|lia|lia|lia|by rewrite Nat2Z.id].
Qed.

Lemma get_start_group_id_first_clear_bit_witness :
  ∃ bitmap',
    SimulatorV3_1.get_start_group_id example_MAX_GROUP_ID 3 0
      (example_sim_with_bitmap example_bitmap_gap)
    = Some (0, 2, SimulatorV3_1.set_m_group_id_bitmap bitmap'
                    (example_sim_with_bitmap example_bitmap_gap)) ∧
    bitmap' !! 3%nat = Some true ∧ example_bitmap_gap !! 3%nat = Some true.
Proof.
  destruct (get_start_group_id_first_clear_bit example_MAX_GROUP_ID 3 0
              (example_sim_with_bitmap example_bitmap_gap) 2) as [H _].
  - lia.
  - unfold example_MAX_GROUP_ID. lia.
  - reflexivity.
  - intros [|[|k]] Hk; [reflexivity|reflexivity|lia].
  - reflexivity.
  - destruct H as (bitmap' & Hrun & Hbits).
    { unfold example_MAX_GROUP_ID. lia. }
    exists bitmap'. split; [exact Hrun|]. split; [|reflexivity].
    rewrite Hbits. reflexivity.
Defined.

(** With every id held the search finds no clear bit and falls out of its
    loop with [ret] still 0: the call reports success, hands out nothing
    and leaves [start_group_id] as the caller had it. *)
Theorem get_start_group_id_all_held MAX_GROUP_ID group_cnt start d :
  group_cnt ≠ 0 →
  SimulatorV3_1.m_group_id_bitmap d = replicate (Z.to_nat MAX_GROUP_ID) true →
  SimulatorV3_1.get_start_group_id MAX_GROUP_ID group_cnt start d
  = Some (0, start,
          SimulatorV3_1.set_m_group_id_bitmap (SimulatorV3_1.m_group_id_bitmap d) d).
Proof.
  intros Hcnt Hfull. unfold SimulatorV3_1.get_start_group_id.
  destruct (Z.eqb_spec group_cnt 0); [done|].
  replace (Z.to_nat MAX_GROUP_ID) with (Z.to_nat MAX_GROUP_ID + 0)%nat at 1 by lia.
  rewrite get_start_group_id_loop_skip_run; [done|lia|].
  intros t Ht. rewrite Hfull. simpl. by apply lookup_replicate_2.
Qed.

Lemma get_start_group_id_all_held_witness :
  SimulatorV3_1.get_start_group_id example_MAX_GROUP_ID 2 7
    (example_sim_with_bitmap (replicate 64 true))
  = Some (0, 7, example_sim_with_bitmap (replicate 64 true)).
Proof.
  apply (get_start_group_id_all_held example_MAX_GROUP_ID 2 7
           (example_sim_with_bitmap (replicate 64 true))).
  - lia.
  - reflexivity.
Defined.

(** ** [parse_config] *)

Lemma npu_arch_map_lookup c (name : string) :
  npu_arch_map c !! name
  = if decide (name = "X3_1304") then Some (arch_item_t.mk 1304 1 1 (X3_1304 c))
    else if decide (name = "X3_1304MP2") then Some (arch_item_t.mk 1304 2 1 (X3_1304MP2 c))
    else if decide (name = "X3_1304MP4") then Some (arch_item_t.mk 1304 4 1 (X3_1304MP4 c))
    else None.
Proof.
  unfold npu_arch_map.
  repeat case_decide; subst;
    repeat (first [rewrite lookup_insert_eq | rewrite lookup_insert_ne by done]); done.
Qed.

(** [parse_config] succeeds exactly when the architecture string is one
    of the three target names or the graph's configuration is 1304.  A
    target named by the string wins whatever the configuration is; without
    one, configuration 1304 selects X3_1304; otherwise the call fails with
    TARGET_NOT_FOUND and leaves [sim_code] alone. *)
Theorem parse_config_targets c m_arch_desc config sim_code :
  (∀ item, npu_arch_map c !! m_arch_desc = Some item →
     parse_config c m_arch_desc config sim_code
     = (status_of AIPU_STATUS_SUCCESS, arch_item_t.sim_code item)) ∧
  (m_arch_desc ∉ npu_arch_names → config = 1304 →
     parse_config c m_arch_desc config sim_code
     = (status_of AIPU_STATUS_SUCCESS, X3_1304 c)) ∧
  (m_arch_desc ∉ npu_arch_names → config ≠ 1304 →
     parse_config c m_arch_desc config sim_code
     = (AIPU_STATUS_ERROR_TARGET_NOT_FOUND, sim_code)) ∧
  (m_arch_desc ∈ npu_arch_names ↔ is_Some (npu_arch_map c !! m_arch_desc)).
Proof.
  assert (Hnames : m_arch_desc ∈ npu_arch_names ↔ is_Some (npu_arch_map c !! m_arch_desc)).
  { rewrite npu_arch_map_lookup. unfold npu_arch_names.
    rewrite !elem_of_cons, elem_of_nil.
    repeat case_decide; subst; split; intros Hx;
      first [by eexists | by destruct Hx | intuition congruence]. }
  split_and!; [| | |exact Hnames].
  - intros item Hitem. unfold parse_config.
    assert (Hne : String.eqb m_arch_desc "" = false).
    { apply String.eqb_neq. intros ->. rewrite npu_arch_map_lookup in Hitem.
      repeat case_decide; done. }
    rewrite Hne, bool_decide_eq_true_2 by (by eexists). simpl.
    unfold map_index. rewrite Hitem, Hitem.
    rewrite npu_arch_map_lookup in Hitem.
    repeat case_decide; try done; by injection Hitem as <-.
  - intros Hnot ->. unfold parse_config.
    rewrite (bool_decide_eq_false_2 (is_Some (npu_arch_map c !! m_arch_desc)))
      by (by rewrite <- Hnames).
    rewrite andb_false_r. simpl. unfold map_index. rewrite !npu_arch_map_lookup. done.
  - intros Hnot Hcfg. unfold parse_config.
    rewrite (bool_decide_eq_false_2 (is_Some (npu_arch_map c !! m_arch_desc)))
      by (by rewrite <- Hnames).
    rewrite andb_false_r. by destruct (Z.eqb_spec config 1304).
Qed.

(** ** The command pools of the simulator *)

Lemma land_bit_nonzero k r :
  0 ≤ k → negb (Z.land (Z.shiftl 1 k) r =? 0) = Z.testbit r k.
Proof.
  intros Hk. rewrite Z.shiftl_1_l.
  destruct (Z.testbit r k) eqn:Hbit.
  - apply negb_true_iff, Z.eqb_neq. intros Hz.
    assert (Z.testbit (Z.land (2 ^ k) r) k = true) as Ht.
    { by rewrite Z.land_spec, Z.pow2_bits_true, Hbit. }
    rewrite Hz, Z.bits_0 in Ht. done.
  - apply negb_false_iff, Z.eqb_eq. apply Z.bits_inj'. intros n Hn.
    rewrite Z.land_spec, Z.bits_0, Z.pow2_bits_eqb by done.
    destruct (Z.eqb_spec k n) as [->|]; [by rewrite Hbit|done].
Qed.

(** [is_cmdpool_full] reads one bit of the status word: bit [cluster_idx]
    for a slow job, [cluster_idx + 8] for any other QoS, and four bits
    higher for partition 1 in SCP mode. *)
Theorem is_cmdpool_full_reads_one_bit c qos part_id partition_mode cluster_idx reg_val :
  0 ≤ cluster_idx →
  SimulatorV3_1.is_cmdpool_full c qos part_id partition_mode cluster_idx reg_val
  = Z.testbit reg_val (cmdpool_full_bit c qos part_id partition_mode cluster_idx).
Proof.
  intros Hidx. unfold SimulatorV3_1.is_cmdpool_full, cmdpool_full_bit.
  destruct (qos =? _), (_ && _); rewrite land_bit_nonzero by lia; f_equal; lia.
Qed.

Lemma is_cmdpool_full_reads_one_bit_witness :
  SimulatorV3_1.is_cmdpool_full example_sim_consts 1 1 1 0 0x1000 = true ∧
  SimulatorV3_1.is_cmdpool_full example_sim_consts 0 1 1 0 0x1000 = false.
Proof.
  split.
  - rewrite (is_cmdpool_full_reads_one_bit example_sim_consts 1 1 1 0 0x1000) by lia.
    reflexivity.
  - rewrite (is_cmdpool_full_reads_one_bit example_sim_consts 0 1 1 0 0x1000) by lia.
    reflexivity.
Defined.

(** [fill_commit_queue] keeps the commit map within 16 grids, takes at
    most the head of the buffer queue, and commits that head under its own
    grid id; when it fails (no engine) nothing has changed. *)
Theorem fill_commit_queue_bounded c d :
  let r := SimulatorV3_1.fill_commit_queue c d in
  ((size (SimulatorV3_1.m_commit_map d) ≤ 16)%nat →
     (size (SimulatorV3_1.m_commit_map r.2) ≤ 16)%nat) ∧
  (SimulatorV3_1.m_buffer_queue r.2 = SimulatorV3_1.m_buffer_queue d ∧
   SimulatorV3_1.m_commit_map r.2 = SimulatorV3_1.m_commit_map d ∨
   ∃ head,
     SimulatorV3_1.m_buffer_queue d = head :: SimulatorV3_1.m_buffer_queue r.2 ∧
     SimulatorV3_1.m_commit_map r.2
     = <[u16 (JobDesc.grid_id head) := JobDesc.job_id head]> (SimulatorV3_1.m_commit_map d) ∧
     SimulatorV3_1.m_cant_add_job_flag r.2 = true) ∧
  (r.1 ≠ AIPU_STATUS_SUCCESS → r.2 = d).
Proof.
  unfold SimulatorV3_1.fill_commit_queue.
  destruct (Z.leb_spec 16 (Z.of_nat (size (SimulatorV3_1.m_commit_map d)))) as [|Hlt];
    [simpl; split_and!; [done|by left|done]|].
  destruct (SimulatorV3_1.m_buffer_queue d) as [|head queue] eqn:Hq;
    [simpl; split_and!; [done|by left|done]|].
  destruct (SimulatorV3_1.m_aipu d); simpl; [|split_and!; [done|by left|done]].
  destruct (SimulatorV3_1.is_cmdpool_full _ _ _ _ _ _); simpl;
    [split_and!; [done|by left|done]|].
  split_and!; [|right; by exists head|done].
  intros _. rewrite map_size_insert.
  destruct (SimulatorV3_1.m_commit_map d !! _); simpl; lia.
Qed.

(** ** [poll_status]: the drain of the reported grids *)

Lemma drain_done_grids_fold d :
  SimulatorV3_1.drain_done_grids d
  = foldr drain_grid d (elements (SimulatorV3_1.m_sim_done_grid_set d)).
Proof. reflexivity. Qed.

Lemma drain_grids_spec (l : list Z) d0 :
  NoDup l →
  let r := foldr drain_grid d0 l in
  (∀ g, SimulatorV3_1.m_commit_map r !! g
        = if decide (g ∈ l) then None else SimulatorV3_1.m_commit_map d0 !! g) ∧
  (∀ job, job ∈ SimulatorV3_1.m_done_set r ↔
          job ∈ SimulatorV3_1.m_done_set d0 ∨
          ∃ g, g ∈ l ∧ SimulatorV3_1.m_commit_map d0 !! g = Some job) ∧
  (∀ g, g ∈ SimulatorV3_1.m_sim_done_grid_set r ↔
        g ∈ SimulatorV3_1.m_sim_done_grid_set d0 ∧
        ¬ (g ∈ l ∧ is_Some (SimulatorV3_1.m_commit_map d0 !! g))) ∧
  SimulatorV3_1.m_buffer_queue r = SimulatorV3_1.m_buffer_queue d0.
Proof.
  induction l as [|a l IH]; intros Hnd; cbn [foldr].
  - split_and!; [|intros job|intros g|done].
    + intros g. case_decide as Hin; [by apply elem_of_nil in Hin|done].
    + split; [by left|]. intros [|(g & Hin & _)]; [done|by apply elem_of_nil in Hin].
    + split; [|tauto]. intros Hg. split; [done|]. intros [Hin _]. by apply elem_of_nil in Hin.
  - apply NoDup_cons in Hnd as [Hnotin Hnd].
    destruct (IH Hnd) as (Hmap & Hdone & Hrep & Hqueue).
    set (r' := foldr drain_grid d0 l) in *.
    assert (Ha : SimulatorV3_1.m_commit_map r' !! a = SimulatorV3_1.m_commit_map d0 !! a).
    { rewrite Hmap. by case_decide. }
    unfold drain_grid. rewrite Ha.
    destruct (SimulatorV3_1.m_commit_map d0 !! a) as [job_a|] eqn:Hcommit; simpl.
    + split_and!; [intros g|intros job|intros g|done].
      * destruct (decide (g = a)) as [->|Hne].
        -- rewrite lookup_delete_eq. case_decide as Hin; [done|].
           exfalso. apply Hin. by apply elem_of_cons; left.
        -- rewrite lookup_delete_ne by done. rewrite Hmap.
           repeat case_decide; try done.
           ++ exfalso. by apply H0, elem_of_cons; right.
           ++ exfalso. by apply elem_of_cons in H0 as [|].
      * rewrite elem_of_union, elem_of_singleton, Hdone. split.
        -- intros [->|[Hd|(g & Hin & Hg)]]; [right; exists a|by left|right; exists g].
           ++ split; [by apply elem_of_cons; left|done].
           ++ split; [by apply elem_of_cons; right|done].
        -- intros [Hd|(g & Hin & Hg)]; [by right; left|].
           apply elem_of_cons in Hin as [->|Hin]; [left; congruence|].
           right. right. by exists g.
      * rewrite elem_of_difference, elem_of_singleton, Hrep. split.
        -- intros [[Hg Hno] Hne]. split; [done|]. intros [Hin Hsome].
           apply elem_of_cons in Hin as [|Hin]; [done|]. by apply Hno.
        -- intros [Hg Hno]. split_and!; [done| |].
           ++ intros [Hin Hsome]. apply Hno. split; [by apply elem_of_cons; right|done].
           ++ intros ->. apply Hno. split; [by apply elem_of_cons; left|by eexists].
    + split_and!; [intros g|intros job|intros g|done].
      * rewrite Hmap. repeat case_decide; try done.
        -- exfalso. by apply H0, elem_of_cons; right.
        -- apply elem_of_cons in H0 as [->|]; [done|done].
      * rewrite Hdone. split.
        -- intros [Hd|(g & Hin & Hg)]; [by left|right; exists g].
           split; [by apply elem_of_cons; right|done].
        -- intros [Hd|(g & Hin & Hg)]; [by left|].
           apply elem_of_cons in Hin as [->|Hin]; [congruence|]. right. by exists g.
      * rewrite Hrep. split.
        -- intros [Hg Hno]. split; [done|]. intros [Hin Hsome].
           apply elem_of_cons in Hin as [->|Hin]; [|by apply Hno].
           rewrite Hcommit in Hsome. by destruct Hsome.
        -- intros [Hg Hno]. split; [done|]. intros [Hin Hsome].
           apply Hno. split; [by apply elem_of_cons; right|done].
Qed.

(** The drain of [poll_status] moves every grid that the engine reported
    and that is committed: its job enters the done set, the grid leaves
    the commit map and the report.  Grids not reported stay committed,
    reports for grids not committed stay, no job enters the done set
    otherwise, and the buffer queue is not touched. *)
Theorem drain_done_grids_moves_reported d :
  let r := SimulatorV3_1.drain_done_grids d in
  (∀ g job, g ∈ SimulatorV3_1.m_sim_done_grid_set d →
     SimulatorV3_1.m_commit_map d !! g = Some job →
     job ∈ SimulatorV3_1.m_done_set r ∧ SimulatorV3_1.m_commit_map r !! g = None ∧
     g ∉ SimulatorV3_1.m_sim_done_grid_set r) ∧
  (∀ g, g ∉ SimulatorV3_1.m_sim_done_grid_set d →
     SimulatorV3_1.m_commit_map r !! g = SimulatorV3_1.m_commit_map d !! g) ∧
  (∀ g, g ∈ SimulatorV3_1.m_sim_done_grid_set d →
     SimulatorV3_1.m_commit_map d !! g = None →
     g ∈ SimulatorV3_1.m_sim_done_grid_set r) ∧
  (∀ job, job ∈ SimulatorV3_1.m_done_set r ↔
     job ∈ SimulatorV3_1.m_done_set d ∨
     ∃ g, g ∈ SimulatorV3_1.m_sim_done_grid_set d ∧
          SimulatorV3_1.m_commit_map d !! g = Some job) ∧
  SimulatorV3_1.m_buffer_queue r = SimulatorV3_1.m_buffer_queue d.
Proof.
  intros r. unfold r. rewrite drain_done_grids_fold.
  destruct (drain_grids_spec (elements (SimulatorV3_1.m_sim_done_grid_set d)) d
              (NoDup_elements _)) as (Hmap & Hdone & Hrep & Hqueue).
  split_and!; [| | | |exact Hqueue].
  - intros g job Hg Hjob. split_and!.
    + apply Hdone. right. exists g. by rewrite elem_of_elements.
    + rewrite Hmap. case_decide as Hin; [done|].
      exfalso. apply Hin. by rewrite elem_of_elements.
    + rewrite Hrep. intros [_ Hno]. apply Hno. split; [by rewrite elem_of_elements|by eexists].
  - intros g Hg. rewrite Hmap. case_decide as Hin; [|done].
    exfalso. apply Hg. by rewrite <- elem_of_elements.
  - intros g Hg Hnone. apply Hrep. split; [done|]. intros [_ Hsome].
    rewrite Hnone in Hsome. by destruct Hsome.
  - intros job. rewrite Hdone. split; (intros [Hd|(g & Hin & Hg)]; [by left|right; exists g]);
      (split; [|done]); first [by apply elem_of_elements in Hin | by apply elem_of_elements].
Qed.

(** ** Scheduling and polling on the simulator *)

(** A job that is neither done nor committed, such as one queued behind
    a running job, is never reported by [poll_status]: every round of its
    loop leaves the back end as it is, so the call does not return,
    whatever the engine has completed meanwhile. *)
Theorem poll_status_waits_for_commit c fuel subgraph_cnt job_id grid_id status d :
  subgraph_cnt ≠ 0 →
  job_id ∉ SimulatorV3_1.m_done_set d →
  SimulatorV3_1.m_commit_map d !! u16 grid_id = None →
  SimulatorV3_1.poll_status c fuel subgraph_cnt job_id grid_id status d = None.
Proof.
  intros Hcnt Hdone Hcommit. unfold SimulatorV3_1.poll_status.
  destruct (Z.eqb_spec subgraph_cnt 0); [done|].
  assert (Hloop : SimulatorV3_1.poll_status_loop c fuel job_id (u16 grid_id) d = None).
  { induction fuel as [|fuel IH]; simpl; [done|].
    destruct (decide (job_id ∈ _)); [done|].
    unfold SimulatorV3_1.poll_status_round. by rewrite Hcommit. }
  by rewrite Hloop.
Qed.

Lemma poll_status_waits_for_commit_witness :
  SimulatorV3_1.m_buffer_queue example_sim_two_jobs
  = [JobDesc.mk 2 1 0 0 0 16 0x20000 0x20780] ∧
  SimulatorV3_1.poll_status example_sim_consts 100 3 2 1 AIPU_JOB_STATUS_SCHED
    example_sim_two_jobs = None.
Proof.
  split; [vm_compute; reflexivity|].
  apply (poll_status_waits_for_commit example_sim_consts 100 3 2 1 AIPU_JOB_STATUS_SCHED
           example_sim_two_jobs).
  - lia.
  - vm_compute. set_solver.
  - vm_compute. reflexivity.
Defined.

Local Ltac sim_reduce :=
  cbv beta iota zeta delta
    [SimulatorV3_1.log SimulatorV3_1.set_trace SimulatorV3_1.set_m_grid_id
     SimulatorV3_1.set_m_group_id_bitmap SimulatorV3_1.set_m_cant_add_job_flag
     SimulatorV3_1.set_m_buffer_queue SimulatorV3_1.set_m_commit_map
     SimulatorV3_1.set_m_done_set SimulatorV3_1.set_m_sim_done_grid_set
     SimulatorV3_1.set_simv3_1_has_grid_done SimulatorV3_1.set_completions
     SimulatorV3_1.m_aipu SimulatorV3_1.core_cnt SimulatorV3_1.m_grid_id
     SimulatorV3_1.m_group_id_bitmap SimulatorV3_1.m_partition_mode
     SimulatorV3_1.m_cant_add_job_flag SimulatorV3_1.m_buffer_queue
     SimulatorV3_1.m_commit_map SimulatorV3_1.m_done_set
     SimulatorV3_1.m_sim_done_grid_set SimulatorV3_1.simv3_1_has_grid_done
     SimulatorV3_1.completions SimulatorV3_1.tsm_status SimulatorV3_1.trace
     negb app];
  cbn [JobDesc.job_id JobDesc.grid_id JobDesc.part_id JobDesc.qos JobDesc.bind_cmdpool_id
       JobDesc.tcb_number JobDesc.tcb_head JobDesc.tcb_tail].

(** On an idle back end whose pool has room, a job that is scheduled is
    committed at once under its grid id; when the engine then reports
    that grid, [poll_status] returns with the job DONE and the back end
    idle again, ready to commit the next job. *)
Theorem schedule_then_poll_completes c desc d subgraph_cnt status fuel rest :
  sim_idle d →
  SimulatorV3_1.completions d = JobDesc.grid_id desc :: rest →
  SimulatorV3_1.is_cmdpool_full c (JobDesc.qos desc)
    (cmdpool_part_id c (JobDesc.part_id desc)) (SimulatorV3_1.m_partition_mode d) 0
    (SimulatorV3_1.tsm_status d) = false →
  subgraph_cnt ≠ 0 → (2 ≤ fuel)%nat →
  ∃ bind d1 d2,
    SimulatorV3_1.schedule c desc d = (AIPU_STATUS_SUCCESS, bind, d1) ∧
    SimulatorV3_1.m_commit_map d1 = {[u16 (JobDesc.grid_id desc) := JobDesc.job_id desc]} ∧
    SimulatorV3_1.m_cant_add_job_flag d1 = true ∧
    SimulatorV3_1.poll_status c fuel subgraph_cnt (JobDesc.job_id desc)
      (JobDesc.grid_id desc) status d1
    = Some (AIPU_LL_STATUS_SUCCESS, AIPU_JOB_STATUS_DONE, d2) ∧
    sim_idle d2 ∧ SimulatorV3_1.completions d2 = rest.
Proof.
  intros (Haipu & Hflag & Hqueue & Hcommit & Hdone & Hrep & Hwake) Hcompl Hroom Hcnt Hfuel.
  destruct d as [aipu cores grid bitmap mode flag queue commit done rep wake compl tsm trace].
  simpl in *. subst. unfold cmdpool_part_id in Hroom.
  eexists _, (SimulatorV3_1.mk true cores grid bitmap mode true [] _ ∅ ∅ false _ tsm _), _.
  split.
  { unfold SimulatorV3_1.schedule. sim_reduce. rewrite Hroom. sim_reduce. reflexivity. }
  split; [reflexivity|]. split; [reflexivity|].
  destruct fuel as [|[|fuel]]; [lia|lia|].
  unfold SimulatorV3_1.poll_status.
  destruct (Z.eqb_spec subgraph_cnt 0); [done|].
  cbn [SimulatorV3_1.poll_status_loop]. sim_reduce.
  destruct (decide (JobDesc.job_id desc ∈ (∅ : gset Z))) as [Hin|_]; [set_solver|].
  unfold SimulatorV3_1.poll_status_round. sim_reduce.
  rewrite lookup_insert_eq.
  destruct (decide (u16 (JobDesc.grid_id desc) ∈ (∅ : gset Z))) as [Hin|_]; [set_solver|].
  unfold SimulatorV3_1.wait_some_grid_done, SimulatorV3_1.sim_cb_handler. sim_reduce.
  cbn [option_map].
  unfold SimulatorV3_1.drain_done_grids. sim_reduce.
  rewrite (right_id_L ∅ (∪)), elements_singleton. cbn [foldr]. sim_reduce.
  rewrite lookup_insert_eq. sim_reduce.
  destruct (decide (@nil JobDesc.t = [])) as [_|]; [|done].
  destruct (decide (JobDesc.job_id desc ∈ ({[JobDesc.job_id desc]} ∪ ∅ : gset Z)))
    as [_|Hout]; [|exfalso; apply Hout; set_solver].
  split; [reflexivity|]. unfold sim_idle. sim_reduce. split_and!; try done.
  - by rewrite delete_insert_eq, delete_empty.
  - by rewrite (right_id_L ∅ (∪)), difference_diag_L.
  - by rewrite difference_diag_L.
Qed.

Lemma schedule_then_poll_completes_witness :
  ∃ bind d1 d2,
    SimulatorV3_1.schedule example_sim_consts example_desc_a example_sim_running
    = (AIPU_STATUS_SUCCESS, bind, d1) ∧
    SimulatorV3_1.poll_status example_sim_consts 2 3 1 0 AIPU_JOB_STATUS_SCHED d1
    = Some (AIPU_LL_STATUS_SUCCESS, AIPU_JOB_STATUS_DONE, d2) ∧
    sim_idle d2.
Proof.
  destruct (schedule_then_poll_completes example_sim_consts example_desc_a
              example_sim_running 3 AIPU_JOB_STATUS_SCHED 2 [])
    as (bind & d1 & d2 & H1 & _ & _ & H2 & H3 & _).
  - unfold sim_idle. simpl. done.
  - reflexivity.
  - reflexivity.
  - lia.
  - lia.
  - exists bind, d1, d2. done.
Defined.

(** What [schedule] commits is the head of the buffer queue, not the job
    it was called for: when the queue already holds a job and the commit
    flag is down, that older job is the one written to the scheduler
    registers, yet it is entered in the commit map under the grid id of
    the new job, which itself goes to the back of the queue. *)
Theorem schedule_commits_queue_head c desc d head queue :
  SimulatorV3_1.m_aipu d = true →
  SimulatorV3_1.m_cant_add_job_flag d = false →
  SimulatorV3_1.m_buffer_queue d = head :: queue →
  SimulatorV3_1.is_cmdpool_full c (JobDesc.qos desc)
    (cmdpool_part_id c (JobDesc.part_id desc)) (SimulatorV3_1.m_partition_mode d) 0
    (SimulatorV3_1.tsm_status d) = false →
  let r := SimulatorV3_1.schedule c desc d in
  r.1.1 = AIPU_STATUS_SUCCESS ∧
  SimulatorV3_1.m_commit_map r.2
  = <[u16 (JobDesc.grid_id desc) := JobDesc.job_id head]> (SimulatorV3_1.m_commit_map d) ∧
  (∃ queued, SimulatorV3_1.m_buffer_queue r.2 = queue ++ [queued] ∧
             JobDesc.job_id queued = JobDesc.job_id desc) ∧
  write_register TSM_CMD_SCHED_ADDR_LO (get_low_32 (JobDesc.tcb_head head))
  ∈ SimulatorV3_1.trace r.2 ∧
  write_register TSM_CMD_TCB_NUMBER (JobDesc.tcb_number head) ∈ SimulatorV3_1.trace r.2.
Proof.
  intros Haipu Hflag Hqueue Hroom.
  destruct d as [aipu cores grid bitmap mode flag queue0 commit done rep wake compl tsm trace].
  simpl in *. subst. unfold cmdpool_part_id in Hroom.
  unfold SimulatorV3_1.schedule. sim_reduce. rewrite Hroom. sim_reduce.
  split_and!; [done|done|by eexists| |].
  - do 2 (apply elem_of_cons; right). apply elem_of_cons; right. by apply elem_of_cons; left.
  - do 2 (apply elem_of_cons; right). by apply elem_of_cons; left.
Qed.

Lemma schedule_commits_queue_head_witness :
  let d := SimulatorV3_1.set_m_buffer_queue [example_desc_a] example_sim in
  SimulatorV3_1.m_commit_map (SimulatorV3_1.schedule example_sim_consts example_desc_b d).2
  = {[ 1 := 1 ]}.
Proof.
  intros d.
  destruct (schedule_commits_queue_head example_sim_consts example_desc_b d
              example_desc_a []) as (_ & H & _); [reflexivity..|].
  rewrite H. reflexivity.
Defined.

(** Jobs polled in the order they were scheduled hand the engine on: when
    the engine reports the grid of the running job while another job
    waits in the buffer queue and the pool has room, [poll_status] on the
    running job returns with it DONE and has committed the waiting job,
    under that job's own grid id, and written its TCB chain to the
    scheduler registers. *)
Theorem poll_status_commits_next_job c d subgraph_cnt status fuel job_id grid_id
    next queue rest :
  SimulatorV3_1.m_aipu d = true →
  SimulatorV3_1.m_commit_map d = {[u16 grid_id := job_id]} →
  SimulatorV3_1.m_done_set d = ∅ →
  SimulatorV3_1.m_sim_done_grid_set d = ∅ →
  SimulatorV3_1.simv3_1_has_grid_done d = false →
  SimulatorV3_1.m_buffer_queue d = next :: queue →
  SimulatorV3_1.completions d = grid_id :: rest →
  SimulatorV3_1.is_cmdpool_full c (JobDesc.qos next)
    (cmdpool_part_id c (JobDesc.part_id next)) (SimulatorV3_1.m_partition_mode d) 0
    (SimulatorV3_1.tsm_status d) = false →
  subgraph_cnt ≠ 0 → (2 ≤ fuel)%nat →
  ∃ d2,
    SimulatorV3_1.poll_status c fuel subgraph_cnt job_id grid_id status d
    = Some (AIPU_LL_STATUS_SUCCESS, AIPU_JOB_STATUS_DONE, d2) ∧
    SimulatorV3_1.m_commit_map d2 = {[u16 (JobDesc.grid_id next) := JobDesc.job_id next]} ∧
    SimulatorV3_1.m_buffer_queue d2 = queue ∧
    SimulatorV3_1.m_cant_add_job_flag d2 = true ∧
    SimulatorV3_1.m_done_set d2 = ∅ ∧
    SimulatorV3_1.completions d2 = rest ∧
    write_register TSM_CMD_SCHED_ADDR_LO (get_low_32 (JobDesc.tcb_head next))
    ∈ SimulatorV3_1.trace d2.
Proof.
  intros Haipu Hcommit Hdone Hrep Hwake Hqueue Hcompl Hroom Hcnt Hfuel.
  destruct d as [aipu cores grid bitmap mode flag queue0 commit done rep wake compl tsm trace].
  simpl in *. subst. unfold cmdpool_part_id in Hroom.
  destruct fuel as [|[|fuel]]; [lia|lia|].
  eexists. split.
  2: shelve.
  unfold SimulatorV3_1.poll_status.
  destruct (Z.eqb_spec subgraph_cnt 0); [exfalso; by apply Hcnt|].
  cbn [SimulatorV3_1.poll_status_loop]. sim_reduce.
  destruct (decide (job_id ∈ (∅ : gset Z))) as [Hin|_]; [exfalso; set_solver|].
  unfold SimulatorV3_1.poll_status_round. sim_reduce.
  rewrite lookup_singleton_eq.
  destruct (decide (u16 grid_id ∈ (∅ : gset Z))) as [Hin|_]; [exfalso; set_solver|].
  unfold SimulatorV3_1.wait_some_grid_done, SimulatorV3_1.sim_cb_handler. sim_reduce.
  cbn [option_map].
  unfold SimulatorV3_1.drain_done_grids. sim_reduce.
  rewrite (right_id_L ∅ (∪)), elements_singleton. cbn [foldr]. sim_reduce.
  rewrite lookup_singleton_eq. sim_reduce.
  destruct (decide (next :: queue = [])) as [|_]; [done|].
  unfold SimulatorV3_1.fill_commit_queue. sim_reduce.
  rewrite delete_singleton_eq, map_size_empty.
  change (16 <=? Z.of_nat 0) with false. rewrite Hroom. cbn [snd]. sim_reduce.
  destruct (decide (job_id ∈ ({[job_id]} ∪ ∅ : gset Z)))
    as [_|Hout]; [|exfalso; apply Hout; set_solver].
  reflexivity.
  Unshelve. sim_reduce.
  split_and!; [done|done|done| |done|].
  - by rewrite (right_id_L ∅ (∪)), difference_diag_L.
  - do 2 (apply elem_of_cons; right). by apply elem_of_cons; left.
Qed.

Lemma poll_status_commits_next_job_witness :
  ∃ d2,
    SimulatorV3_1.poll_status example_sim_consts 2 3 1 0 AIPU_JOB_STATUS_SCHED
      example_sim_two_jobs
    = Some (AIPU_LL_STATUS_SUCCESS, AIPU_JOB_STATUS_DONE, d2) ∧
    SimulatorV3_1.m_commit_map d2 = {[ 1 := 2 ]} ∧
    SimulatorV3_1.m_buffer_queue d2 = [].
Proof.
  destruct (poll_status_commits_next_job example_sim_consts example_sim_two_jobs 3
              AIPU_JOB_STATUS_SCHED 2 1 0 (JobDesc.mk 2 1 0 0 0 16 0x20000 0x20780) [] [])
    as (d2 & H1 & H2 & H3 & _).
  - reflexivity.
  - reflexivity.
  - reflexivity.
  - reflexivity.
  - reflexivity.
  - reflexivity.
  - reflexivity.
  - reflexivity.
  - lia.
  - lia.
  - exists d2. done.
Defined.

(** ** The job: dependency flags and the backup of the chain *)

Lemma config_tcb_deps_loop_frame ps start n i tcb ret tcb' :
  JobV3_1.config_tcb_deps_loop ps start n i tcb = Some (ret, tcb') →
  tcb' = tcb_t.set_group_deps (tcb_t.group_deps tcb') tcb ∧
  length (tcb_t.group_deps tcb') = length (tcb_t.group_deps tcb).
Proof.
  revert i tcb. induction n as [|n IH]; intros i tcb H; simpl in H.
  - injection H as <- <-. by destruct tcb.
  - destruct (ps !! i) as [p|]; [|done].
    destruct (0x7fff <? p).
    + injection H as <- <-. by destruct tcb.
    + apply IH in H as [Heq Hlen]. destruct tcb. simpl in *.
      rewrite length_insert in Hlen. split; [|done]. rewrite Heq at 1. done.
Qed.

Lemma lor_dep_type_frame flag dep :
  Z.land dep (Z.lnot 0x30) = 0 →
  Z.land (Z.lor flag dep) (Z.lnot 0x30) = Z.land flag (Z.lnot 0x30).
Proof. intros Hdep. by rewrite Z.land_lor_distr_l, Hdep, Z.lor_0_r. Qed.

(** [config_tcb_deps] changes nothing of a TCB but the two dependency-type
    bits of the flag word, which it only sets, and the dependency slots,
    whose number it keeps: whatever it returns. *)
Theorem config_tcb_deps_touches_deps_only g j tcb sg_id ret tcb' :
  JobV3_1.config_tcb_deps g j tcb sg_id = Some (ret, tcb') →
  tcb' = tcb_t.set_group_deps (tcb_t.group_deps tcb')
           (tcb_t.set_flag (tcb_t.flag tcb') tcb) ∧
  Z.land (tcb_t.flag tcb') (Z.lnot 0x30) = Z.land (tcb_t.flag tcb) (Z.lnot 0x30) ∧
  Z.lor (tcb_t.flag tcb') (tcb_t.flag tcb) = tcb_t.flag tcb' ∧
  length (tcb_t.group_deps tcb') = length (tcb_t.group_deps tcb).
Proof.
  unfold JobV3_1.config_tcb_deps. intros H.
  destruct (GraphV3X.get_subgraph g sg_id) as [sg|]; [|done].
  assert (Habsorb : ∀ dep, Z.lor (Z.lor (tcb_t.flag tcb) dep) (tcb_t.flag tcb)
                           = Z.lor (tcb_t.flag tcb) dep).
  { intros dep. rewrite (Z.lor_comm (tcb_t.flag tcb) dep), <- Z.lor_assoc.
    by rewrite Z.lor_diag. }
  destruct (Subgraph.precursor_cnt sg =? SUBG_DEPEND_NONE).
  { injection H as <- <-. destruct tcb; simpl. split_and!; [done| |apply Habsorb|done].
    by apply lor_dep_type_frame. }
  destruct (_ && _).
  { pose proof (config_tcb_deps_loop_flag _ _ _ _ _ _ _ H) as Hflag.
    apply config_tcb_deps_loop_frame in H as [Heq Hlen].
    destruct tcb; simpl in *. rewrite Hflag. split_and!; [exact Heq| |apply Habsorb|done].
    by apply lor_dep_type_frame. }
  destruct (Subgraph.precursor_cnt sg =? SUBG_DEPEND_PREALL).
  { injection H as <- <-. destruct tcb; simpl. split_and!; [done| |apply Habsorb|done].
    by apply lor_dep_type_frame. }
  injection H as <- <-. destruct tcb; simpl. split_and!; [done|done|apply Z.lor_diag|done].
Qed.

Lemma config_tcb_deps_touches_deps_only_witness :
  ∃ tcb',
    JobV3_1.config_tcb_deps example_graph example_init_job example_group_init_tcb 1
    = Some (AIPU_STATUS_SUCCESS, tcb') ∧
    Z.land (tcb_t.flag tcb') (Z.lnot 0x30) = Z.land (tcb_t.flag example_group_init_tcb) (Z.lnot 0x30).
Proof.
  destruct (JobV3_1.config_tcb_deps example_graph example_init_job example_group_init_tcb 1)
    as [[ret tcb']|] eqn:H; [|vm_compute in H; discriminate H].
  destruct (config_tcb_deps_touches_deps_only _ _ _ _ _ _ H) as (_ & Hframe & _).
  exists tcb'. split; [|exact Hframe].
  vm_compute in H. injection H as <- <-. reflexivity.
Defined.

(** What a successful [init] leaves as the backup: the TCB buffer, up to
    the length of the chain. *)
Lemma init_backup MAX_GROUP_ID alloc_ret tcbs_pa g j d j' d' :
  GraphV3X.get_subgraph_cnt g ≠ 0 →
  JobV3_1.init MAX_GROUP_ID alloc_ret tcbs_pa g (j, d)
  = Some (AIPU_STATUS_SUCCESS, (j', d')) →
  JobV3_1.m_backup_tcb j'
  = take (Z.to_nat (JobV3_1.m_tot_tcb_cnt j')) (JobV3_1.m_tcbs j').
Proof.
  intros HS H. unfold JobV3_1.init in H.
  destruct (GraphV3X.is_dynamic_shape g && negb _); [done|].
  simpl in H.
  match type of H with
  | context [SimulatorV3_1.get_start_group_id ?a ?b ?c ?e] =>
      destruct (SimulatorV3_1.get_start_group_id a b c e) as [[[r start] d1]|]; [|done]
  end.
  destruct (r <? 0); [done|].
  unfold and_then, JobV3_1.alloc_load_job_buffers in H.
  destruct (decide (alloc_ret = AIPU_STATUS_SUCCESS)) as [->|];
    [|simpl in H; destruct (decide (alloc_ret = AIPU_STATUS_SUCCESS)); [done|by injection H]].
  simpl in H. unfold JobV3_1.get_subgraph_cnt in H.
  destruct (Z.eqb_spec (GraphV3X.get_subgraph_cnt g) 0); [done|].
  destruct (JobV3_1.setup_tcb_chain g _) as [[ret j2]|]; [|done].
  destruct (decide (ret = AIPU_STATUS_SUCCESS)); [|by injection H].
  injection H as <- <-. reflexivity.
Qed.

(** A job that has run before is scheduled from the chain as [init] built
    it: whatever the earlier run left in the TCB buffer, [schedule] first
    writes the backup taken by [init] over it, also when the call then
    fails. *)
Theorem schedule_restores_init_chain MAX_GROUP_ID alloc_ret tcbs_pa
    validate_schedule_status c g j0 d0 j1 d1 tcbs d ret j2 d2 :
  1 ≤ GraphV3X.get_subgraph_cnt g → 1 + GraphV3X.get_subgraph_cnt g * 5 < 2^32 →
  JobV3_1.init MAX_GROUP_ID alloc_ret tcbs_pa g (j0, d0)
  = Some (AIPU_STATUS_SUCCESS, (j1, d1)) →
  length tcbs = length (JobV3_1.m_tcbs j1) →
  validate_schedule_status (JobV3_1.m_status j1) = AIPU_STATUS_SUCCESS →
  JobV3_1.schedule validate_schedule_status c g
    (JobV3_1.set_m_tcbs tcbs (JobV3_1.set_m_backup_tcb_used true j1), d)
  = Some (ret, (j2, d2)) →
  JobV3_1.m_tcbs j2 = JobV3_1.m_tcbs j1.
Proof.
  intros HS1 HS2 Hinit Hlen Hvalid Hsched.
  assert (Hne : GraphV3X.get_subgraph_cnt g ≠ 0) by lia.
  pose proof (init_backup _ _ _ _ _ _ _ _ Hne Hinit) as Hbackup.
  destruct (init_chain _ _ _ _ _ _ _ _ HS1 HS2 Hinit) as ((_ & _ & Htot & _ & Hlen1 & _) & _).
  rewrite Htot, <- Hlen1, firstn_all in Hbackup.
  unfold JobV3_1.schedule in Hsched.
  destruct j1; simpl in *.
  rewrite Hvalid in Hsched.
  destruct (decide (AIPU_STATUS_SUCCESS ≠ AIPU_STATUS_SUCCESS)); [done|].
  unfold JobV3_1.get_subgraph_cnt in Hsched.
  destruct (Z.eqb_spec (GraphV3X.get_subgraph_cnt g) 0); [lia|].
  assert (Hrestored : take (Z.to_nat m_tot_tcb_cnt) m_backup_tcb
                      ++ drop (Z.to_nat m_tot_tcb_cnt) tcbs = m_tcbs).
  { subst m_backup_tcb m_tot_tcb_cnt.
    by rewrite <- Hlen1, firstn_all, <- Hlen, drop_all, app_nil_r. }
  destruct m_err_code as [|err [|]]; simpl in Hsched; rewrite Hrestored in Hsched;
    (destruct (JobV3_1.get_task _ _ _); [|done]);
    (destruct (GraphV3X.m_text_size g =? 0);
       [|destruct (SimulatorV3_1.schedule _ _ _) as [[r b] dd]]);
    simpl in Hsched;
    repeat match type of Hsched with
           | context [decide ?P] => destruct (decide P)
           | context [if ?b then _ else _] => destruct b
           end;
    by injection Hsched as <- <- <-.
Qed.

Lemma schedule_restores_init_chain_witness :
  ∃ ret j2 d2,
    JobV3_1.schedule JobV3_1.validate_schedule_status_spec example_sim_consts example_graph
      (example_job_after_run, example_init_sim) = Some (ret, (j2, d2)) ∧
    JobV3_1.m_tcbs j2 = JobV3_1.m_tcbs example_init_job.
Proof.
  destruct (JobV3_1.schedule JobV3_1.validate_schedule_status_spec example_sim_consts
              example_graph (example_job_after_run, example_init_sim))
    as [[ret [j2 d2]]|] eqn:H; [|vm_compute in H; discriminate H].
  exists ret, j2, d2. split; [reflexivity|].
  apply (schedule_restores_init_chain example_MAX_GROUP_ID AIPU_STATUS_SUCCESS
           example_tcbs_pa JobV3_1.validate_schedule_status_spec example_sim_consts
           example_graph example_job example_sim example_init_job example_init_sim
           (replicate 16 tcb_t.zero) example_init_sim ret j2 d2).
  - vm_compute. discriminate.
  - vm_compute. reflexivity.
  - exact example_init_succeeds.
  - vm_compute. reflexivity.
  - vm_compute. reflexivity.
  - exact H.
Defined.

(** ** SegMMU: from the section to the TCB *)

Lemma copy_seg_ctrl_wf seg segmmu_seg_ctrl :
  length seg = 4%nat → Forall (λ control, length control = 2%nat) seg →
  (8 ≤ length segmmu_seg_ctrl)%nat →
  copy_seg_ctrl seg 4 0 segmmu_seg_ctrl = Some (concat seg ++ drop 8 segmmu_seg_ctrl).
Proof.
  intros Hlen Hwf Hroom.
  destruct seg as [|s0 [|s1 [|s2 [|s3 [|]]]]]; try discriminate Hlen.
  repeat (apply Forall_cons in Hwf as [? Hwf]).
  destruct s0 as [|? [|? [|]]]; try discriminate.
  destruct s1 as [|? [|? [|]]]; try discriminate.
  destruct s2 as [|? [|? [|]]]; try discriminate.
  destruct s3 as [|? [|? [|]]]; try discriminate.
  do 8 (destruct segmmu_seg_ctrl as [|? segmmu_seg_ctrl]; [simpl in Hroom; lia|]).
  simpl. repeat (case_decide; [|simpl in *; lia]). reflexivity.
Qed.

Lemma config_tcb_smmu_single j tcb segmmu :
  JobV3_1.m_segmmu_num j = 1 → JobV3_1.m_segmmu_sec j !! 0%nat = Some segmmu →
  segmmu_wf segmmu → (8 ≤ length (group_init.segmmu_seg_ctrl tcb))%nat →
  config_tcb_smmu j tcb
  = Some (AIPU_STATUS_SUCCESS,
          group_init.mk (SegMMUConfig.SegMMU_ctl segmmu) (SegMMUConfig.SegMMU_remap segmmu)
            (SegMMUConfig.SegMMU_remap segmmu)
            (concat (SegMMUConfig.seg segmmu) ++ drop 8 (group_init.segmmu_seg_ctrl tcb))).
Proof.
  intros Hnum Hsec [Hlen Hwf] Hroom. unfold config_tcb_smmu.
  rewrite Hnum, Hsec. cbn -[copy_seg_ctrl]. by rewrite copy_seg_ctrl_wf.
Qed.

(** [config_tcb_smmu] fills the SegMMU words of a TCB only for a job with
    a single SegMMU config: control and both remap controls from the first
    config of the job, and its 4 x 2 segment control words, in order, into
    the first eight segment words.  With any other number of configs the
    TCB is returned untouched; with one config announced and none set up
    the function indexes an empty vector. *)
Theorem config_tcb_smmu_copies j tcb :
  (JobV3_1.m_segmmu_num j ≠ 1 → config_tcb_smmu j tcb = Some (AIPU_STATUS_SUCCESS, tcb)) ∧
  (JobV3_1.m_segmmu_num j = 1 →
   ∀ segmmu, JobV3_1.m_segmmu_sec j !! 0%nat = Some segmmu → segmmu_wf segmmu →
     (8 ≤ length (group_init.segmmu_seg_ctrl tcb))%nat →
     config_tcb_smmu j tcb
     = Some (AIPU_STATUS_SUCCESS,
             group_init.mk (SegMMUConfig.SegMMU_ctl segmmu) (SegMMUConfig.SegMMU_remap segmmu)
               (SegMMUConfig.SegMMU_remap segmmu)
               (concat (SegMMUConfig.seg segmmu)
                ++ drop 8 (group_init.segmmu_seg_ctrl tcb)))) ∧
  (JobV3_1.m_segmmu_num j = 1 → JobV3_1.m_segmmu_sec j = [] → config_tcb_smmu j tcb = None).
Proof.
  split_and!.
  - intros Hne. unfold config_tcb_smmu.
    destruct (Z.eqb_spec (JobV3_1.m_segmmu_num j) 1); [done|]. by rewrite andb_false_r.
  - intros Hnum segmmu. by apply config_tcb_smmu_single.
  - intros Hnum Hsec. unfold config_tcb_smmu. by rewrite Hnum, Hsec.
Qed.

(** For a graph with a single SegMMU config and no tagged buffer,
    [setup_segmmu] followed by [config_tcb_smmu] puts into the TCB the
    control word REMAP_SHARE_EN | MEM_CTRL_EN, zero remap controls and the
    eight segment control words of the section. *)
Theorem setup_segmmu_then_config_tcb_smmu g j cfg0 tcb :
  JobV3_1.m_segmmu_num j = 1 → 1 ≤ JobV3_1.m_core_cnt j →
  JobV3_1.m_segmmu_sec j = [] → JobV3_1.m_segmmus j = [] →
  GraphV3X.m_bsegmmu g !! 0%nat = Some cfg0 → segmmu_wf cfg0 →
  (8 ≤ length (group_init.segmmu_seg_ctrl tcb))%nat →
  ∃ j' bsegmmu',
    JobV3_1.setup_segmmu g j = Some (AIPU_STATUS_SUCCESS, (j', bsegmmu')) ∧
    JobV3_1.m_segmmu_sec j'
    = replicate (Z.to_nat (JobV3_1.m_core_cnt j)) (segmmu_enabled cfg0) ∧
    config_tcb_smmu j' tcb
    = Some (AIPU_STATUS_SUCCESS,
            group_init.mk 0x21 0 0
              (concat (SegMMUConfig.seg cfg0) ++ drop 8 (group_init.segmmu_seg_ctrl tcb))).
Proof.
  intros Hnum Hcores Hsec Hbufs Hcfg Hwf Hroom. unfold JobV3_1.setup_segmmu.
  rewrite Hnum, Hsec, Hbufs. simpl.
  rewrite (setup_segmmu_configs_shared _ _ _ _ cfg0 Hcfg) by lia. simpl.
  eexists _, _. split; [reflexivity|]. split; [by destruct j|].
  rewrite (config_tcb_smmu_single _ tcb (segmmu_enabled cfg0)).
  - reflexivity.
  - by destruct j.
  - destruct j; simpl.
    destruct (Z.to_nat m_core_cnt) as [|n] eqn:Hn; [simpl in Hcores; lia|done].
  - exact Hwf.
  - exact Hroom.
Qed.

Lemma setup_segmmu_then_config_tcb_smmu_witness :
  ∃ j' bsegmmu',
    JobV3_1.setup_segmmu example_single_segmmu_graph example_single_segmmu_job
    = Some (AIPU_STATUS_SUCCESS, (j', bsegmmu')) ∧
    config_tcb_smmu j' example_group_init_smmu
    = Some (AIPU_STATUS_SUCCESS,
            group_init.mk 0x21 0 0
              ([0x100; 0x104; 0x200; 0x204; 0x300; 0x304; 0x400; 0x404] ++ replicate 8 0)).
Proof.
  destruct (setup_segmmu_then_config_tcb_smmu example_single_segmmu_graph
              example_single_segmmu_job example_single_segmmu_config
              example_group_init_smmu) as (j' & bsegmmu' & H1 & _ & H2).
  - reflexivity.
  - simpl. lia.
  - reflexivity.
  - reflexivity.
  - reflexivity.
  - split; [reflexivity|]. simpl. repeat constructor.
  - simpl. lia.
  - exists j', bsegmmu'. split; [exact H1|exact H2].
Defined.

(** ** SegMMU: binding a tagged buffer *)

Lemma set_control_wf seg_idx ctrl_idx ctrl cfg :
  segmmu_wf cfg → segmmu_wf (JobV3_1.set_control seg_idx ctrl_idx ctrl cfg).
Proof.
  intros [Hlen Hwf]. split; simpl; [by rewrite length_insert|].
  destruct (SegMMUConfig.seg cfg !! seg_idx) as [control|] eqn:Hc; simpl.
  - apply Forall_insert; [done|].
    rewrite length_insert. by eapply Forall_lookup_1 in Hwf.
  - apply lookup_ge_None in Hc. by rewrite list_insert_ge by lia.
Qed.

Lemma segmmu_wf_word s_id cfg :
  segmmu_wf cfg →
  0 ≤ JobV3_1.segmmu_idx s_id < 4 → 0 ≤ JobV3_1.segmmu_ctrl_idx s_id ≤ 1 →
  ∃ control,
    SegMMUConfig.seg cfg !! Z.to_nat (JobV3_1.segmmu_idx s_id) = Some control ∧
    control !! Z.to_nat (JobV3_1.segmmu_ctrl_idx s_id) = Some (segmmu_tagged_word s_id cfg).
Proof.
  intros [Hlen Hwf] Hseg Hctrl. unfold segmmu_tagged_word.
  destruct (lookup_lt_is_Some_2 (SegMMUConfig.seg cfg)
              (Z.to_nat (JobV3_1.segmmu_idx s_id)) ltac:(lia)) as [control Hcontrol].
  rewrite Hcontrol. simpl. exists control. split; [done|].
  pose proof (Forall_lookup_1 _ _ _ _ Hwf Hcontrol) as Hl. simpl in Hl.
  destruct (lookup_lt_is_Some_2 control (Z.to_nat (JobV3_1.segmmu_ctrl_idx s_id))
              ltac:(lia)) as [w Hw].
  by rewrite Hw.
Qed.

Local Ltac range_cases :=
  repeat case_decide; try done; exfalso;
  match goal with
  | Hn : ¬ (_ ∧ _), Hy : _ ∧ _ |- _ =>
      let Hr := fresh in let Hs := fresh in
      destruct Hy as [Hr Hs]; apply Hn; split; [lia|exact Hs]
  end.

Lemma segmmu_bind_cores_spec s_id pa (n : nat) :
  0 ≤ JobV3_1.segmmu_idx s_id < 4 → 0 ≤ JobV3_1.segmmu_ctrl_idx s_id ≤ 1 →
  ∀ core_idx sec,
    0 ≤ core_idx → (Z.to_nat core_idx + n ≤ length sec)%nat → Forall segmmu_wf sec →
    ∃ sec',
      JobV3_1.segmmu_bind_cores s_id pa n core_idx sec = Some (true, sec') ∧
      length sec' = length sec ∧
      ∀ (k : nat) cfg, sec !! k = Some cfg →
        sec' !! k
        = Some (if decide (core_idx ≤ Z.of_nat k < core_idx + Z.of_nat n
                           ∧ segmmu_selects s_id (Z.of_nat k))
                then JobV3_1.set_control (Z.to_nat (JobV3_1.segmmu_idx s_id))
                       (Z.to_nat (JobV3_1.segmmu_ctrl_idx s_id))
                       (segmmu_control_word (segmmu_tagged_word s_id cfg) pa) cfg
                else cfg).
Proof.
  intros Hseg Hctrl. induction n as [|n IH]; intros core_idx sec Hidx Hlen Hwf.
  - exists sec. split; [done|]. split; [done|]. intros k cfg Hk.
    case_decide; [lia|done].
  - cbn [JobV3_1.segmmu_bind_cores].
    destruct (Z.eqb_spec (Z.land (JobV3_1.core_id_mask s_id) (Z.shiftl 1 core_idx)) 0)
      as [Hoff|Hon].
    + destruct (IH (core_idx + 1) sec ltac:(lia) ltac:(lia) Hwf) as (sec' & Hrun & Hl & Hsec').
      exists sec'. split; [done|]. split; [done|]. intros k cfg Hk.
      rewrite (Hsec' k cfg Hk).
      destruct (decide (Z.of_nat k = core_idx)) as [Heqk|Hnek]; [|range_cases].
      rewrite decide_False by lia. rewrite decide_False; [done|].
      intros [_ Hsel]. apply Hsel. by rewrite Heqk.
    + destruct (Z.leb_spec 0 (JobV3_1.segmmu_idx s_id)); [|lia].
      destruct (Z.ltb_spec (JobV3_1.segmmu_idx s_id) 4); [|lia].
      destruct (Z.leb_spec 0 (JobV3_1.segmmu_ctrl_idx s_id)); [|lia].
      destruct (Z.leb_spec (JobV3_1.segmmu_ctrl_idx s_id) 1); [|lia].
      cbn [andb].
      destruct (lookup_lt_is_Some_2 sec (Z.to_nat core_idx) ltac:(lia)) as [cfg0 Hcfg0].
      rewrite Hcfg0.
      pose proof (Forall_lookup_1 _ _ _ _ Hwf Hcfg0) as Hwf0.
      destruct (segmmu_wf_word s_id cfg0 Hwf0 Hseg Hctrl) as (control & Hcontrol & Hword).
      rewrite Hcontrol, Hword.
      fold (segmmu_control_word (segmmu_tagged_word s_id cfg0) pa).
      set (cfg1 := JobV3_1.set_control _ _ _ cfg0).
      destruct (IH (core_idx + 1) (<[Z.to_nat core_idx := cfg1]> sec) ltac:(lia))
        as (sec' & Hrun & Hl & Hsec').
      { rewrite length_insert. lia. }
      { apply Forall_insert; [done|]. by apply set_control_wf. }
      exists sec'. split; [done|]. split; [by rewrite Hl, length_insert|].
      intros k cfg Hk.
      destruct (decide (k = Z.to_nat core_idx)) as [->|Hne].
      * rewrite Hk in Hcfg0. injection Hcfg0 as ->.
        rewrite (Hsec' _ cfg1) by (apply list_lookup_insert_eq; lia).
        rewrite Z2Nat.id by done.
        rewrite decide_False by lia. rewrite decide_True; [done|].
        split; [lia|]. unfold segmmu_selects. done.
      * rewrite (Hsec' k cfg) by (by rewrite list_lookup_insert_ne).
        range_cases.
Qed.

Lemma segmmu_control_word_low ctrl pa :
  Z.land (segmmu_control_word ctrl pa) 0x3fff = Z.land ctrl 0x3fff.
Proof.
  unfold segmmu_control_word, u32.
  apply Z.bits_inj'. intros n Hn. rewrite !Z.land_spec.
  change 0x3fff with (Z.ones 14).
  destruct (Z.ltb_spec n 14) as [Hlt|Hge].
  - rewrite Z.ones_spec_low by lia. rewrite !andb_true_r.
    rewrite Z.mod_pow2_bits_low by lia.
    rewrite Z.lor_spec, !Z.land_spec, Z.lnot_spec by done.
    rewrite Z.ones_spec_low by lia. simpl. by rewrite andb_true_r, andb_false_r, orb_false_r.
  - rewrite Z.ones_spec_high by lia. by rewrite !andb_false_r.
Qed.

Lemma segmmu_control_word_high ctrl pa :
  Z.shiftr (segmmu_control_word ctrl pa) 14 = Z.shiftr (u32 pa) 14.
Proof.
  unfold segmmu_control_word, u32.
  apply Z.bits_inj'. intros n Hn. rewrite !Z.shiftr_spec by done.
  change 0x3fff with (Z.ones 14).
  destruct (Z.ltb_spec (n + 14) 32) as [Hlt|Hge].
  - rewrite !Z.mod_pow2_bits_low by lia.
    rewrite Z.lor_spec, !Z.land_spec, Z.lnot_spec by lia.
    rewrite Z.ones_spec_high by lia. simpl. by rewrite andb_false_r, andb_true_r.
  - by rewrite !Z.mod_pow2_bits_high by lia.
Qed.

(** A tagged buffer with a segment index below 4 and a control index of 0
    or 1 is bound on every core its mask selects and on no other: on such
    a core the named control word keeps its low 14 bits and takes the
    remaining bits from the low 32 bits of the buffer's address; all other
    configs and the number of configs stay as they are. *)
Theorem segmmu_bind_cores_writes s_id pa (n : nat) sec :
  0 ≤ JobV3_1.segmmu_idx s_id < 4 → 0 ≤ JobV3_1.segmmu_ctrl_idx s_id ≤ 1 →
  (n ≤ length sec)%nat → Forall segmmu_wf sec →
  ∃ sec',
    JobV3_1.segmmu_bind_cores s_id pa n 0 sec = Some (true, sec') ∧
    length sec' = length sec ∧
    (∀ (k : nat) cfg, sec !! k = Some cfg →
       ∃ cfg', sec' !! k = Some cfg' ∧
         if decide ((k < n)%nat ∧ segmmu_selects s_id (Z.of_nat k))
         then
           let word := segmmu_tagged_word s_id cfg' in
           cfg' = JobV3_1.set_control (Z.to_nat (JobV3_1.segmmu_idx s_id))
                    (Z.to_nat (JobV3_1.segmmu_ctrl_idx s_id)) word cfg ∧
           Z.land word 0x3fff = Z.land (segmmu_tagged_word s_id cfg) 0x3fff ∧
           Z.shiftr word 14 = Z.shiftr (u32 pa) 14
         else cfg' = cfg).
Proof.
  intros Hseg Hctrl Hlen Hwf.
  destruct (segmmu_bind_cores_spec s_id pa n Hseg Hctrl 0 sec ltac:(lia) ltac:(simpl; lia) Hwf)
    as (sec' & Hrun & Hl & Hsec').
  exists sec'. split; [done|]. split; [done|]. intros k cfg Hk.
  eexists. split; [exact (Hsec' k cfg Hk)|].
  pose proof (Forall_lookup_1 _ _ _ _ Hwf Hk) as Hwfk.
  destruct (decide ((k < n)%nat ∧ _)) as [[Hkn Hsel]|Hno].
  - rewrite decide_True by (split; [lia|done]).
    set (w := segmmu_control_word (segmmu_tagged_word s_id cfg) pa).
    assert (Hread : segmmu_tagged_word s_id
                      (JobV3_1.set_control (Z.to_nat (JobV3_1.segmmu_idx s_id))
                         (Z.to_nat (JobV3_1.segmmu_ctrl_idx s_id)) w cfg) = w).
    { destruct (segmmu_wf_word s_id cfg Hwfk Hseg Hctrl) as (control & Hcontrol & Hword).
      unfold segmmu_tagged_word at 1. simpl. rewrite Hcontrol. simpl.
      rewrite list_lookup_insert_eq by (by eapply lookup_lt_Some). simpl.
      rewrite list_lookup_insert_eq by (by eapply lookup_lt_Some). done. }
    cbv zeta. rewrite Hread. split_and!; [done| |].
    + apply segmmu_control_word_low.
    + apply segmmu_control_word_high.
  - rewrite decide_False; [done|]. intros [Hr Hs]. apply Hno. split; [lia|done].
Qed.

Lemma segmmu_bind_cores_writes_witness :
  ∃ sec',
    JobV3_1.segmmu_bind_cores example_segmmu_tag 0x12345678 3 0
      (replicate 3 example_single_segmmu_config) = Some (true, sec') ∧
    segmmu_tagged_word example_segmmu_tag <$> sec' = [0x12344304; 0x304; 0x12344304].
Proof.
  destruct (segmmu_bind_cores_writes example_segmmu_tag 0x12345678 3
              (replicate 3 example_single_segmmu_config)) as (sec' & Hrun & _ & _).
  - vm_compute. split; congruence.
  - vm_compute. split; congruence.
  - simpl. lia.
  - repeat (apply Forall_cons; split;
            [split; [reflexivity|simpl; repeat constructor]|]).
    apply Forall_nil_2.
  - exists sec'. split; [exact Hrun|].
    vm_compute in Hrun. injection Hrun as <-. reflexivity.
Defined.

(** ** Dynamic output shapes: the zero test sees the wrapped product *)

(** The size of an output is accumulated in 64 bits, and the zero test
    looks at what is left: a shape whose dims multiply to a multiple of
    [2^64] is refused with ZERO_TENSOR_SIZE and clears the recorded sizes,
    also when none of its dims is zero. *)
Theorem parse_out_shape_loop_wrapped_product mem outputs i shape pending ds :
  JobIOBuffer.size shape ≤ 96 * 4 →
  product (JobV3_1.read_words mem (JobIOBuffer.pa shape)
             (Z.to_nat (JobIOBuffer.size shape / 4))) mod 2^64 = 0 →
  JobV3_1.parse_out_shape_loop mem outputs i (shape :: pending) ds
  = Some (AIPU_STATUS_ERROR_ZERO_TENSOR_SIZE,
          DynamicShape.clear_config_out_tensor_size ds).
Proof.
  intros Hsize Hwrap. cbn [JobV3_1.parse_out_shape_loop].
  destruct (Z.ltb_spec (96 * 4) (JobIOBuffer.size shape)); [lia|].
  rewrite dims_product_exact. unfold u64. by rewrite Hwrap.
Qed.

Lemma parse_out_shape_loop_wrapped_product_witness :
  JobV3_1.read_words example_wrapping_mem 0x4000 4 = [0x10000; 0x10000; 0x10000; 0x10000] ∧
  JobV3_1.parse_out_shape_loop example_wrapping_mem [] 0 [example_wrapping_shape]
    (DynamicShape.mk true 0 true ∅)
  = Some (AIPU_STATUS_ERROR_ZERO_TENSOR_SIZE, DynamicShape.mk true 0 true ∅).
Proof.
  split; [vm_compute; reflexivity|].
  apply (parse_out_shape_loop_wrapped_product example_wrapping_mem [] 0
           example_wrapping_shape [] (DynamicShape.mk true 0 true ∅)).
  - simpl. lia.
  - vm_compute. reflexivity.
Defined.

(** ** The test bench: comma-separated file lists *)

Lemma skip_delims_spec delim s :
  filter (λ c, c ≠ delim) (skip_delims delim s) = filter (λ c, c ≠ delim) s ∧
  (length (skip_delims delim s) ≤ length s)%nat ∧
  (skip_delims delim s = [] ↔ Forall (λ c, c = delim) s) ∧
  (∀ c s', skip_delims delim s = c :: s' → c ≠ delim).
Proof.
  induction s as [|c s (IH1 & IH2 & IH3 & IH4)]; simpl.
  - split_and!; [done|done|split; [constructor|done]|done].
  - destruct (Z.eqb_spec c delim) as [->|Hne].
    + rewrite filter_cons_False by (intros H; by apply H). split_and!; [done|lia| |done].
      rewrite IH3. split; [by constructor|by intros [_ ?]%Forall_cons].
    + split_and!; [done|done| |by intros ? ? [= <- _]].
      split; [done|]. by intros [? _]%Forall_cons.
Qed.

Lemma take_token_spec delim s :
  (delim ∉ (take_token delim s).1) ∧
  filter (λ c, c ≠ delim) s
  = (take_token delim s).1 ++ filter (λ c, c ≠ delim) (take_token delim s).2 ∧
  (length (take_token delim s).2 ≤ length s)%nat ∧
  (∀ c s', s = c :: s' → c ≠ delim →
     (take_token delim s).1 ≠ [] ∧ (length (take_token delim s).2 < length s)%nat).
Proof.
  induction s as [|c s (IH1 & IH2 & IH3 & IH4)]; simpl.
  - split_and!; [by apply not_elem_of_nil|done|done|done].
  - destruct (Z.eqb_spec c delim) as [->|Hne]; simpl.
    + rewrite filter_cons_False by (intros H; by apply H).
      split_and!; [by apply not_elem_of_nil|done|lia|]. by intros ? ? [= <- _] ?.
    + destruct (take_token delim s) as [token rest]. simpl in *.
      rewrite filter_cons_True by done.
      split_and!; [|by rewrite IH2|lia|].
      * intros [->|?]%elem_of_cons; done.
      * intros ? ? _ _. split; [done|lia].
Qed.

Lemma filter_only_delims delim (s : list Z) :
  Forall (λ c, c = delim) s → filter (λ c, c ≠ delim) s = [].
Proof.
  induction 1 as [|c s Hc _ IH]; [done|].
  by rewrite filter_cons_False by (intros H; by apply H).
Qed.

Lemma skip_delims_pieces delim s :
  non_empty_pieces delim (skip_delims delim s) = non_empty_pieces delim s.
Proof.
  unfold non_empty_pieces. induction s as [|c s IH]; simpl; [done|].
  destruct (Z.eqb_spec c delim) as [->|Hne].
  - by rewrite filter_cons_False by (intros H; by apply H).
  - simpl. by rewrite (proj2 (Z.eqb_neq c delim) Hne).
Qed.

Lemma take_token_pieces delim s :
  ∃ later,
    pieces delim s = (take_token delim s).1 :: later ∧
    filter (λ piece, piece ≠ []) later = non_empty_pieces delim (take_token delim s).2.
Proof.
  unfold non_empty_pieces. induction s as [|c s (later & Hp & Hlater)]; simpl.
  - exists []. split; [done|]. by rewrite filter_cons_False by (intros H; by apply H).
  - destruct (Z.eqb_spec c delim) as [->|Hne]; simpl; [by eexists|].
    destruct (take_token delim s) as [token rest]. simpl in *.
    rewrite Hp. by exists later.
Qed.

Lemma strtok_spec s :
  match strtok COMMA s with
  | None => Forall (λ c, c = COMMA) s ∧ non_empty_pieces COMMA s = []
  | Some (token, rest) =>
      ¬ Forall (λ c, c = COMMA) s ∧ token ≠ [] ∧ (COMMA ∉ token) ∧
      filter (λ c, c ≠ COMMA) s = token ++ filter (λ c, c ≠ COMMA) rest ∧
      non_empty_pieces COMMA s = token :: non_empty_pieces COMMA rest ∧
      (length rest < length s)%nat
  end.
Proof.
  unfold strtok.
  destruct (skip_delims_spec COMMA s) as (Hf & Hl & Hnil & Hhead).
  pose proof (skip_delims_pieces COMMA s) as Hpieces.
  destruct (skip_delims COMMA s) as [|c s'] eqn:Hskip.
  { split; [by apply Hnil|]. rewrite <- Hpieces. unfold non_empty_pieces. simpl.
    by rewrite filter_cons_False by (intros H; by apply H). }
  destruct (take_token_spec COMMA (c :: s')) as (Hin & Hfilter & _ & Hne).
  destruct (Hne c s' eq_refl (Hhead c s' eq_refl)) as [Htok Hlen].
  destruct (take_token_pieces COMMA (c :: s')) as (later & Hp & Hlater).
  destruct (take_token COMMA (c :: s')) as [token rest]. simpl fst in *. simpl snd in *.
  split_and!; [|done|done|by rewrite <- Hf| |simpl in *; lia].
  - intros Hall. apply Hnil in Hall. done.
  - rewrite <- Hpieces. unfold non_empty_pieces at 1. rewrite Hp.
    by rewrite filter_cons_True, Hlater by done.
Qed.

Lemma push_more_tokens_spec fuel rest files :
  (length rest < fuel)%nat →
  push_more_tokens fuel rest files = files ++ non_empty_pieces COMMA rest.
Proof.
  revert rest files. induction fuel as [|fuel IH]; intros rest files Hfuel; [lia|].
  simpl. pose proof (strtok_spec rest) as Hspec.
  destruct (strtok COMMA rest) as [[token rest']|].
  - destruct Hspec as (_ & _ & _ & _ & Hpieces & Hlen).
    by rewrite IH, Hpieces, <- app_assoc by lia.
  - destruct Hspec as [_ ->]. by rewrite app_nil_r.
Qed.

Lemma non_empty_pieces_spec delim s :
  Forall (λ piece, piece ≠ [] ∧ delim ∉ piece) (non_empty_pieces delim s) ∧
  concat (non_empty_pieces delim s) = filter (λ c, c ≠ delim) s.
Proof.
  assert (Hgen : Forall (λ piece, delim ∉ piece) (pieces delim s) ∧
                 concat (pieces delim s) = filter (λ c, c ≠ delim) s).
  { induction s as [|c s [IH1 IH2]]; simpl.
    - split; [|done]. constructor; [by apply not_elem_of_nil|constructor].
    - destruct (Z.eqb_spec c delim) as [->|Hne].
      + rewrite filter_cons_False by (intros H; by apply H).
        split; [|done]. constructor; [by apply not_elem_of_nil|done].
      + rewrite filter_cons_True by done.
        destruct (pieces delim s) as [|piece ps]; simpl in *.
        * rewrite <- IH2. split; [|done].
          constructor; [|done]. by intros [->|?%elem_of_nil]%elem_of_cons.
        * rewrite <- IH2. split; [|done].
          apply Forall_cons in IH1 as [Hp Hps]. constructor; [|done].
          intros [->|?]%elem_of_cons; done. }
  destruct Hgen as [Hall Hcat]. unfold non_empty_pieces. split.
  - apply Forall_forall. intros piece [Hne Hin]%list_elem_of_filter.
    split; [done|]. by eapply Forall_forall in Hall.
  - rewrite <- Hcat. clear. induction (pieces delim s) as [|piece ps IH]; [done|].
    destruct piece as [|c piece].
    + by rewrite filter_cons_False by (intros H; by apply H).
    + rewrite filter_cons_True by done. simpl. by rewrite IH.
Qed.

(** A file list given as ["a,b,c"] is split at the commas, and the pieces
    that are not empty are appended in order: empty pieces between two
    commas or at either end are dropped, no piece holds a comma and no
    other character is lost.  An argument that is empty or made of commas
    only has no piece, and the first [push_back] is handed a null
    pointer. *)
Theorem push_file_list_tokens optarg files :
  (Forall (λ c, c = COMMA) optarg → push_file_list optarg files = None) ∧
  (¬ Forall (λ c, c = COMMA) optarg →
     let tokens := non_empty_pieces COMMA optarg in
     push_file_list optarg files = Some (files ++ tokens) ∧ tokens ≠ [] ∧
     Forall (λ token, token ≠ [] ∧ COMMA ∉ token) tokens ∧
     concat tokens = filter (λ c, c ≠ COMMA) optarg).
Proof.
  unfold push_file_list. pose proof (strtok_spec optarg) as Hspec.
  destruct (strtok COMMA optarg) as [[token rest]|]; split; try done.
  - intros Hall. by destruct Hspec as [Hno _].
  - intros _. destruct Hspec as (_ & _ & _ & _ & Hpieces & Hlen). cbv zeta.
    rewrite push_more_tokens_spec by lia.
    destruct (non_empty_pieces_spec COMMA optarg) as [Hall Hcat].
    split_and!; [by rewrite Hpieces, <- app_assoc|by rewrite Hpieces|done|done].
  - intros Hno. by destruct Hspec as [Hall _].
Qed.

Lemma push_file_list_tokens_witness :
  push_file_list example_file_list []
  = Some [[97; 46; 98; 105; 110]; [98; 46; 98; 105; 110]].
Proof.
  destruct (push_file_list_tokens example_file_list []) as [_ H].
  destruct H as (Hrun & _).
  - intros Hall. apply Forall_cons in Hall as [Hc _]. discriminate Hc.
  - rewrite Hrun. vm_compute. reflexivity.
Defined.
